(** * cartoframes: geocoding workflow, catalog repositories, BigQuery tilesets

    A shallow embedding of three parts of the library:

    - [VariableRepository] (data/observatory/repository/variable_repo.py),
    - [GBQManager] (io/managers/gbq_manager.py), the tileset generator,
    - [Geocoding] (data/services/geocoding.py).

    All three talk to a remote service.  The remote side is not part of the
    program, so it is an oracle: a function from the calls made so far and the
    call at hand to the answer, which may be a Python exception.  The program
    is a function in a state-and-exception monad whose state holds the calls
    made so far; theorems quantify over every oracle. *)

From Stdlib Require Import ZArith Lia.
From stdpp Require Import base option list strings gmap.

Open Scope Z_scope.

(** ** Python exceptions and the monad *)

Inductive exn_class : Type :=
| ValueError | KeyError | TypeError | IndexError | UnboundLocalError
| RecursionError | DiscoveryException
| Exception.   (* any other exception, raised by an external call *)

(** An exception: its class and its message, [str(err)]. *)
Record exn : Type := Exn { exn_cls : exn_class; exn_str : string }.

Definition index_error : exn := Exn IndexError "list index out of range".
Definition key_error (k : string) : exn := Exn KeyError ("'" +:+ k +:+ "'").

Inductive outcome (A : Type) : Type :=
| Returns (a : A)
| Raises (e : exn).
Arguments Returns {A} a.
Arguments Raises {A} e.

(** [M S A]: a computation over a state [S] that returns an [A] or raises. *)
Definition M (S A : Type) : Type := S -> outcome A * S.

#[export] Instance M_ret {S} : MRet (M S) := fun A a s => (Returns a, s).

#[export] Instance M_bind {S} : MBind (M S) := fun A B f m s =>
  match m s with
  | (Returns a, s') => f a s'
  | (Raises e, s') => (Raises e, s')
  end.

Definition raise {S A} (e : exn) : M S A := fun s => (Raises e, s).

(** [try: ... finally: ...]; the clean-up runs on both exits, and an exception
    of the clean-up replaces the one of the body. *)
Definition finally {S A} (body : M S A) (cleanup : M S unit) : M S A := fun s =>
  match body s with
  | (r, s') =>
      match cleanup s' with
      | (Returns _, s'') => (r, s'')
      | (Raises e, s'') => (Raises e, s'')
      end
  end.

(** [for x in l: body x] *)
Fixpoint for_each {S A} (l : list A) (body : A -> M S unit) : M S unit :=
  match l with
  | [] => mret tt
  | x :: l' => body x ≫= fun _ => for_each l' body
  end.

Definition lift_outcome {S A} (o : outcome A) : M S A := fun s => (o, s).

Definition outcome_bind {A B} (o : outcome A) (f : A -> outcome B) : outcome B :=
  match o with
  | Returns a => f a
  | Raises e => Raises e
  end.

Definition outcome_map {A B} (f : A -> B) (o : outcome A) : outcome B :=
  outcome_bind o (fun a => Returns (f a)).

(** ** VariableRepository *)

Module VariableRepo.
Section Repository.

(** A row of the catalog as the client hands it over; never inspected. *)
Variable row : Type.

(** A call [self.client.get_variables(...)], with its positional arguments. *)
Inductive client_call : Type :=
| get_variables (args : list string).

(** The repository client: the answer to a call, given the earlier calls. *)
Variable client : list client_call -> client_call -> outcome (list row).

Definition call_client (c : client_call) : M (list client_call) (list row) :=
  fun calls => (client calls c, calls ++ [c]).

(** [Variable(data)] and [Variables(list)] of data/observatory/variable.py. *)
Inductive Variable_ : Type := Variable_of (data : row).
Inductive Variables : Type := Variables_of (data : list row).

Definition _from_repo (r : row) : row := r.

Definition _to_variable (result : row) : Variable_ := Variable_of result.

Definition _to_variables (results : list row) : option Variables :=
  if (length results =? 0)%nat then None
  else Some (Variables_of (map _from_repo results)).

Definition get_all : M (list client_call) (option Variables) :=
  results ← call_client (get_variables []);
  mret (_to_variables results).

Definition no_such_variable : string :=
  "The id does not correspond with any existing variable in the catalog. " +:+
  "You can check the full list of available variables with Variables.get_all()".

Definition get_by_id (variable_id : string) : M (list client_call) Variable_ :=
  result ← call_client (get_variables ["id"; variable_id]);
  if (length result =? 0)%nat then raise (Exn DiscoveryException no_such_variable)
  else
    match result !! 0%nat with
    | Some r => mret (_to_variable (_from_repo r))
    | None => raise index_error
    end.

Definition get_by_dataset (dataset_id : string) : M (list client_call) (option Variables) :=
  results ← call_client (get_variables ["dataset_id"; dataset_id]);
  mret (_to_variables results).

Definition get_by_variable_group (variable_group_id : string)
  : M (list client_call) (option Variables) :=
  results ← call_client (get_variables ["variable_group_id"; variable_group_id]);
  mret (_to_variables results).

End Repository.
End VariableRepo.

(** ** Python values

    The scalar values that travel in the dictionaries of the program: JSON
    cells of query results, the entries of the geocoding metadata, the values
    of tileset options. *)

Inductive pyval : Type :=
| VNone
| VBool (b : bool)
| VInt (n : Z)
| VStr (s : string).

#[export] Instance pyval_eq_dec : EqDecision pyval.
Proof. solve_decision. Defined.

Definition pyval_code (v : pyval) : unit + bool + Z + string :=
  match v with
  | VNone => inl (inl (inl tt))
  | VBool b => inl (inl (inr b))
  | VInt n => inl (inr n)
  | VStr s => inr s
  end.

Definition pyval_decode (c : unit + bool + Z + string) : pyval :=
  match c with
  | inl (inl (inl _)) => VNone
  | inl (inl (inr b)) => VBool b
  | inl (inr n) => VInt n
  | inr s => VStr s
  end.

#[export] Instance pyval_countable : Countable pyval.
Proof.
  apply (inj_countable' pyval_code pyval_decode).
  intros []; reflexivity.
Defined.

(** An insertion-ordered [dict] with string keys. [dict_set] is [d[k] = v]: an
    existing key keeps its place, a new key goes last. *)
Fixpoint dict_set {V} (k : string) (v : V) (d : list (string * V)) : list (string * V) :=
  match d with
  | [] => [(k, v)]
  | (k', v') :: d' => if decide (k' = k) then (k, v) :: d' else (k', v') :: dict_set k v d'
  end.

(** [s[:-1]] *)
Fixpoint drop_last (s : string) : string :=
  match s with
  | EmptyString => EmptyString
  | String c EmptyString => EmptyString
  | String c s' => String c (drop_last s')
  end.

(** The one-character string holding a double quote. *)
Definition dquote : string := String (Ascii.ascii_of_nat 34) EmptyString.

(** The keyword argument [name] among [args]. *)
Fixpoint kwarg {V} (name : string) (args : list (string * V)) : option V :=
  match args with
  | [] => None
  | (k, v) :: args' => if decide (k = name) then Some v else kwarg name args'
  end.

(** ** GBQManager: the BigQuery tileset generator *)

Module GBQ.

Definition PREPARE_PARTITIONS : Z := 100.
Definition MAX_PARTITIONS : Z := 10000.
Definition MAX_QUADKEY_ZOOM : Z := 20.

Definition MIN_MEDIUM_LEVEL_ZOOM : Z := 9.
Definition MAX_MEDIUM_LEVEL_ZOOM : Z := 11.
Definition DEFAULT_ZOOMS : list Z := [0; 4; 8; 12; 14].

Definition TILE_EXTENT : Z := 4096.
Definition TILE_BUFFER : Z := 256.

(** The keys of [TILESET_SQL_FILEPATHS]. *)
Inductive sql_file : Type :=
| prepare | bounding_box | create_table
| insert_low_level | insert_medium_level | insert_high_level
| clean_insert | clean_prepare | available_zooms_oom.

Section Manager.

(** A Python float: a coordinate of a bounding box. *)
Variable coord : Type.

(** A keyword argument of [str.format]. *)
Inductive fmt_arg : Type :=
| FStr (s : string)
| FInt (n : Z)
| FCoord (c : coord)
| FZooms (zs : list Z).

(** [read_file(TILESET_SQL_FILEPATHS[file]).format(...)].  The text of the
    .sql files is not part of the manager, so a formatted query is the file
    and the keyword arguments it was formatted with. *)
Record query : Type := Query { q_file : sql_file; q_args : list (string * fmt_arg) }.

(** A row of a BigQuery result: [row[name]]. *)
Definition bq_row : Type := gmap string coord.

(** BigQuery: the rows a query yields, given the queries run before. *)
Variable bigquery : list query -> query -> outcome (list bq_row).

(** External libraries: mercantile, pyproj, json, and the builtins [int(s, base)]
    and [math.ceil(a / b)] (a true division of integers, on floats). *)
Variable Tile : Type.
Variable mercantile_tile : coord -> coord -> Z -> outcome Tile.
Variable mercantile_quadkey : Tile -> outcome string.
Variable py_int : string -> Z -> outcome Z.
Variable transform_3857_4326 : coord -> coord -> outcome (coord * coord).
Variable json_dumps : list (string * pyval) -> string.
Variable ceil_div : Z -> Z -> Z.

Definition execute_query (q : query) : M (list query) (list bq_row) :=
  fun queries => (bigquery queries q, queries ++ [q]).

(** [l[i]] on a list *)
Definition index {S A} (l : list A) (i : nat) : M S A :=
  match l !! i with
  | Some x => mret x
  | None => raise index_error
  end.

(** [row[name]] on a result row *)
Definition field {S} (row : bq_row) (name : string) : M S coord :=
  match row !! name with
  | Some x => mret x
  | None => raise (key_error name)
  end.

(** One pass through the body of [while True:] at the given [quadkey_zoom]:
    [inl] is [break], with the values the code reads after the loop;
    [inr] is the next [quadkey_zoom]. *)
Definition quadkey_step (bbox : list coord) (quadkey_zoom : Z)
  : M unit (Z * Z * Z + Z) :=
  b0 ← index bbox 0; b3 ← index bbox 3;
  min_tile ← lift_outcome (mercantile_tile b0 b3 quadkey_zoom);
  b2 ← index bbox 2; b1 ← index bbox 1;
  max_tile ← lift_outcome (mercantile_tile b2 b1 quadkey_zoom);
  min_quadkey ← lift_outcome (mercantile_quadkey min_tile);
  max_quadkey ← lift_outcome (mercantile_quadkey max_tile);
  min_integer_quadkey ← lift_outcome (py_int min_quadkey 4);
  max_integer_quadkey ← lift_outcome (py_int max_quadkey 4);
  if (max_integer_quadkey - min_integer_quadkey >=? MAX_PARTITIONS)
     || (quadkey_zoom =? MAX_QUADKEY_ZOOM)
  then mret (inl (quadkey_zoom, min_integer_quadkey, max_integer_quadkey))
  else mret (inr (quadkey_zoom + 1)).

(** The loop [while True: ...] of [create_empty_tileset].  [None]: the fuel was
    used up before the loop left.  Otherwise the loop left, by [break] with
    [(quadkey_zoom, min_integer_quadkey, max_integer_quadkey)] or by an
    exception. *)
Fixpoint guess_quadkey (fuel : nat) (bbox : list coord) (quadkey_zoom : Z)
  : option (outcome (Z * Z * Z)) :=
  match fuel with
  | O => None
  | S fuel' =>
      match quadkey_step bbox quadkey_zoom tt with
      | (Raises e, _) => Some (Raises e)
      | (Returns (inl r), _) => Some (Returns r)
      | (Returns (inr quadkey_zoom'), _) => guess_quadkey fuel' bbox quadkey_zoom'
      end
  end.

(** [bbox_3857] after [for row in bbox_result: bbox_3857 = [...]]: the value of
    the last row; the name is unbound when there is no row. *)
Fixpoint bbox_of_rows {S} (rows : list bq_row) (bbox_3857 : option (list coord))
  : M S (option (list coord)) :=
  match rows with
  | [] => mret bbox_3857
  | row :: rows' =>
      xmin ← field row "xmin"; ymin ← field row "ymin";
      xmax ← field row "xmax"; ymax ← field row "ymax";
      bbox_of_rows rows' (Some [xmin; ymin; xmax; ymax])
  end.

(** [if not bbox: ...]: [None] and the empty list are falsy. *)
Definition bbox_or_query (prepare_table : string) (bbox : option (list coord))
  : M (list query) (list coord) :=
  match bbox with
  | Some (c :: cs) => mret (c :: cs)
  | _ =>
      let bbox_query := Query bounding_box [("prepare_table", FStr prepare_table)] in
      bbox_result ← execute_query bbox_query;
      bound ← bbox_of_rows bbox_result None;
      match bound with
      | None => raise (Exn UnboundLocalError "local variable 'bbox_3857' referenced before assignment")
      | Some bbox_3857 =>
          x0 ← index bbox_3857 0; y0 ← index bbox_3857 1;
          '(xmin, ymin) ← lift_outcome (transform_3857_4326 x0 y0);
          x1 ← index bbox_3857 2; y1 ← index bbox_3857 3;
          '(xmax, ymax) ← lift_outcome (transform_3857_4326 x1 y1);
          mret [xmin; ymin; xmax; ymax]
      end
  end.

Definition create_empty_tileset (fuel : nat) (prepare_table : string)
  (bbox : option (list coord)) (output_table : string) (queries : list query)
  : option (outcome (list coord * Z) * list query) :=
  match bbox_or_query prepare_table bbox queries with
  | (Raises e, queries') => Some (Raises e, queries')
  | (Returns bbox, queries') =>
      (* Guess best quadkey *)
      match guess_quadkey fuel bbox 1 with
      | None => None
      | Some (Raises e) => Some (Raises e, queries')
      | Some (Returns (quadkey_zoom, min_integer_quadkey, max_integer_quadkey)) =>
          let step_integer_queadkey :=
            ceil_div (max_integer_quadkey - min_integer_quadkey) MAX_PARTITIONS in
          let create_table_query := Query create_table
            [("min_integer_quadkey", FInt min_integer_quadkey);
             ("max_integer_quadkey", FInt max_integer_quadkey);
             ("step_integer_queadkey", FInt step_integer_queadkey);
             ("output_table", FStr output_table)] in
          Some ((execute_query create_table_query ≫= fun _ =>
                 mret (bbox, quadkey_zoom)) queries')
      end
  end.

(** [zooms if zooms else DEFAULT_ZOOMS] *)
Definition zooms_or_default (zooms : option (list Z)) : list Z :=
  match zooms with
  | Some (z :: zs) => z :: zs
  | _ => DEFAULT_ZOOMS
  end.

Definition insert_low_level_zoom_data (prepare_table : string) (bbox : list coord)
  (quadkey_zoom : Z) (zooms : option (list Z)) (options : list (string * pyval))
  (output_table : string) : M (list query) unit :=
  let zooms_ := zooms_or_default zooms in
  let low_level_zooms := filter (fun zoom => zoom < MIN_MEDIUM_LEVEL_ZOOM) zooms_ in
  if bool_decide (low_level_zooms = []) then mret tt
  else
    let options_ := json_dumps options in
    xmin ← index bbox 0; ymin ← index bbox 1; xmax ← index bbox 2; ymax ← index bbox 3;
    let insert_low_level_zoom_query := Query insert_low_level
      [("prepare_table", FStr prepare_table);
       ("xmin", FCoord xmin); ("ymin", FCoord ymin);
       ("xmax", FCoord xmax); ("ymax", FCoord ymax);
       ("zooms", FZooms low_level_zooms);
       ("quadkey_zoom", FInt quadkey_zoom);
       ("tile_extent", FInt TILE_EXTENT); ("tile_buffer", FInt TILE_BUFFER);
       ("options", FStr options_); ("output_table", FStr output_table)] in
    execute_query insert_low_level_zoom_query ≫= fun _ => mret tt.

Definition _complete_options (options : list (string * pyval)) : string :=
  let options_ := dict_set "mvt_geom" (VInt 1) options in
  let options_ := json_dumps options_ in
  drop_last options_ +:+
    ", " +:+ dquote +:+ "z" +:+ dquote +:+ ": %d, " +:+
    dquote +:+ "x" +:+ dquote +:+ ": %d, " +:+
    dquote +:+ "y" +:+ dquote +:+ ": %d}".

Definition _insert_medium_level_zoom_data (prepare_table : string) (bbox : list coord)
  (quadkey_zoom : Z) (zoom : Z) (options : string) (output_table : string)
  : M (list query) unit :=
  xmin ← index bbox 0; ymin ← index bbox 1; xmax ← index bbox 2; ymax ← index bbox 3;
  let insert_medium_level_zoom_query := Query insert_medium_level
    [("prepare_table", FStr prepare_table);
     ("xmin", FCoord xmin); ("ymin", FCoord ymin);
     ("xmax", FCoord xmax); ("ymax", FCoord ymax);
     ("zooms", FZooms [zoom]);
     ("quadkey_zoom", FInt quadkey_zoom);
     ("tile_extent", FInt TILE_EXTENT); ("tile_buffer", FInt TILE_BUFFER);
     ("options", FStr options); ("output_table", FStr output_table)] in
  execute_query insert_medium_level_zoom_query ≫= fun _ => mret tt.

Definition insert_medium_level_zoom_data (prepare_table : string) (bbox : list coord)
  (quadkey_zoom : Z) (zooms : option (list Z)) (options : list (string * pyval))
  (output_table : string) : M (list query) unit :=
  let zooms_ := zooms_or_default zooms in
  let medium_level_zooms :=
    filter (fun zoom => zoom >= MIN_MEDIUM_LEVEL_ZOOM ∧ zoom <= MAX_MEDIUM_LEVEL_ZOOM)
      zooms_ in
  if bool_decide (medium_level_zooms = []) then mret tt
  else
    let options_ := _complete_options options in
    for_each medium_level_zooms (fun zoom =>
      _insert_medium_level_zoom_data prepare_table bbox quadkey_zoom zoom options_
        output_table).

Definition _insert_high_level_zoom_data (prepare_table : string) (bbox : list coord)
  (quadkey_zoom : Z) (zoom : Z) (options : string) (output_table : string)
  : M (list query) unit :=
  let zooms := [MAX_MEDIUM_LEVEL_ZOOM] in
  let depth := zoom - MAX_MEDIUM_LEVEL_ZOOM in
  xmin ← index bbox 0; ymin ← index bbox 1; xmax ← index bbox 2; ymax ← index bbox 3;
  let insert_high_level_zoom_query := Query insert_high_level
    [("prepare_table", FStr prepare_table);
     ("xmin", FCoord xmin); ("ymin", FCoord ymin);
     ("xmax", FCoord xmax); ("ymax", FCoord ymax);
     ("zooms", FZooms zooms); ("depth", FInt depth);
     ("quadkey_zoom", FInt quadkey_zoom);
     ("tile_extent", FInt TILE_EXTENT); ("tile_buffer", FInt TILE_BUFFER);
     ("options", FStr options); ("output_table", FStr output_table)] in
  execute_query insert_high_level_zoom_query ≫= fun _ => mret tt.

Definition insert_high_level_zoom_data (prepare_table : string) (bbox : list coord)
  (quadkey_zoom : Z) (zooms : option (list Z)) (options : list (string * pyval))
  (output_table : string) : M (list query) unit :=
  let zooms_ := zooms_or_default zooms in
  let high_level_zooms := filter (fun zoom => zoom > MAX_MEDIUM_LEVEL_ZOOM) zooms_ in
  if bool_decide (high_level_zooms = []) then mret tt
  else
    let options_ := _complete_options options in
    for_each high_level_zooms (fun zoom =>
      _insert_high_level_zoom_data prepare_table bbox quadkey_zoom zoom options_
        output_table).

End Manager.
End GBQ.

(** ** Geocoding *)

Module Geocoding.

(** A pandas [DataFrame]: column names and rows of cells. *)
Record dataframe : Type := DataFrame {
  df_columns : list string;
  df_rows : list (list pyval) }.

(** The [source] argument: ``table, SQL query or DataFrame object''.  A table
    and a query are both a [str]. *)
Inductive source : Type :=
| SrcStr (s : string)
| SrcDataFrame (df : dataframe).

(** The [city], [state] and [country] arguments: [None], a [str], or a [dict]
    with a [column] or a [value] key. *)
Inductive geoarg : Type :=
| ArgNone
| ArgStr (s : string)
| ArgDict (d : list (string * string)).

(** The [status] argument: a [dict] from attributes to column names, or a list
    of attributes. *)
Inductive status_arg : Type :=
| StatusNone
| StatusDict (d : list (string * string))
| StatusList (l : list string).

(** The answer of the SQL API to a query, a [dict]: [result.get('rows')] and
    [result.get('total_rows')].  A row is a [dict] from column names to
    cells. *)
Record qresult : Type := QResult {
  q_rows : option (list (gmap string pyval));
  q_total_rows : option Z }.

(** [self.result(data=..., metadata=...)], the named tuple [(data, metadata)]. *)
Record result : Type := Result {
  data : option dataframe;
  metadata : gmap string pyval }.

(** The calls that leave the process, in the order they are made. *)
Inductive event : Type :=
| E_get_column_names (src : source)
| E_has_table (table_name : string)
| E_to_carto (src : source) (table_name : string) (if_exists : option string)
| E_copy_table (src : source) (table_name : string) (if_exists : string)
| E_create_table_from_query (src : source) (table_name : string) (if_exists : string)
| E_delete_table (table_name : string)
| E_update_table (table_name new_table_name privacy : string)
| E_read_carto (table_name : string)
| E_execute_query (sql : string)
| E_execute_long_running_query (sql : string)
| E_lock_enter (table_name : string) (locked : bool)
| E_lock_exit (table_name : string)
| E_print (msg : string).

#[export] Instance dataframe_eq_dec : EqDecision dataframe.
Proof. solve_decision. Defined.
#[export] Instance source_eq_dec : EqDecision source.
Proof. solve_decision. Defined.
#[export] Instance event_eq_dec : EqDecision event.
Proof. solve_decision. Defined.

(** The remote side (CARTO's SQL API and the [io.carto] functions that call
    it, the name generator of [Service]): the answer to a call, given the calls
    made before it.  Any call may raise. *)
Record remote : Type := Remote {
  r_column_names : list event -> source -> outcome (list string);
  r_has_table : list event -> string -> outcome bool;
  r_query : list event -> string -> outcome (option qresult);
  r_long_running_query : list event -> string -> outcome (option qresult);
  r_lock : list event -> string -> outcome bool;
  r_read_carto : list event -> string -> outcome dataframe;
  r_command : list event -> event -> outcome unit;
  r_temporary_table_name : list event -> string }.

(** The modules [geocoding_utils] and [geocoding_constants] of [.utils], the
    classification of a [str] source by [SourceManager], and the regular
    expression of [_geocode]; none of them is defined in geocoding.py, which
    only calls them. *)
Record utils : Type := Utils {
  HASH_COLUMN : string;
  DEFAULT_STATUS : status_arg;
  is_sql_query : string -> bool;
  column_or_value_arg : geoarg -> list string -> outcome geoarg;
  hash_expr : string -> geoarg -> geoarg -> geoarg -> string -> string;
  geocode_query : string -> string -> geoarg -> geoarg -> geoarg -> status_arg ->
                  string * list (string * string);
  exists_column_query : string -> string -> string;
  first_time_summary_query : string -> string -> geoarg -> geoarg -> geoarg -> string;
  prior_summary_query : string -> string -> geoarg -> geoarg -> geoarg -> string;
  posterior_summary_query : string -> string;
  set_pre_summary_info : gmap pyval pyval -> gmap string pyval -> outcome (gmap string pyval);
  set_post_summary_info : gmap pyval pyval -> option qresult -> gmap string pyval ->
                          outcome (gmap string pyval);
  (* [re.search(r'Remaining quota:\s+(\d+)\.\s+Estimated cost:\s+(\d+)', msg, ...)],
     with [int] of the two groups *)
  search_quota : string -> option (Z * Z) }.

(** The state: the calls made so far and the attributes of [self]. *)
Record world : Type := World {
  calls : list event;
  _source_manager : source;
  columns : list string }.

Section Service.

Variable U : utils.
Variable R : remote.

Definition emit (e : event) (w : world) : world :=
  World (calls w ++ [e]) (_source_manager w) (columns w).

(** A call that returns a value. *)
Definition ask {A} (e : event) (answer : list event -> outcome A) : M world A :=
  fun w => (answer (calls w), emit e w).

(** A call made for its effect. *)
Definition command (e : event) : M world unit :=
  ask e (fun cs => r_command R cs e).

Definition has_table (table_name : string) : M world bool :=
  ask (E_has_table table_name) (fun cs => r_has_table R cs table_name).

Definition get_column_names (src : source) : M world (list string) :=
  ask (E_get_column_names src) (fun cs => r_column_names R cs src).

Definition to_carto (src : source) (table_name : string) (if_exists : option string)
  : M world unit := command (E_to_carto src table_name if_exists).

Definition copy_table (src : source) (table_name if_exists : string) : M world unit :=
  command (E_copy_table src table_name if_exists).

Definition create_table_from_query (src : source) (table_name if_exists : string)
  : M world unit := command (E_create_table_from_query src table_name if_exists).

Definition delete_table (table_name : string) : M world unit :=
  command (E_delete_table table_name).

Definition update_table (table_name new_table_name privacy : string) : M world unit :=
  command (E_update_table table_name new_table_name privacy).

Definition read_carto (table_name : string) : M world dataframe :=
  ask (E_read_carto table_name) (fun cs => r_read_carto R cs table_name).

Definition _execute_query (sql : string) : M world (option qresult) :=
  ask (E_execute_query sql) (fun cs => r_query R cs sql).

Definition _execute_long_running_query (sql : string) : M world (option qresult) :=
  ask (E_execute_long_running_query sql) (fun cs => r_long_running_query R cs sql).

Definition print (msg : string) : M world unit :=
  fun w => (Returns tt, emit (E_print msg) w).

Definition _new_temporary_table_name : M world string :=
  fun w => (Returns (r_temporary_table_name R (calls w)), w).

(** Modelled from the spec: [TableGeocodingLock] of [.utils], the ``lock'' of
    the geocoding workflow, used as [with TableGeocodingLock(...) as locked:].
    Entering asks the remote side for the lock of the table and binds the
    answer to [locked]; the block is left through the exit of the context
    manager, also when the block raises. *)
Definition lock_enter (table_name : string) : M world bool := fun w =>
  match r_lock R (calls w) table_name with
  | Returns locked => (Returns locked, emit (E_lock_enter table_name locked) w)
  | Raises e => (Raises e, emit (E_lock_enter table_name false) w)
  end.

Definition with_TableGeocodingLock {A} (table_name : string) (body : bool -> M world A)
  : M world A :=
  locked ← lock_enter table_name;
  finally (body locked) (command (E_lock_exit table_name)).

(** Modelled from the spec: [SourceManager] of [core.managers], which tells
    which of ``table, SQL query or DataFrame object'' the source is. *)
Definition is_table (src : source) : bool :=
  match src with SrcStr s => negb (is_sql_query U s) | SrcDataFrame _ => false end.
Definition is_query (src : source) : bool :=
  match src with SrcStr s => is_sql_query U s | SrcDataFrame _ => false end.
Definition is_dataframe (src : source) : bool :=
  match src with SrcStr _ => false | SrcDataFrame _ => true end.

Definition set_source_manager (src : source) : M world unit :=
  fun w => (Returns tt, World (calls w) src (columns w)).
Definition set_columns (cols : list string) : M world unit :=
  fun w => (Returns tt, World (calls w) (_source_manager w) cols).
Definition self_source_manager : M world source := fun w => (Returns (_source_manager w), w).
Definition self_columns : M world (list string) := fun w => (Returns (columns w), w).

(** Truth value of an optional [str]: [None] and [''] are falsy. *)
Definition truthy (s : option string) : bool :=
  match s with Some s => bool_decide (s ≠ "") | None => false end.

(** A [str] known to be there. *)
Definition the (s : option string) : string := default "" s.

(** [d[k]] on the metadata *)
Definition getitem (d : gmap string pyval) (k : string) : M world pyval :=
  match d !! k with
  | Some v => mret v
  | None => raise (key_error k)
  end.

(** [v > 0] *)
Definition gt_zero (v : pyval) : M world bool :=
  match v with
  | VInt n => mret (0 <? n)
  | VBool b => mret b
  | VNone | VStr _ => raise (Exn TypeError "'>' not supported between these instances")
  end.

(** [row.get(k)] *)
Definition row_get (row : gmap string pyval) (k : string) : pyval :=
  default VNone (row !! k).

(** [not result or result.get('total_rows', 0) == 0] *)
Definition first_time (result : option qresult) : bool :=
  match result with
  | None => true
  | Some r => bool_decide (default 0 (q_total_rows r) = 0)
  end.

Definition _execute_prior_summary (dataset_name street : string)
  (city state country : geoarg) : M world (option qresult) :=
  let sql := exists_column_query U dataset_name (HASH_COLUMN U) in
  result ← _execute_query sql;
  let sql :=
    if first_time result
    then first_time_summary_query U dataset_name street city state country
    else prior_summary_query U dataset_name street city state country in
  _execute_query sql.

(** The six counters [summary] starts from. *)
Definition gc_states : list string :=
  ["new_geocoded"; "new_nongeocoded";
   "changed_geocoded"; "changed_nongeocoded";
   "previously_geocoded"; "previously_nongeocoded"].

Definition summary0 : gmap pyval pyval :=
  list_to_map (map (fun s => (VStr s, VInt 0)) gc_states).

(** [for row in rows: summary[row.get('gc_state')] = row.get('count')] *)
Definition summarize (rows : list (gmap string pyval)) (summary : gmap pyval pyval)
  : gmap pyval pyval :=
  foldl (fun summary row =>
           let gc_state := row_get row "gc_state" in
           let count := row_get row "count" in
           <[gc_state := count]> summary) summary rows.

Definition already_geocoded : string := "The table is already being geocoded".

(** [except Exception as err: ...], the handler in [_geocode] *)
Definition quota_error (msg : string) (output : gmap string pyval) : gmap string pyval :=
  let output := <["error" := VStr msg]> output in
  match search_quota U msg with
  | Some (remaining, cost) =>
      <["estimated_cost" := VInt cost]> (<["remaining_quota" := VInt remaining]> output)
  | None => output
  end.

(** [try: result = self._execute_long_running_query(sql)] with its handler;
    returns [output] and [aborted]. *)
Definition try_long_running_query (sql : string) (output : gmap string pyval)
  : M world (gmap string pyval * bool) := fun w =>
  match _execute_long_running_query sql w with
  | (Returns _, w') => (Returns (output, false), w')
  | (Raises err, w') => (Returns (quota_error (exn_str err) output, true), w')
  end.

(** ["ALTER TABLE {table} {add_columns};".format(...)] with the columns joined
    by [','] *)
Definition alter_sql (table_name : string) (add_columns : list (string * string)) : string :=
  "ALTER TABLE " +:+ table_name +:+ " " +:+
  String.concat ","
    (map (fun '(name, type) => "ADD COLUMN IF NOT EXISTS " +:+ name +:+ " " +:+ type)
       add_columns) +:+ ";".

(** [if result: for row in result.get('rows'): ...], from the initial
    [summary] *)
Definition prior_summary (result : option qresult) : outcome (gmap pyval pyval) :=
  match result with
  | None => Returns summary0
  | Some r =>
      match q_rows r with
      | Some rows => Returns (summarize rows summary0)
      | None => Raises (Exn TypeError "'NoneType' object is not iterable")
      end
  end.

Definition _geocode (table_name street : string) (city state country : geoarg)
  (status : status_arg) (dry_run : bool) : M world (gmap string pyval) :=
  let output : gmap string pyval := ∅ in
  result ← _execute_prior_summary table_name street city state country;
  summary ← lift_outcome (prior_summary result);
  output ← lift_outcome (set_pre_summary_info U summary output);
  let aborted := false in
  required_quota ← getitem output "required_quota";
  positive ← gt_zero required_quota;
  if positive && negb dry_run then
    '(output, aborted) ← with_TableGeocodingLock table_name (fun locked =>
      if negb locked then
        let output := <["error" := VStr already_geocoded]> output in
        let output := <["aborted" := VBool true]> output in
        mret (output, true)
      else
        let '(sql, add_columns) := geocode_query U table_name street city state country status in
        let add_columns := add_columns ++ [(HASH_COLUMN U, "text")] in
        _ ← _execute_query (alter_sql table_name add_columns);
        try_long_running_query sql output);
    if negb aborted then
      let sql := posterior_summary_query U table_name in
      result ← _execute_query sql;
      lift_outcome (set_post_summary_info U summary result output)
    else mret output
  else mret output.

Definition _table_for_geocoding (source_ : source) (table_name : option string)
  (if_exists : string) (dry_run : bool) : M world (string * bool) :=
  sm ← self_source_manager;
  if is_table sm then
    if truthy table_name then
      _ ← copy_table source_ (the table_name) if_exists;
      mret (the table_name, false)
    else
      mret (match source_ with SrcStr s => s | SrcDataFrame _ => the table_name end, false)
  else if is_query sm then
    '(input_table_name, is_temporary) ←
      (if negb (truthy table_name)
       then name ← _new_temporary_table_name; mret (name, true)
       else mret (the table_name, false) : M world (string * bool));
    _ ← create_table_from_query source_ input_table_name if_exists;
    mret (input_table_name, is_temporary)
  else if is_dataframe sm then
    '(input_table_name, is_temporary) ←
      (if negb (truthy table_name)
       then name ← _new_temporary_table_name; mret (name, true)
       else mret (the table_name, false) : M world (string * bool));
    _ ← to_carto source_ input_table_name (Some if_exists);
    mret (input_table_name, is_temporary)
  else mret (the table_name, false).

Definition no_table_name : string :=
  "There is no " +:+ dquote +:+ "table_name" +:+ dquote +:+ " to cache the data".

(** The line break and indentation inside the triple-quoted SQL templates. *)
Definition nl : string := String (Ascii.ascii_of_nat 10) "            ".

(** The first SQL template of [_cached_geocode], formatted. *)
Definition add_hash_column_sql (tmp_table hash : string) : string :=
  nl +:+ "ALTER TABLE " +:+ tmp_table +:+ " ADD COLUMN IF NOT EXISTS " +:+ hash +:+ " text" +:+
  nl.

(** The second SQL template of [_cached_geocode], formatted. *)
Definition update_from_cache_sql (tmp_table table hash hash_expr : string) : string :=
  nl +:+ "UPDATE " +:+ tmp_table +:+
  " SET " +:+ hash +:+ "=" +:+ table +:+ "." +:+ hash +:+
  ", the_geom=" +:+ table +:+ ".the_geom" +:+
  nl +:+ "FROM " +:+ table +:+
  " WHERE " +:+ hash_expr +:+ "=" +:+ table +:+ "." +:+ hash +:+
  nl.

(** [_cached_geocode]; [self_geocode] is [self.geocode]. *)
Definition _cached_geocode
  (self_geocode : source -> string -> geoarg -> geoarg -> geoarg -> status_arg ->
                  option string -> string -> bool -> bool -> M world result)
  (source_ : source) (table_name street : string) (city state country : geoarg)
  (dry_run : bool) : M world result :=
  has_cache ← has_table table_name;
  _ ← (if has_cache then
         cache_columns ← get_column_names (SrcStr table_name);
         if bool_decide (HASH_COLUMN U ∉ cache_columns)
         then raise (Exn ValueError ("Cache table " +:+ table_name +:+
                                 " exists but is not a valid geocode table"))
         else mret tt
       else mret tt);
  self_cols ← self_columns;
  if bool_decide (HASH_COLUMN U ∈ self_cols) || negb has_cache then
    self_geocode source_ street city state country (DEFAULT_STATUS U)
      (Some table_name) "replace" dry_run false
  else
    tmp_table_name ← _new_temporary_table_name;
    sm ← self_source_manager;
    if is_table sm then raise (Exn ValueError "cached geocoding cannot be used with tables")
    else
      _ ← to_carto source_ tmp_table_name None;
      _ ← _execute_query (add_hash_column_sql tmp_table_name (HASH_COLUMN U));
      hcity ← lift_outcome (column_or_value_arg U city self_cols);
      hstate ← lift_outcome (column_or_value_arg U state self_cols);
      hcountry ← lift_outcome (column_or_value_arg U country self_cols);
      let hash_expr_ := hash_expr U street hcity hstate hcountry tmp_table_name in
      _ ← _execute_query
            (update_from_cache_sql tmp_table_name table_name (HASH_COLUMN U) hash_expr_);
      _ ← delete_table table_name;
      _ ← update_table tmp_table_name table_name "private";
      r ← self_geocode (SrcStr table_name) street city state country (DEFAULT_STATUS U)
            None "fail" dry_run false;
      mret (Result (data r) (metadata r)).

(** [geocode]; [depth] bounds the nesting of calls of [geocode] in itself
    through [_cached_geocode], as the interpreter's recursion limit does. *)
Fixpoint geocode (depth : nat) (source_ : source) (street : string)
  (city state country : geoarg) (status : status_arg) (table_name : option string)
  (if_exists : string) (dry_run : bool) (cached : bool) {struct depth} : M world result :=
  match depth with
  | O => raise (Exn RecursionError "maximum recursion depth exceeded")
  | S depth' =>
      _ ← set_source_manager source_;
      cols ← get_column_names source_;
      _ ← set_columns cols;
      if cached then
        if negb (truthy table_name) then raise (Exn ValueError no_table_name)
        else _cached_geocode (geocode depth') source_ (the table_name) street
               city state country dry_run
      else
        city ← lift_outcome (column_or_value_arg U city cols);
        state ← lift_outcome (column_or_value_arg U state cols);
        country ← lift_outcome (column_or_value_arg U country cols);
        '(input_table_name, is_temporary) ←
          _table_for_geocoding source_ table_name if_exists dry_run;
        metadata ← _geocode input_table_name street city state country status dry_run;
        if dry_run then mret (Result None metadata)
        else
          cdf ← read_carto input_table_name;
          _ ← (if is_temporary : bool then delete_table input_table_name else mret tt);
          let result := Result (Some cdf) metadata in
          _ ← print "Success! Data geocoded correctly";
          mret result
  end.

End Service.
End Geocoding.


(** ** Properties of traces *)

Module Trace.
Import Geocoding.

(** Reads the events in order, keeping whether the lock of [table_name] is
    held ([held], between a successful enter and the exit): does every
    long-running query come while it is held? *)
Fixpoint long_queries_under_lock (table_name : string) (held : bool) (evs : list event)
  : bool :=
  match evs with
  | [] => true
  | E_lock_enter t locked :: evs' =>
      long_queries_under_lock table_name (if decide (t = table_name) then locked else held) evs'
  | E_lock_exit t :: evs' =>
      long_queries_under_lock table_name (if decide (t = table_name) then false else held) evs'
  | E_execute_long_running_query _ :: evs' =>
      held && long_queries_under_lock table_name held evs'
  | _ :: evs' => long_queries_under_lock table_name held evs'
  end.

Definition is_lock_enter (e : event) : Prop :=
  match e with E_lock_enter _ _ => True | _ => False end.

Definition is_long_running_query (e : event) : Prop :=
  match e with E_execute_long_running_query _ => True | _ => False end.

Definition is_to_carto (e : event) : Prop :=
  match e with E_to_carto _ _ _ => True | _ => False end.

(** Every run of [m] appends to the calls only events that satisfy [φ], and a
    value it returns satisfies [Q]. *)
Definition emits {A} (φ : event -> Prop) (m : M world A) (Q : A -> Prop) : Prop :=
  ∀ w r w', m w = (r, w') ->
    (∃ evs, calls w' = calls w ++ evs ∧ Forall φ evs) ∧
    (∀ a, r = Returns a -> Q a).

(** One of the queries of the prior summary of [_geocode]. *)
Definition prior_summary_event (U : utils) (table_name street : string)
  (city state country : geoarg) (e : event) : Prop :=
  e = E_execute_query (exists_column_query U table_name (HASH_COLUMN U)) ∨
  e = E_execute_query (first_time_summary_query U table_name street city state country) ∨
  e = E_execute_query (prior_summary_query U table_name street city state country).

(** A call that works on a table where it is: a query or the lock. *)
Definition in_place (e : event) : Prop :=
  match e with
  | E_execute_query _ | E_execute_long_running_query _
  | E_lock_enter _ _ | E_lock_exit _ => True
  | _ => False
  end.

(** The uploads among [evs] are of a dataframe that holds, of the rows of
    [df], those whose content hash [row_hash] is not among the hashes stored
    in the cache table, and no other row. *)
Definition only_changed_rows_uploaded (row_hash : list pyval -> string)
  (cache_hashes : list string) (df : dataframe) (evs : list event) : Prop :=
  ∀ src table_name if_exists, E_to_carto src table_name if_exists ∈ evs ->
    ∃ df', src = SrcDataFrame df' ∧
           df_rows df' = filter (fun row => row_hash row ∉ cache_hashes) (df_rows df).

(** No lock is asked for and no long-running query is executed. *)
Definition no_geocoding (e : event) : Prop :=
  ¬ is_lock_enter e ∧ ¬ is_long_running_query e.

End Trace.

(** ** The state of the lock along a trace *)

Module Locks.
Import Geocoding.

(** Whether the lock of [table_name] is held after the events, when it was
    [held] before them: a successful enter takes it, the exit gives it back. *)
Fixpoint lock_held (table_name : string) (held : bool) (evs : list event) : bool :=
  match evs with
  | [] => held
  | E_lock_enter t locked :: evs' =>
      lock_held table_name (if decide (t = table_name) then locked else held) evs'
  | E_lock_exit t :: evs' =>
      lock_held table_name (if decide (t = table_name) then false else held) evs'
  | _ :: evs' => lock_held table_name held evs'
  end.

(** The message of the [ValueError] for a cache table without the hash
    column. *)
Definition invalid_cache_message (table_name : string) : string :=
  "Cache table " +:+ table_name +:+ " exists but is not a valid geocode table".

End Locks.

(** ** GBQManager: table names and input schemas *)

Module GBQNames.

Definition dot : Ascii.ascii := Ascii.ascii_of_nat 46.

(** [s.split('.')]: the pieces of [s] between the dots; there is always at
    least one piece. *)
Fixpoint split_dots (s : string) : list string :=
  match s with
  | EmptyString => [EmptyString]
  | String c s' =>
      if decide (c = dot) then EmptyString :: split_dots s'
      else match split_dots s' with
           | piece :: pieces => String c piece :: pieces
           | [] => [String c EmptyString]
           end
  end.

(** [l[-k]] for [k >= 1] *)
Definition from_end {A} (l : list A) (k : nat) : outcome A :=
  if decide (k <= length l)%nat then
    match l !! (length l - k)%nat with
    | Some x => Returns x
    | None => Raises index_error
    end
  else Raises index_error.

Definition split_table_name (table_name : string)
  : outcome (option string * string * string) :=
  let table_name_split := split_dots table_name in
  let project := if decide (length table_name_split = 3%nat)
                 then table_name_split !! 0%nat else None in
  outcome_bind (from_end table_name_split 2) (fun dataset =>
  outcome_bind (from_end table_name_split 1) (fun table =>
  Returns (project, dataset, table))).

(** No dot occurs in [s]. *)
Fixpoint dotless (s : string) : Prop :=
  match s with
  | EmptyString => True
  | String c s' => c ≠ dot ∧ dotless s'
  end.

End GBQNames.

Module GBQSchema.

Definition BIG_QUERY_NUMBER_TYPES : list string := ["INTEGER"; "INT64"; "FLOAT"; "FLOAT64"].
Definition BIG_QUERY_REPEATED_MODE : string := "REPEATED".

(** A [SchemaField] of BigQuery, as far as the manager reads it. *)
Record field : Type := Field {
  name : string;
  field_type : string;
  mode : string }.

(** A field that gets a minimum and a maximum: of a number type and not
    repeated. *)
Definition numeric (f : field) : Prop :=
  field_type f ∈ BIG_QUERY_NUMBER_TYPES ∧ mode f ≠ BIG_QUERY_REPEATED_MODE.

Section Schema.

(** A value of a result row: a minimum or a maximum. *)
Variable val : Type.

(** An entry of the schema that [get_input_schema] returns: the [dict] with
    [type] and [mode], and with [min] and [max] once they are set. *)
Record entry : Type := Entry {
  e_type : string;
  e_mode : string;
  e_min : option val;
  e_max : option val }.

(** The calls to BigQuery: [client.get_table(table_id)] and
    [client.query(query).result()], which carries a schema and rows. *)
Inductive bq_call : Type :=
| get_table (table_id : string)
| run_query (query : string).

Record bq_result : Type := BqResult {
  result_schema : list field;
  result_rows : list (gmap string val) }.

Variable bq_table : list bq_call -> string -> outcome (list field).
Variable bq_query : list bq_call -> string -> outcome bq_result.

(** [get_query_from_table] of [utils.utils], which the manager imports. *)
Variable get_query_from_table : string -> string.

Definition execute_query (query : string) : M (list bq_call) bq_result :=
  fun calls => (bq_query calls query, calls ++ [run_query query]).

Definition get_big_query_table_schema (table_id : string) : M (list bq_call) (list field) :=
  fun calls => (bq_table calls table_id, calls ++ [get_table table_id]).

Definition get_big_query_query_schema (query : string) : M (list bq_call) (list field) :=
  result ← execute_query (query +:+ " LIMIT 1;");
  mret (result_schema result).

(** The state of the loop over the fields: [min_max_names],
    [min_max_select] and [schema]. *)
Definition scan_state : Type := list string * list string * gmap string entry.

(** The body of [for field in fields:] *)
Definition scan_field (index_col geom_col : string) (st : scan_state) (f : field)
  : scan_state :=
  let '(min_max_names, min_max_select, schema) := st in
  if decide (name f = geom_col) then st
  else
    let name_ := if decide (name f = index_col) then index_col else name f in
    let '(min_max_names, min_max_select) :=
      if bool_decide (field_type f ∈ BIG_QUERY_NUMBER_TYPES) &&
         bool_decide (mode f ≠ BIG_QUERY_REPEATED_MODE)
      then (min_max_names ++ [name_],
            min_max_select ++
              ["MIN(" +:+ name f +:+ ") AS " +:+ name_ +:+ "_min";
               "MAX(" +:+ name f +:+ ") AS " +:+ name_ +:+ "_max"])
      else (min_max_names, min_max_select) in
    (min_max_names, min_max_select,
     <[name_ := Entry (field_type f) (mode f) None None]> schema).

Definition scan_fields (index_col geom_col : string) (fields : list field) : scan_state :=
  foldl (scan_field index_col geom_col) ([], [], ∅) fields.

(** [row[key]] *)
Definition row_item (row : gmap string val) (key : string) : outcome val :=
  match row !! key with
  | Some v => Returns v
  | None => Raises (key_error key)
  end.

(** [schema[name]['min'] = ...; schema[name]['max'] = ...], for one name of
    one row *)
Definition set_min_max (row : gmap string val) (schema : gmap string entry)
  (name_ : string) : outcome (gmap string entry) :=
  outcome_bind (row_item row (name_ +:+ "_min")) (fun lo =>
  match schema !! name_ with
  | None => Raises (key_error name_)
  | Some e =>
      let schema := <[name_ := Entry (e_type e) (e_mode e) (Some lo) (e_max e)]> schema in
      outcome_bind (row_item row (name_ +:+ "_max")) (fun hi =>
      Returns (<[name_ := Entry (e_type e) (e_mode e) (Some lo) (Some hi)]> schema))
  end).

(** A loop whose body may raise, over a state. *)
Fixpoint fold_outcome {A S} (body : S -> A -> outcome S) (l : list A) (s : S) : outcome S :=
  match l with
  | [] => Returns s
  | x :: l' => outcome_bind (body s x) (fold_outcome body l')
  end.

Definition get_input_schema (source index_col geom_col : string) (min_max : bool)
  : M (list bq_call) (gmap string entry) :=
  let source_query := get_query_from_table source in
  fields ← (if bool_decide (source_query = source) ||
               bool_decide (source_query = drop_last source)
            then get_big_query_query_schema source_query
            else get_big_query_table_schema source);
  let '(min_max_names, min_max_select, schema) := scan_fields index_col geom_col fields in
  if min_max then
    let min_max_query :=
      "SELECT " +:+ String.concat ", " min_max_select +:+
      " FROM (" +:+ source_query +:+ ") q;" in
    min_max_result ← execute_query min_max_query;
    lift_outcome
      (fold_outcome (fun schema row => fold_outcome (set_min_max row) min_max_names schema)
         (result_rows min_max_result) schema)
  else mret schema.

End Schema.
End GBQSchema.

(** ** Dataset: the variables of a dataset of the catalog *)

Module CatalogDataset.
Section Dataset.

(** [self.data], the row of the dataset. *)
Variable data : gmap string string.

Variable client : list VariableRepo.client_call -> VariableRepo.client_call ->
                  outcome (list (gmap string string)).

(** The property [id]: [self.data[self.id_field]] with [id_field = 'id']. *)
Definition id_ : outcome string :=
  match data !! "id" with
  | Some i => Returns i
  | None => Raises (key_error "id")
  end.

Definition variables
  : M (list VariableRepo.client_call) (option (VariableRepo.Variables (gmap string string))) :=
  i ← lift_outcome id_;
  VariableRepo.get_by_dataset (gmap string string) client i.

End Dataset.
End CatalogDataset.
(** * Example inputs *)


(** ** A BigQuery that returns no rows, and stand-ins for the libraries *)

Module GBQExample.
Import GBQ.

Definition bigquery : list (query Z) -> query Z -> outcome (list (bq_row Z)) :=
  fun _ _ => Returns [].

Definition json_dumps : list (string * pyval) -> string := fun _ => "{}".

(** A tile is [(x, y, zoom)]; the stand-in for mercantile puts the box in one
    column of tiles, [2 ^ zoom - 1] rows apart. *)
Definition tile : Z -> Z -> Z -> outcome (Z * Z * Z) :=
  fun lng lat zoom => Returns (lng, lat * (2 ^ zoom - 1), zoom).

Definition quadkey : Z * Z * Z -> outcome string := fun _ => Returns "0".

(** Every quadkey reads as 0: the span never reaches [MAX_PARTITIONS]. *)
Definition py_int : string -> Z -> outcome Z := fun _ _ => Returns 0.

Definition bbox : list Z := [0; 0; 1; 1].

End GBQExample.

(** ** Stand-ins for mercantile and [int] on which the span grows with the zoom *)

Module QuadkeyExample.

(** A tile is [(x, y, zoom)]. *)
Definition tile : Z -> Z -> Z -> outcome (Z * Z * Z) :=
  fun lng lat zoom => Returns (lng, lat, zoom).

Definition digit_0 : Ascii.ascii := Ascii.ascii_of_nat 48.
Definition digit_3 : Ascii.ascii := Ascii.ascii_of_nat 51.

Fixpoint digit_string (n : nat) (digit : Ascii.ascii) : string :=
  match n with
  | O => EmptyString
  | S n' => String digit (digit_string n' digit)
  end.

(** The quadkey of a tile has one digit per zoom level: all 0 for a tile of
    the column 0, all 3 for a tile of another column. *)
Definition quadkey : Z * Z * Z -> outcome string :=
  fun '(x, _, zoom) =>
    Returns (digit_string (Z.to_nat zoom) (if x =? 0 then digit_0 else digit_3)).

(** [int(s, base)] on a string of digits. *)
Fixpoint digits (s : string) (base acc : Z) : outcome Z :=
  match s with
  | EmptyString => Returns acc
  | String c s' =>
      let d := Z.of_nat (Ascii.nat_of_ascii c) - 48 in
      if (0 <=? d) && (d <? base) then digits s' base (acc * base + d)
      else Raises (Exn ValueError "invalid literal for int()")
  end.

Definition py_int : string -> Z -> outcome Z :=
  fun s base =>
    match s with
    | EmptyString => Raises (Exn ValueError "invalid literal for int()")
    | _ => digits s base 0
    end.

End QuadkeyExample.

(** ** Stand-ins for the geocoding utilities and a remote side *)

Module GeocodingExample.
Import Geocoding.

Definition count_of (summary : gmap pyval pyval) (gc_state : string) : Z :=
  match summary !! VStr gc_state with
  | Some (VInt n) => n
  | _ => 0
  end.

Definition example_utils : utils := {|
  HASH_COLUMN := "carto_geocode_hash";
  DEFAULT_STATUS := StatusDict [("gc_status_rel", "relevance")];
  is_sql_query := fun s => String.prefix "SELECT " s;
  column_or_value_arg := fun arg _ => Returns arg;
  hash_expr := fun street _ _ _ prefix => "md5(" +:+ prefix +:+ "." +:+ street +:+ ")";
  geocode_query := fun table_name street _ _ _ _ =>
    ("UPDATE " +:+ table_name +:+ " SET the_geom = geocode(" +:+ street +:+ ")",
     [("gc_status_rel", "numeric")]);
  exists_column_query := fun table_name column =>
    "SELECT 1 FROM columns WHERE table = " +:+ table_name +:+ " AND name = " +:+ column;
  first_time_summary_query := fun table_name _ _ _ _ =>
    "SELECT 'new_nongeocoded' AS gc_state, COUNT(*) AS count FROM " +:+ table_name;
  prior_summary_query := fun table_name _ _ _ _ =>
    "SELECT gc_state, COUNT(*) AS count FROM " +:+ table_name +:+ " GROUP BY gc_state";
  posterior_summary_query := fun table_name =>
    "SELECT COUNT(the_geom) AS final_records_with_geometry FROM " +:+ table_name;
  set_pre_summary_info := fun summary output =>
    Returns (<["required_quota" :=
                 VInt (count_of summary "new_geocoded" + count_of summary "new_nongeocoded" +
                       count_of summary "changed_geocoded" +
                       count_of summary "changed_nongeocoded")]> output);
  set_post_summary_info := fun _ result output =>
    Returns (<["final_records_with_geometry" :=
                 match result with
                 | Some r => default VNone (q_total_rows r ≫= fun n => Some (VInt n))
                 | None => VNone
                 end]> output);
  search_quota := fun _ => None |}.

(** The cache table of the examples and a dataframe with the same address. *)
Definition cache_frame : dataframe :=
  DataFrame ["address"; "the_geom"; "carto_geocode_hash"]
            [[VStr "Gran Via 46"; VStr "POINT(-3.70 40.42)"; VStr "md5:Gran Via 46"]].

Definition addresses : dataframe := DataFrame ["address"] [[VStr "Gran Via 46"]].

(** The content hash of a row of [addresses], and the hashes the cache table
    stores. *)
Definition row_hash (row : list pyval) : string :=
  match row with
  | VStr address :: _ => "md5:" +:+ address
  | _ => "md5:"
  end.

Definition cache_hashes : list string := ["md5:Gran Via 46"].

(** The answer to a summary query: [new_rows] rows that were never geocoded. *)
Definition summary_result (new_rows : Z) : qresult :=
  QResult
    (Some [<["gc_state" := VStr "new_nongeocoded"]> (<["count" := VInt new_rows]> ∅)])
    (Some 1).

(** A remote side on which every call returns: the summary queries count
    [new_rows] rows to geocode, and the lock is free or not. *)
Definition example_remote (new_rows : Z) (lock_free : bool) : remote := {|
  r_column_names := fun _ src =>
    Returns (match src with
             | SrcDataFrame df => df_columns df
             | SrcStr _ => df_columns cache_frame
             end);
  r_has_table := fun _ _ => Returns true;
  r_query := fun _ _ => Returns (Some (summary_result new_rows));
  r_long_running_query := fun _ _ => Returns None;
  r_lock := fun _ _ => Returns lock_free;
  r_read_carto := fun _ _ => Returns cache_frame;
  r_command := fun _ _ => Returns tt;
  r_temporary_table_name := fun _ => "table_tmp" |}.

Definition w0 : world := World [] (SrcStr "") [].

Definition q_exists (table_name : string) : event :=
  E_execute_query (exists_column_query example_utils table_name "carto_geocode_hash").

Definition q_summary (table_name : string) : event :=
  E_execute_query (prior_summary_query example_utils table_name "address"
                     ArgNone ArgNone ArgNone).

Definition q_alter (table_name : string) : event :=
  E_execute_query
    (alter_sql table_name [("gc_status_rel", "numeric"); ("carto_geocode_hash", "text")]).

Definition q_geocode (table_name : string) : event :=
  E_execute_long_running_query
    (geocode_query example_utils table_name "address" ArgNone ArgNone ArgNone StatusNone).1.

Definition q_posterior (table_name : string) : event :=
  E_execute_query (posterior_summary_query example_utils table_name).

Definition summary_of (new_rows : Z) : gmap pyval pyval :=
  summarize (default [] (q_rows (summary_result new_rows))) summary0.

Definition quota (n : Z) : gmap string pyval := <["required_quota" := VInt n]> ∅.

(** The calls of a cached geocoding of [addresses] into the table "cache". *)
Definition cached_calls : list event :=
  [E_get_column_names (SrcDataFrame addresses); E_has_table "cache";
   E_get_column_names (SrcStr "cache");
   E_to_carto (SrcDataFrame addresses) "table_tmp" None;
   E_execute_query (add_hash_column_sql "table_tmp" "carto_geocode_hash");
   E_execute_query
     (update_from_cache_sql "table_tmp" "cache" "carto_geocode_hash"
        (hash_expr example_utils "address" ArgNone ArgNone ArgNone "table_tmp"));
   E_delete_table "cache"; E_update_table "table_tmp" "cache" "private";
   E_get_column_names (SrcStr "cache");
   q_exists "cache"; q_summary "cache"].

End GeocodingExample.


(** ** More example inputs *)

Module MoreExamples.
Import Geocoding GeocodingExample.

(** A remote side with or without the table "cache", whose columns are
    [cache_cols]; every other table has the one column "address"; the
    geocoding query answers [geocoding]. *)
Definition remote_with (has_cache : bool) (cache_cols : list string) (new_rows : Z)
  (geocoding : outcome (option qresult)) : remote := {|
  r_column_names := fun _ src =>
    Returns (match src with
             | SrcDataFrame df => df_columns df
             | SrcStr s => if decide (s = "cache") then cache_cols else ["address"]
             end);
  r_has_table := fun _ _ => Returns has_cache;
  r_query := fun _ _ => Returns (Some (summary_result new_rows));
  r_long_running_query := fun _ _ => geocoding;
  r_lock := fun _ _ => Returns true;
  r_read_carto := fun _ _ => Returns cache_frame;
  r_command := fun _ _ => Returns tt;
  r_temporary_table_name := fun _ => "table_tmp" |}.

Definition no_cache : remote := remote_with false [] 2 (Returns None).
Definition bare_cache : remote := remote_with true ["address"] 2 (Returns None).
Definition good_cache : remote :=
  remote_with true ["address"; "the_geom"; "carto_geocode_hash"] 2 (Returns None).
Definition out_of_quota : remote :=
  remote_with true ["address"] 2
    (Raises (Exn Exception "Remaining quota: 1. Estimated cost: 2")).

(** [geocode] of the examples: on the street column "address", with nothing
    else given. *)
Definition geocode_addresses (R : remote) (source_ : source) (table_name : option string)
  (dry_run cached : bool) : outcome result * world :=
  geocode example_utils R 2 source_ "address" ArgNone ArgNone ArgNone StatusNone table_name
    "fail" dry_run cached w0.

Definition _geocode_table (R : remote) (dry_run : bool) : outcome (gmap string pyval) * world :=
  _geocode example_utils R "t" "address" ArgNone ArgNone ArgNone StatusNone dry_run w0.

(** The dataframe of the examples once it is the source of the call. *)
Definition w_addresses : world := World [] (SrcDataFrame addresses) ["address"].

(** The world after the prior summary of the table "t", and the calls that a
    geocoding of it makes after that. *)
Definition w_prior : world := World [q_exists "t"; q_summary "t"] (SrcStr "") [].

Definition geocoding_calls : list event :=
  [E_lock_enter "t" true; q_alter "t"; q_geocode "t"; E_lock_exit "t"].

Definition quota_message : string := "Remaining quota: 1. Estimated cost: 2".

Definition geocoded (n : Z) : gmap string pyval :=
  <["final_records_with_geometry" := VInt 1]> (quota n).

(** ** BigQuery with a prepared table of two rows *)

Definition corners (xmin ymin xmax ymax : Z) : gmap string Z :=
  <["xmin" := xmin]> (<["ymin" := ymin]> (<["xmax" := xmax]> (<["ymax" := ymax]> ∅))).

Definition bigquery_rows : list (GBQ.query Z) -> GBQ.query Z -> outcome (list (GBQ.bq_row Z)) :=
  fun _ _ => Returns [corners 0 0 1 1; corners (-5) (-5) 5 5].

Definition no_transform : Z -> Z -> outcome (Z * Z) := fun x y => Returns (x, y).

Definition ceil_div : Z -> Z -> Z := fun a b => - ((- a) / b).

(** The three inserts on the same list of queries, each on its own: the
    runs of the low, the medium and the high level insert. *)
Definition insert_zooms (zooms : option (list Z))
  : (outcome unit * list (GBQ.query Z)) * (outcome unit * list (GBQ.query Z)) *
    (outcome unit * list (GBQ.query Z)) :=
  (GBQ.insert_low_level_zoom_data Z GBQExample.bigquery GBQExample.json_dumps "prepared"
     GBQExample.bbox 5 zooms [] "tiles" [],
   GBQ.insert_medium_level_zoom_data Z GBQExample.bigquery GBQExample.json_dumps "prepared"
     GBQExample.bbox 5 zooms [] "tiles" [],
   GBQ.insert_high_level_zoom_data Z GBQExample.bigquery GBQExample.json_dumps "prepared"
     GBQExample.bbox 5 zooms [] "tiles" []).

(** The three inserts called one after the other, on a BigQuery without
    rows. *)
Definition insert_all (bbox : list Z) (zooms : option (list Z))
  : list (GBQ.query Z) -> outcome unit * list (GBQ.query Z) :=
  GBQ.insert_low_level_zoom_data Z GBQExample.bigquery GBQExample.json_dumps "prepared"
    bbox 20 zooms [] "tiles" ≫= fun _ =>
  GBQ.insert_medium_level_zoom_data Z GBQExample.bigquery GBQExample.json_dumps "prepared"
    bbox 20 zooms [] "tiles" ≫= fun _ =>
  GBQ.insert_high_level_zoom_data Z GBQExample.bigquery GBQExample.json_dumps "prepared"
    bbox 20 zooms [] "tiles".

Definition tileset (bigquery : list (GBQ.query Z) -> GBQ.query Z -> outcome (list (GBQ.bq_row Z)))
  (bbox : option (list Z)) : option (outcome (list Z * Z) * list (GBQ.query Z)) :=
  GBQ.create_empty_tileset Z bigquery (Z * Z * Z) GBQExample.tile GBQExample.quadkey
    GBQExample.py_int no_transform ceil_div 20 "prepared" bbox "tiles" [].

(** ** A table of three fields *)

Definition fields : list GBQSchema.field :=
  [GBQSchema.Field "geom" "GEOGRAPHY" "NULLABLE";
   GBQSchema.Field "population" "INTEGER" "NULLABLE";
   GBQSchema.Field "label" "STRING" "NULLABLE"].

Definition bq_table : list GBQSchema.bq_call -> string -> outcome (list GBQSchema.field) :=
  fun _ _ => Returns fields.

Definition bq_query : list GBQSchema.bq_call -> string -> outcome (GBQSchema.bq_result Z) :=
  fun _ _ => Returns (GBQSchema.BqResult Z fields
                        [<["population_min" := 10]> (<["population_max" := 90]> ∅)]).

Definition query_of_table : string -> string := fun table => "SELECT * FROM " +:+ table.

Definition input_schema (min_max : bool)
  : outcome (gmap string (GBQSchema.entry Z)) * list GBQSchema.bq_call :=
  GBQSchema.get_input_schema Z bq_table bq_query query_of_table "project.dataset.table"
    "id" "geom" min_max [].

Definition schema_with_bounds : gmap string (GBQSchema.entry Z) :=
  <["population" := GBQSchema.Entry Z "INTEGER" "NULLABLE" (Some 10) (Some 90)]>
    (<["label" := GBQSchema.Entry Z "STRING" "NULLABLE" None None]> ∅).

(** ** A dataset with an id and no variables *)

Definition dataset : gmap string string := <["id" := "dataset_1"]> ∅.

Definition no_variables : list VariableRepo.client_call -> VariableRepo.client_call ->
                          outcome (list (gmap string string)) := fun _ _ => Returns [].

End MoreExamples.
(** * Properties *)

(** ** The monad *)

Lemma bind_returns {S A B} (m : M S A) (f : A -> M S B) s a s' :
  m s = (Returns a, s') -> (m ≫= f) s = f a s'.
Proof. intros H. unfold mbind, M_bind. now rewrite H. Qed.


(** ** VariableRepository *)

Section RepositoryFacts.
Import VariableRepo.

Context {row : Type}.
Variable client : list client_call -> client_call -> outcome (list row).

Lemma from_repo_rows (rows : list row) : map (_from_repo row) rows = rows.
Proof. induction rows as [|r rows IH]; simpl; [reflexivity|]. now rewrite IH. Qed.

Lemma to_variables_rows (r : row) (rows : list row) :
  _to_variables row (r :: rows) = Some (Variables_of row (r :: rows)).
Proof. unfold _to_variables. simpl length. cbn [Nat.eqb]. now rewrite from_repo_rows. Qed.

Lemma to_variables_empty : _to_variables row [] = None.
Proof. reflexivity. Qed.

(** What a method that hands the rows to [_to_variables] does, whatever the
    client answers. *)
Lemma to_variables_method (q : client_call) (calls : list client_call) :
  (call_client row client q ≫= fun results => mret (_to_variables row results)) calls
  = (outcome_map (_to_variables row) (client calls q), calls ++ [q]).
Proof.
  unfold mbind, M_bind, call_client, outcome_map, outcome_bind.
  destruct (client calls q); reflexivity.
Qed.

(** C6. Every query method of [VariableRepository] makes exactly one call to
    the client: [get_all] calls [get_variables()] without a filter,
    [get_by_id] filters on [id], [get_by_dataset] on [dataset_id] and
    [get_by_variable_group] on [variable_group_id].  The rows of the answer
    go into the [Variables] object as they are, in their order ([_from_repo]
    changes nothing), and [get_by_id] wraps the first row into a [Variable];
    an exception of the client is passed on. *)
Theorem repository_is_pass_through (calls : list client_call) (ident : string) :
  (∀ r rows, _to_variables row (r :: rows) = Some (Variables_of row (r :: rows))) ∧
  get_all row client calls
    = (outcome_map (_to_variables row) (client calls (get_variables [])),
       calls ++ [get_variables []]) ∧
  get_by_dataset row client ident calls
    = (outcome_map (_to_variables row) (client calls (get_variables ["dataset_id"; ident])),
       calls ++ [get_variables ["dataset_id"; ident]]) ∧
  get_by_variable_group row client ident calls
    = (outcome_map (_to_variables row)
         (client calls (get_variables ["variable_group_id"; ident])),
       calls ++ [get_variables ["variable_group_id"; ident]]) ∧
  get_by_id row client ident calls
    = (outcome_bind (client calls (get_variables ["id"; ident]))
         (fun rows => match rows with
                      | [] => Raises (Exn DiscoveryException no_such_variable)
                      | r :: _ => Returns (Variable_of row r)
                      end),
       calls ++ [get_variables ["id"; ident]]).
Proof.
  split; [exact to_variables_rows|].
  repeat split; try apply to_variables_method.
  unfold get_by_id, mbind, M_bind, call_client, outcome_bind.
  destruct (client calls _) as [[|r rows]|e]; reflexivity.
Qed.


End RepositoryFacts.


(** ** GBQManager *)

(** A loop whose body appends, when it returns, one query satisfying [P]
    appends, when it returns, one such query per element, in the order of the
    list. *)
Lemma for_each_appends {A Q} (P : A -> Q -> Prop) (body : A -> M (list Q) unit) :
  (∀ x qs qs', body x qs = (Returns tt, qs') -> ∃ q, qs' = qs ++ [q] ∧ P x q) ->
  ∀ l qs qs', for_each l body qs = (Returns tt, qs') ->
  ∃ new, qs' = qs ++ new ∧ Forall2 P l new.
Proof.
  intros Hbody l. induction l as [|x l IH]; intros qs qs' Hrun.
  - cbn in Hrun. injection Hrun as <-. exists []. split; [now rewrite app_nil_r|constructor].
  - cbn [for_each] in Hrun. unfold mbind, M_bind in Hrun.
    destruct (body x qs) as [[[]|e] qs1] eqn:Hx; [|discriminate].
    destruct (Hbody _ _ _ Hx) as (q & -> & Hq).
    destruct (IH _ _ Hrun) as (new & -> & Hnew).
    exists (q :: new). split; [now rewrite <- app_assoc|now constructor].
Qed.

Lemma filter_bands (P1 P2 P3 : Z -> Prop)
  `{∀ z, Decision (P1 z)} `{∀ z, Decision (P2 z)} `{∀ z, Decision (P3 z)} (l : list Z) :
  (∀ z, (P1 z ∧ ¬ P2 z ∧ ¬ P3 z) ∨ (¬ P1 z ∧ P2 z ∧ ¬ P3 z) ∨ (¬ P1 z ∧ ¬ P2 z ∧ P3 z)) ->
  filter P1 l ++ filter P2 l ++ filter P3 l ≡ₚ l.
Proof.
  intros Hcases. induction l as [|z l IH]; [reflexivity|].
  rewrite !filter_cons.
  destruct (Hcases z) as [(h1 & h2 & h3)|[(h1 & h2 & h3)|(h1 & h2 & h3)]];
    repeat case_decide; try tauto; cbn [app].
  - now rewrite IH.
  - rewrite <- Permutation_middle. now rewrite IH.
  - rewrite app_assoc, <- Permutation_middle, <- app_assoc. now rewrite IH.
Qed.

Section ManagerFacts.
Import GBQ.

Context {coord Tile : Type}.
Variable bigquery : list (query coord) -> query coord -> outcome (list (bq_row coord)).
Variable mercantile_tile : coord -> coord -> Z -> outcome Tile.
Variable mercantile_quadkey : Tile -> outcome string.
Variable py_int : string -> Z -> outcome Z.
Variable json_dumps : list (string * pyval) -> string.

(** A single medium-level insert that returns has appended its own query, for
    the one zoom. *)
Lemma insert_medium_appends prepare_table bbox quadkey_zoom zoom options output_table
  (qs qs' : list (query coord)) :
  _insert_medium_level_zoom_data coord bigquery prepare_table bbox quadkey_zoom zoom
    options output_table qs = (Returns tt, qs') ->
  ∃ q, qs' = qs ++ [q] ∧ q_file coord q = insert_medium_level ∧
       kwarg "zooms" (q_args coord q) = Some (FZooms coord [zoom]).
Proof.
  unfold _insert_medium_level_zoom_data, index, mbind, M_bind, raise, mret, M_ret, execute_query.
  destruct (bbox !! 0%nat), (bbox !! 1%nat), (bbox !! 2%nat), (bbox !! 3%nat);
    try discriminate.
  destruct (bigquery qs _); intros [= <-].
  eexists. split; [reflexivity|]. split; reflexivity.
Qed.

(** A single high-level insert that returns has appended its own query: the
    tiles of zoom 11, refined by [zoom - 11] levels. *)
Lemma insert_high_appends prepare_table bbox quadkey_zoom zoom options output_table
  (qs qs' : list (query coord)) :
  _insert_high_level_zoom_data coord bigquery prepare_table bbox quadkey_zoom zoom
    options output_table qs = (Returns tt, qs') ->
  ∃ q, qs' = qs ++ [q] ∧ q_file coord q = insert_high_level ∧
       kwarg "zooms" (q_args coord q) = Some (FZooms coord [MAX_MEDIUM_LEVEL_ZOOM]) ∧
       kwarg "depth" (q_args coord q) = Some (FInt coord (zoom - MAX_MEDIUM_LEVEL_ZOOM)).
Proof.
  unfold _insert_high_level_zoom_data, index, mbind, M_bind, raise, mret, M_ret, execute_query.
  destruct (bbox !! 0%nat), (bbox !! 1%nat), (bbox !! 2%nat), (bbox !! 3%nat);
    try discriminate.
  destruct (bigquery qs _); intros [= <-].
  eexists. split; [reflexivity|]. repeat split; reflexivity.
Qed.

(** [zooms if zooms else DEFAULT_ZOOMS]: the zooms asked for, and the default
    list when [zooms] is [None] or empty. *)
Lemma zooms_or_default_spec (zooms : option (list Z)) :
  zooms_or_default zooms
  = match zooms with
    | Some (zoom :: rest) => zoom :: rest
    | _ => [0; 4; 8; 12; 14]
    end.
Proof. reflexivity. Qed.

(** The low-level insert: no query without a zoom below 9, and otherwise, when
    it returns, one query with all the zooms below 9. *)
Lemma insert_low_runs prepare_table bbox quadkey_zoom zooms options output_table
  (qs : list (query coord)) :
  let low := filter (fun zoom => zoom < 9) (zooms_or_default zooms) in
  let run := insert_low_level_zoom_data coord bigquery json_dumps prepare_table bbox
               quadkey_zoom zooms options output_table qs in
  (low = [] -> run = (Returns tt, qs)) ∧
  (∀ ql, run = (Returns tt, ql) -> low ≠ [] ->
     ∃ q, ql = qs ++ [q] ∧ q_file coord q = insert_low_level ∧
          kwarg "zooms" (q_args coord q) = Some (FZooms coord low)).
Proof.
  intros low run. unfold run, insert_low_level_zoom_data.
  change (filter _ (zooms_or_default zooms)) with low. split.
  - intros Hnil. now rewrite bool_decide_eq_true_2 by exact Hnil.
  - intros ql Hlow Hne. rewrite bool_decide_eq_false_2 in Hlow by exact Hne.
    revert Hlow.
    unfold index, mbind, M_bind, raise, mret, M_ret, execute_query.
    destruct (bbox !! 0%nat), (bbox !! 1%nat), (bbox !! 2%nat), (bbox !! 3%nat);
      try discriminate.
    destruct (bigquery qs _); intros [= <-].
    eexists. split; [reflexivity|]. split; reflexivity.
Qed.

(** The medium-level insert: no query without a zoom from 9 to 11, and when it
    returns, one query per such zoom, in list order. *)
Lemma insert_medium_runs prepare_table bbox quadkey_zoom zooms options output_table
  (qs : list (query coord)) :
  let medium := filter (fun zoom => zoom >= 9 ∧ zoom <= 11) (zooms_or_default zooms) in
  let run := insert_medium_level_zoom_data coord bigquery json_dumps prepare_table bbox
               quadkey_zoom zooms options output_table qs in
  (medium = [] -> run = (Returns tt, qs)) ∧
  (∀ qm, run = (Returns tt, qm) ->
     ∃ new, qm = qs ++ new ∧
       Forall2 (fun zoom q => q_file coord q = insert_medium_level ∧
                              kwarg "zooms" (q_args coord q) = Some (FZooms coord [zoom]))
         medium new).
Proof.
  intros medium run. unfold run, insert_medium_level_zoom_data.
  change (filter _ (zooms_or_default zooms)) with medium. split.
  - intros Hnil. now rewrite bool_decide_eq_true_2 by exact Hnil.
  - intros qm Hmedium. case_bool_decide as Hnil.
    + rewrite Hnil. injection Hmedium as <-. exists [].
      split; [now rewrite app_nil_r|constructor].
    + eapply for_each_appends; [|exact Hmedium].
      intros x qs0 qs0' Hx. now apply insert_medium_appends in Hx.
Qed.

(** The high-level insert: no query without a zoom above 11, and when it
    returns, one query per such zoom, in list order, on zoom 11 with depth
    [zoom - 11]. *)
Lemma insert_high_runs prepare_table bbox quadkey_zoom zooms options output_table
  (qs : list (query coord)) :
  let high := filter (fun zoom => zoom > 11) (zooms_or_default zooms) in
  let run := insert_high_level_zoom_data coord bigquery json_dumps prepare_table bbox
               quadkey_zoom zooms options output_table qs in
  (high = [] -> run = (Returns tt, qs)) ∧
  (∀ qh, run = (Returns tt, qh) ->
     ∃ new, qh = qs ++ new ∧
       Forall2 (fun zoom q => q_file coord q = insert_high_level ∧
                              kwarg "zooms" (q_args coord q) = Some (FZooms coord [11]) ∧
                              kwarg "depth" (q_args coord q) = Some (FInt coord (zoom - 11)))
         high new).
Proof.
  intros high run. unfold run, insert_high_level_zoom_data.
  change (filter _ (zooms_or_default zooms)) with high. split.
  - intros Hnil. now rewrite bool_decide_eq_true_2 by exact Hnil.
  - intros qh Hhigh. case_bool_decide as Hnil.
    + rewrite Hnil. injection Hhigh as <-. exists [].
      split; [now rewrite app_nil_r|constructor].
    + eapply for_each_appends; [|exact Hhigh].
      intros x qs0 qs0' Hx. now apply insert_high_appends in Hx.
Qed.

(** C7. The zooms an insert method works on are the zooms asked for, and the
    list 0, 4, 8, 12, 14 when [zooms] is [None] (or empty).  They fall into
    three disjoint bands that together are the whole list: below 9, from 9 to
    11, above 11.  Each insert method works on its band alone.  With an empty
    band it returns without a query.  Otherwise, when it returns, it has run:
    for the low band one query with all the zooms of the band; for the medium
    band one query per zoom, in list order, each with that zoom alone; for the
    high band one query per zoom, in list order, each on zoom 11 with depth
    [zoom - 11]. *)
Theorem zoom_bands (prepare_table output_table : string) (bbox : list coord)
  (quadkey_zoom : Z) (zooms : option (list Z)) (options : list (string * pyval))
  (qs : list (query coord)) :
  let zooms_ := match zooms with
                | Some (zoom :: rest) => zoom :: rest
                | _ => [0; 4; 8; 12; 14]
                end in
  let low := filter (fun zoom => zoom < 9) zooms_ in
  let medium := filter (fun zoom => zoom >= 9 ∧ zoom <= 11) zooms_ in
  let high := filter (fun zoom => zoom > 11) zooms_ in
  let low_run := insert_low_level_zoom_data coord bigquery json_dumps prepare_table bbox
                   quadkey_zoom zooms options output_table qs in
  let medium_run := insert_medium_level_zoom_data coord bigquery json_dumps prepare_table
                      bbox quadkey_zoom zooms options output_table qs in
  let high_run := insert_high_level_zoom_data coord bigquery json_dumps prepare_table bbox
                    quadkey_zoom zooms options output_table qs in
  low ++ medium ++ high ≡ₚ zooms_ ∧
  (∀ z, ¬ (z ∈ low ∧ z ∈ medium) ∧ ¬ (z ∈ low ∧ z ∈ high) ∧ ¬ (z ∈ medium ∧ z ∈ high)) ∧
  (low = [] -> low_run = (Returns tt, qs)) ∧
  (medium = [] -> medium_run = (Returns tt, qs)) ∧
  (high = [] -> high_run = (Returns tt, qs)) ∧
  (∀ ql, low_run = (Returns tt, ql) -> low ≠ [] ->
     ∃ q, ql = qs ++ [q] ∧ q_file coord q = insert_low_level ∧
          kwarg "zooms" (q_args coord q) = Some (FZooms coord low)) ∧
  (∀ qm, medium_run = (Returns tt, qm) ->
     ∃ new, qm = qs ++ new ∧
       Forall2 (fun zoom q => q_file coord q = insert_medium_level ∧
                              kwarg "zooms" (q_args coord q) = Some (FZooms coord [zoom]))
         medium new) ∧
  (∀ qh, high_run = (Returns tt, qh) ->
     ∃ new, qh = qs ++ new ∧
       Forall2 (fun zoom q => q_file coord q = insert_high_level ∧
                              kwarg "zooms" (q_args coord q) = Some (FZooms coord [11]) ∧
                              kwarg "depth" (q_args coord q) = Some (FInt coord (zoom - 11)))
         high new).
Proof.
  intros zooms_ low medium high low_run medium_run high_run.
  assert (Hzooms : zooms_ = zooms_or_default zooms)
    by (symmetry; apply zooms_or_default_spec).
  split; [apply filter_bands; intros z; lia|].
  split.
  { intros z. unfold low, medium, high. rewrite !list_elem_of_filter. lia. }
  destruct (insert_low_runs prepare_table bbox quadkey_zoom zooms options output_table qs)
    as [Hlow0 Hlow].
  destruct (insert_medium_runs prepare_table bbox quadkey_zoom zooms options output_table qs)
    as [Hmedium0 Hmedium].
  destruct (insert_high_runs prepare_table bbox quadkey_zoom zooms options output_table qs)
    as [Hhigh0 Hhigh].
  unfold low, medium, high, low_run, medium_run, high_run. rewrite Hzooms.
  split; [exact Hlow0|]. split; [exact Hmedium0|]. split; [exact Hhigh0|].
  split; [exact Hlow|]. split; [exact Hmedium|exact Hhigh].
Qed.

(** What one pass through the loop body can do: leave the loop at this
    [quadkey_zoom], because the span is large enough or the zoom is 20; go on
    with [quadkey_zoom + 1]; or raise. *)
Lemma quadkey_step_cases (bbox : list coord) (z : Z) r u :
  quadkey_step coord Tile mercantile_tile mercantile_quadkey py_int bbox z tt = (r, u) ->
  match r with
  | Returns (inl (qz, a, b)) => qz = z ∧ (b - a >= MAX_PARTITIONS ∨ z = MAX_QUADKEY_ZOOM)
  | Returns (inr z') => z' = z + 1 ∧ z ≠ MAX_QUADKEY_ZOOM
  | Raises _ => True
  end.
Proof.
  unfold quadkey_step, index, lift_outcome, mbind, M_bind, raise, mret, M_ret.
  repeat match goal with
         | |- context [match ?l !! ?i with _ => _ end] => destruct (l !! i)
         | |- context [match ?o with Returns _ => _ | Raises _ => _ end] => destruct o
         end; try (intros [= <- <-]; exact I).
  all: destruct (_ || _) eqn:Hc; intros [= <- <-]; try exact I.
  - split; [reflexivity|]. apply orb_true_iff in Hc as [Hc|Hc]; lia.
  - split; [reflexivity|]. apply orb_false_iff in Hc as [_ Hc]. lia.
Qed.

(** The loop started at [z <= 20] leaves within [21 - z] passes. *)
Lemma guess_quadkey_from (bbox : list coord) (fuel : nat) : ∀ z,
  1 <= z <= MAX_QUADKEY_ZOOM -> (Z.to_nat (MAX_QUADKEY_ZOOM - z) < fuel)%nat ->
  ∃ o, guess_quadkey coord Tile mercantile_tile mercantile_quadkey py_int fuel bbox z = Some o ∧
    (∀ qz a b, o = Returns (qz, a, b) ->
       z <= qz <= MAX_QUADKEY_ZOOM ∧
       (b - a >= MAX_PARTITIONS ∨ qz = MAX_QUADKEY_ZOOM) ∧
       ∀ z', z <= z' < qz ->
         quadkey_step coord Tile mercantile_tile mercantile_quadkey py_int bbox z' tt
         = (Returns (inr (z' + 1)), tt)) ∧
    ((∀ z', ∃ r, quadkey_step coord Tile mercantile_tile mercantile_quadkey py_int bbox z' tt
                 = (Returns r, tt)) -> ∃ r, o = Returns r).
Proof.
  induction fuel as [|fuel IH]; intros z Hz Hfuel; [lia|].
  cbn [guess_quadkey].
  destruct (quadkey_step _ _ _ _ _ bbox z tt) as [[[[[qz a] b]|z1]|e] []] eqn:Hstep.
  - apply quadkey_step_cases in Hstep as [-> Hexit].
    eexists. split; [reflexivity|]. split; [|eauto].
    intros ? ? ? [= <- <- <-]. split; [lia|]. split; [exact Hexit|]. intros; lia.
  - pose proof (quadkey_step_cases _ _ _ _ Hstep) as [-> Hne].
    unfold MAX_QUADKEY_ZOOM in *.
    destruct (IH (z + 1)) as (o & Ho & Hbreak & Hret); [lia|lia|].
    exists o. split; [exact Ho|]. split; [|exact Hret].
    intros qz a b Hq. destruct (Hbreak _ _ _ Hq) as (Hr & Hexit & Hsteps).
    split; [lia|]. split; [exact Hexit|].
    intros z' Hz'. destruct (decide (z' = z)) as [->|]; [exact Hstep|].
    apply Hsteps. lia.
  - eexists. split; [reflexivity|]. split; [discriminate|].
    intros Hall. destruct (Hall z) as [r Hr]. congruence.
Qed.

(** More fuel does not change the result of a loop that has left. *)
Lemma guess_quadkey_fuel (bbox : list coord) (fuel : nat) : ∀ z o fuel',
  guess_quadkey coord Tile mercantile_tile mercantile_quadkey py_int fuel bbox z = Some o ->
  (fuel <= fuel')%nat ->
  guess_quadkey coord Tile mercantile_tile mercantile_quadkey py_int fuel' bbox z = Some o.
Proof.
  induction fuel as [|fuel IH]; intros z o fuel' Hrun Hle; [discriminate|].
  destruct fuel' as [|fuel']; [lia|].
  cbn [guess_quadkey] in *.
  destruct (quadkey_step _ _ _ _ _ bbox z tt) as [[[r|z1]|e] []]; try exact Hrun.
  apply IH; [exact Hrun|lia].
Qed.

(** The integer quadkeys [a] and [b] of the upper left and the bottom right
    corner of the box at zoom [z], as the loop body computes them:
    [int(mercantile.quadkey(mercantile.tile(bbox[0], bbox[3], z)), 4)] and
    [int(mercantile.quadkey(mercantile.tile(bbox[2], bbox[1], z)), 4)]. *)
Local Abbreviation corner_quadkeys bbox z a b :=
  (∃ b0 b1 b2 b3 min_tile max_tile min_quadkey max_quadkey,
     bbox !! 0%nat = Some b0 ∧ bbox !! 1%nat = Some b1 ∧
     bbox !! 2%nat = Some b2 ∧ bbox !! 3%nat = Some b3 ∧
     mercantile_tile b0 b3 z = Returns min_tile ∧
     mercantile_tile b2 b1 z = Returns max_tile ∧
     mercantile_quadkey min_tile = Returns min_quadkey ∧
     mercantile_quadkey max_tile = Returns max_quadkey ∧
     py_int min_quadkey 4 = Returns a ∧ py_int max_quadkey 4 = Returns b)
  (only parsing).

(** One pass through the loop body at zoom [z]: it leaves the loop with the
    quadkeys of the corners at [z] when their span has reached 10000 or [z] is
    20; it goes on with [z + 1] when the span is below 10000 and [z] is not 20;
    it raises only when the quadkeys of the corners cannot be computed. *)
Lemma quadkey_step_spec (bbox : list coord) (z : Z) r u :
  quadkey_step coord Tile mercantile_tile mercantile_quadkey py_int bbox z tt = (r, u) ->
  match r with
  | Returns (inl (qz, a, b)) =>
      qz = z ∧ corner_quadkeys bbox z a b ∧ (b - a >= 10000 ∨ z = 20)
  | Returns (inr z') =>
      z' = z + 1 ∧ z ≠ 20 ∧ ∃ a b, corner_quadkeys bbox z a b ∧ b - a < 10000
  | Raises _ => ¬ ∃ a b, corner_quadkeys bbox z a b
  end.
Proof.
  unfold quadkey_step, index, lift_outcome, mbind, M_bind, raise, mret, M_ret.
  intros Hstep.
  destruct (bbox !! 0%nat) as [b0|] eqn:H0 in Hstep;
    [|injection Hstep as <- <-; intros (? & ? & ? & ? & ? & ? & ? & ? & ? & ? & ?);
      intuition congruence].
  destruct (bbox !! 3%nat) as [b3|] eqn:H3 in Hstep;
    [|injection Hstep as <- <-; intros (? & ? & ? & ? & ? & ? & ? & ? & ? & ? & ?);
      intuition congruence].
  destruct (mercantile_tile b0 b3 z) as [min_tile|e] eqn:Hmin in Hstep;
    [|injection Hstep as <- <-; intros (? & ? & ? & ? & ? & ? & ? & ? & ? & ? & ?);
      intuition congruence].
  destruct (bbox !! 2%nat) as [b2|] eqn:H2 in Hstep;
    [|injection Hstep as <- <-; intros (? & ? & ? & ? & ? & ? & ? & ? & ? & ? & ?);
      intuition congruence].
  destruct (bbox !! 1%nat) as [b1|] eqn:H1 in Hstep;
    [|injection Hstep as <- <-; intros (? & ? & ? & ? & ? & ? & ? & ? & ? & ? & ?);
      intuition congruence].
  destruct (mercantile_tile b2 b1 z) as [max_tile|e] eqn:Hmax in Hstep;
    [|injection Hstep as <- <-; intros (? & ? & ? & ? & ? & ? & ? & ? & ? & ? & ?);
      intuition congruence].
  destruct (mercantile_quadkey min_tile) as [min_quadkey|e] eqn:Hqmin in Hstep;
    [|injection Hstep as <- <-; intros (? & ? & ? & ? & ? & ? & ? & ? & ? & ? & ?);
      intuition congruence].
  destruct (mercantile_quadkey max_tile) as [max_quadkey|e] eqn:Hqmax in Hstep;
    [|injection Hstep as <- <-; intros (? & ? & ? & ? & ? & ? & ? & ? & ? & ? & ?);
      intuition congruence].
  destruct (py_int min_quadkey 4) as [a|e] eqn:Ha in Hstep;
    [|injection Hstep as <- <-; intros (? & ? & ? & ? & ? & ? & ? & ? & ? & ? & ?);
      intuition congruence].
  destruct (py_int max_quadkey 4) as [b|e] eqn:Hb in Hstep;
    [|injection Hstep as <- <-; intros (? & ? & ? & ? & ? & ? & ? & ? & ? & ? & ?);
      intuition congruence].
  assert (Hcorners : corner_quadkeys bbox z a b).
  { exists b0, b1, b2, b3, min_tile, max_tile, min_quadkey, max_quadkey. auto 12. }
  unfold MAX_PARTITIONS, MAX_QUADKEY_ZOOM in Hstep.
  destruct (_ || _) eqn:Hc in Hstep; injection Hstep as <- <-.
  - split; [reflexivity|]. split; [exact Hcorners|].
    apply orb_true_iff in Hc as [Hc|Hc]; lia.
  - split; [reflexivity|]. apply orb_false_iff in Hc as [Hspan Hz].
    split; [lia|]. exists a, b. split; [exact Hcorners|lia].
Qed.

(** The loop started at [z]: what it has done when it leaves. *)
Lemma guess_quadkey_spec (bbox : list coord) (fuel : nat) : ∀ z o,
  guess_quadkey coord Tile mercantile_tile mercantile_quadkey py_int fuel bbox z = Some o ->
  match o with
  | Returns (qz, a, b) =>
      z <= qz ∧ corner_quadkeys bbox qz a b ∧ (b - a >= 10000 ∨ qz = 20) ∧
      ∀ z', z <= z' < qz -> z' ≠ 20 ∧ ∃ a' b', corner_quadkeys bbox z' a' b' ∧ b' - a' < 10000
  | Raises _ =>
      ∃ zf, z <= zf ∧ (¬ ∃ a b, corner_quadkeys bbox zf a b) ∧
        ∀ z', z <= z' < zf -> z' ≠ 20 ∧ ∃ a' b', corner_quadkeys bbox z' a' b' ∧ b' - a' < 10000
  end.
Proof.
  induction fuel as [|fuel IH]; intros z o; [discriminate|].
  cbn [guess_quadkey].
  destruct (quadkey_step _ _ _ _ _ bbox z tt) as [[[[[qz a] b]|z1]|e] []] eqn:Hstep;
    apply quadkey_step_spec in Hstep.
  - destruct Hstep as (-> & Hcorners & Hexit). intros [= <-].
    split; [lia|]. split; [exact Hcorners|]. split; [exact Hexit|]. intros; lia.
  - destruct Hstep as (-> & Hne & Hbelow). intros Hrest. apply IH in Hrest.
    destruct o as [[[qz a] b]|e].
    + destruct Hrest as (Hle & Hcorners & Hexit & Hsteps).
      split; [lia|]. split; [exact Hcorners|]. split; [exact Hexit|].
      intros z' Hz'. destruct (decide (z' = z)) as [->|]; [auto|]. apply Hsteps. lia.
    + destruct Hrest as (zf & Hle & Hfail & Hsteps). exists zf.
      split; [lia|]. split; [exact Hfail|].
      intros z' Hz'. destruct (decide (z' = z)) as [->|]; [auto|]. apply Hsteps. lia.
  - intros [= <-]. exists z. split; [lia|]. split; [exact Hstep|]. intros; lia.
Qed.

(** C9. For every bounding box the loop of [create_empty_tileset] that
    searches the quadkey zoom leaves after at most 20 passes (more fuel gives
    the same result).  When it leaves by [break], the [quadkey_zoom] it yields
    is between 1 and 20; the two integer quadkeys are those of the corners of
    the box at that zoom; their span has reached 10000 or the zoom is 20; and
    at every smaller zoom, from 1 on, the quadkeys of the corners were computed
    and their span was below 10000: the loop left at the first zoom where it
    could, going up by one each pass.  It leaves by [break] when the quadkeys
    of the corners can be computed at every zoom from 1 to 20, and it raises
    only at a zoom from 1 to 20 where they cannot. *)
Theorem quadkey_zoom_search_terminates (bbox : list coord) :
  ∃ o,
    guess_quadkey coord Tile mercantile_tile mercantile_quadkey py_int 20 bbox 1 = Some o ∧
    (∀ fuel, (20 <= fuel)%nat ->
       guess_quadkey coord Tile mercantile_tile mercantile_quadkey py_int fuel bbox 1 = Some o) ∧
    (∀ quadkey_zoom min_integer_quadkey max_integer_quadkey,
       o = Returns (quadkey_zoom, min_integer_quadkey, max_integer_quadkey) ->
       1 <= quadkey_zoom <= 20 ∧
       corner_quadkeys bbox quadkey_zoom min_integer_quadkey max_integer_quadkey ∧
       (max_integer_quadkey - min_integer_quadkey >= 10000 ∨ quadkey_zoom = 20) ∧
       ∀ z, 1 <= z < quadkey_zoom ->
         ∃ a b, corner_quadkeys bbox z a b ∧ b - a < 10000) ∧
    ((∀ z, 1 <= z <= 20 -> ∃ a b, corner_quadkeys bbox z a b) -> ∃ r, o = Returns r) ∧
    (∀ e, o = Raises e ->
       ∃ z, 1 <= z <= 20 ∧ (¬ ∃ a b, corner_quadkeys bbox z a b) ∧
         ∀ z', 1 <= z' < z -> ∃ a b, corner_quadkeys bbox z' a b ∧ b - a < 10000).
Proof.
  destruct (guess_quadkey_from bbox 20 1) as (o & Ho & Hbreak & _);
    [unfold MAX_QUADKEY_ZOOM; lia|unfold MAX_QUADKEY_ZOOM; simpl; lia|].
  pose proof (guess_quadkey_spec bbox 20 1 o Ho) as Hspec.
  assert (Hfail : ∀ e, o = Raises e ->
            ∃ z, 1 <= z <= 20 ∧ (¬ ∃ a b, corner_quadkeys bbox z a b) ∧
              ∀ z', 1 <= z' < z -> ∃ a b, corner_quadkeys bbox z' a b ∧ b - a < 10000).
  { intros e ->. destruct Hspec as (zf & Hle & Hfail & Hsteps). exists zf.
    split; [|split; [exact Hfail|intros z' Hz'; now apply Hsteps]].
    split; [exact Hle|].
    destruct (decide (zf <= 20)) as [|Hgt]; [assumption|].
    destruct (Hsteps 20) as [Hne _]; [lia|]. congruence. }
  exists o. split; [exact Ho|]. split; [|split; [|split]].
  - intros fuel Hfuel. eapply guess_quadkey_fuel; eauto.
  - intros qz a b ->. destruct Hspec as (Hle & Hcorners & Hexit & Hsteps).
    destruct (Hbreak _ _ _ eq_refl) as (Hr & _). unfold MAX_QUADKEY_ZOOM in Hr.
    split; [exact Hr|]. split; [exact Hcorners|]. split; [exact Hexit|].
    intros z Hz. now apply Hsteps.
  - intros Hall. destruct o as [r|e]; [eauto|].
    destruct (Hfail e eq_refl) as (z & Hz & Hno & _). destruct Hno. now apply Hall.
  - exact Hfail.
Qed.

End ManagerFacts.

(** ** Geocoding *)

Section GeocodingFacts.
Import Geocoding Trace.

Variable U : utils.
Variable R : remote.

(** Symbolic execution of a run [m w = (r, w') -> ...]: case analysis on the
    answer the control flow depends on next, outermost first. *)
Ltac step_in t :=
  lazymatch t with
  | match ?x with _ => _ end => first [step_in x | destruct x eqn:?]
  | negb ?b => first [step_in b | destruct b eqn:?]
  | ?a && _ => first [step_in a | destruct a eqn:?]
  | ?a || _ => first [step_in a | destruct a eqn:?]
  | ?f _ => step_in f
  end.

Ltac step :=
  lazymatch goal with
  | |- ?lhs = _ -> _ => step_in lhs; cbn [negb andb orb fst snd]
  end.

Ltac unfold_geocode :=
  unfold _geocode, _execute_prior_summary, with_TableGeocodingLock, lock_enter,
    try_long_running_query, finally, _execute_long_running_query, _execute_query,
    command, ask, getitem, gt_zero, lift_outcome, raise;
  unfold mbind, M_bind, mret, M_ret.

Ltac trace_normal :=
  cbn [calls emit _source_manager columns]; rewrite <- ?app_assoc; cbn [app].

Ltac in_list H :=
  rewrite ?elem_of_cons, elem_of_nil in H; intuition (try congruence).

(** C4. In every run of [_geocode], returning or raising, a long-running
    geocoding query is executed only between the successful entry into the
    [TableGeocodingLock] of the table and its exit.  When the lock is not
    acquired, the calls of the run are the two queries of the prior summary,
    the attempt to lock and the exit, so neither the [ALTER TABLE] nor the
    geocoding query is executed; and the metadata returned has [error] set to
    'The table is already being geocoded' and [aborted] set to [True]. *)
Theorem geocoding_query_under_lock (table_name street : string)
  (city state country : geoarg) (status : status_arg) (dry_run : bool)
  (w w' : world) (r : outcome (gmap string pyval))
  (Hrun : _geocode U R table_name street city state country status dry_run w = (r, w')) :
  ∃ evs, calls w' = calls w ++ evs ∧
    long_queries_under_lock table_name false evs = true ∧
    (E_lock_enter table_name false ∈ evs ->
       (∃ q1 q2, evs = [E_execute_query q1; E_execute_query q2;
                        E_lock_enter table_name false] ∨
                 evs = [E_execute_query q1; E_execute_query q2;
                        E_lock_enter table_name false; E_lock_exit table_name]) ∧
       ∀ output, r = Returns output ->
         output !! "error" = Some (VStr "The table is already being geocoded") ∧
         output !! "aborted" = Some (VBool true)).
Proof.
  revert Hrun. unfold_geocode.
  repeat step; intros [= <- <-]; trace_normal;
    (eexists; split; [reflexivity|]);
    (split; [cbn; rewrite ?decide_True by reflexivity; reflexivity|]);
    intros Hin.
  all: try (exfalso; in_list Hin; fail).
  all: split;
    [do 2 eexists; first [left; reflexivity|right; reflexivity]
    |intros output Hret;
     first [discriminate Hret
           |injection Hret as <-;
            split; [rewrite lookup_insert_ne by discriminate|]; apply lookup_insert_eq]].
Qed.


(** The prior summary runs two queries: whether the hash column exists, then
    the summary, in its first-time variant when it does not. *)
Lemma prior_summary_queries (dataset_name street : string) (city state country : geoarg)
  (w w' : world) (result : option qresult) :
  _execute_prior_summary U R dataset_name street city state country w = (Returns result, w') ->
  ∃ column_exists,
    r_query R (calls w) (exists_column_query U dataset_name (HASH_COLUMN U))
      = Returns column_exists ∧
    let sql := if first_time column_exists
               then first_time_summary_query U dataset_name street city state country
               else prior_summary_query U dataset_name street city state country in
    r_query R (calls w ++ [E_execute_query (exists_column_query U dataset_name (HASH_COLUMN U))])
      sql = Returns result ∧
    w' = emit (E_execute_query sql)
           (emit (E_execute_query (exists_column_query U dataset_name (HASH_COLUMN U))) w).
Proof.
  unfold_geocode. repeat step; intros [= <- <-].
  eexists. repeat split; reflexivity.
Qed.





(** C8. When the metadata computed from the prior summary has
    [required_quota = 0], [_geocode] returns that metadata as it is, and the
    only calls of the run are the two queries of the prior summary: no lock is
    taken and no [ALTER TABLE], geocoding query or posterior summary query is
    executed. *)
Theorem nothing_to_geocode (table_name street : string) (city state country : geoarg)
  (status : status_arg) (dry_run : bool) (w w1 : world)
  (result : option qresult) (summary : gmap pyval pyval) (output : gmap string pyval)
  (Hprior : _execute_prior_summary U R table_name street city state country w
            = (Returns result, w1))
  (Hsummary : prior_summary result = Returns summary)
  (Hpre : set_pre_summary_info U summary ∅ = Returns output)
  (Hquota : output !! "required_quota" = Some (VInt 0)) :
  _geocode U R table_name street city state country status dry_run w = (Returns output, w1) ∧
  ∃ q1 q2, calls w1 = calls w ++ [E_execute_query q1; E_execute_query q2].
Proof.
  split.
  - unfold _geocode. erewrite bind_returns by exact Hprior.
    unfold lift_outcome, getitem, gt_zero, mbind, M_bind, mret, M_ret.
    rewrite Hsummary, Hpre, Hquota. reflexivity.
  - apply prior_summary_queries in Hprior as (column_exists & _ & _ & ->).
    do 2 eexists. trace_normal. reflexivity.
Qed.




(** *** Rules for [emits] *)

Lemma emits_ret {A} φ (a : A) (Q : A -> Prop) : Q a -> emits φ (mret a) Q.
Proof.
  intros Ha w r w' [= <- <-]. split.
  - exists []. now rewrite app_nil_r.
  - now intros ? [= <-].
Qed.

Lemma emits_raise {A} φ e (Q : A -> Prop) : emits φ (raise e) Q.
Proof.
  intros w r w' [= <- <-]. split.
  - exists []. now rewrite app_nil_r.
  - discriminate.
Qed.

Lemma emits_lift {A} φ (o : outcome A) (Q : A -> Prop) :
  (∀ a, o = Returns a -> Q a) -> emits φ (lift_outcome o) Q.
Proof.
  intros Ho w r w' [= <- <-]. split; [|exact Ho].
  exists []. now rewrite app_nil_r.
Qed.

Lemma emits_bind {A B} φ (m : M world A) (f : A -> M world B) (P : A -> Prop) Q :
  emits φ m P -> (∀ a, P a -> emits φ (f a) Q) -> emits φ (m ≫= f) Q.
Proof.
  intros Hm Hf w r w'. unfold mbind, M_bind.
  destruct (m w) as [[a|e] w1] eqn:Hrun; destruct (Hm _ _ _ Hrun) as [(evs & Hevs & Hφ) Ha].
  - intros Hrun'. destruct (Hf a (Ha a eq_refl) _ _ _ Hrun') as [(evs' & Hevs' & Hφ') Hb].
    split; [|exact Hb]. exists (evs ++ evs'). split.
    + now rewrite Hevs', Hevs, app_assoc.
    + now apply Forall_app.
  - intros [= <- <-]. split; [eauto|discriminate].
Qed.

Lemma emits_weaken {A} φ (m : M world A) (P Q : A -> Prop) :
  emits φ m P -> (∀ a, P a -> Q a) -> emits φ m Q.
Proof.
  intros Hm HPQ w r w' Hrun. destruct (Hm _ _ _ Hrun) as [Hevs Ha].
  split; [exact Hevs|]. intros a ->. now apply HPQ, Ha.
Qed.

Lemma emits_then {A B} φ (m : M world A) (f : A -> M world B) Q :
  emits φ m (fun _ => True) -> (∀ a, emits φ (f a) Q) -> emits φ (m ≫= f) Q.
Proof. intros Hm Hf. eapply emits_bind; [exact Hm|]. intros a _. apply Hf. Qed.

Lemma emits_ask {A} (φ : event -> Prop) e (answer : list event -> outcome A) :
  φ e -> emits φ (ask e answer) (fun _ => True).
Proof.
  intros He w r w' [= <- <-]. split; [|auto].
  exists [e]. split; [reflexivity|]. now constructor.
Qed.

Lemma emits_quiet {A} (φ : event -> Prop) (m : M world A) :
  (∀ w, ∃ a w', m w = (Returns a, w') ∧ calls w' = calls w) ->
  emits φ m (fun _ => True).
Proof.
  intros Hm w r w' Hrun. destruct (Hm w) as (a & w1 & Ha & Hcalls). rewrite Hrun in Ha.
  injection Ha as -> ->. split; [|auto].
  exists []. now rewrite app_nil_r.
Qed.

Lemma emits_finally {A} φ (body : M world A) (cleanup : M world unit) Q :
  emits φ body Q -> emits φ cleanup (fun _ => True) -> emits φ (finally body cleanup) Q.
Proof.
  intros Hbody Hclean w r w'. unfold finally.
  destruct (body w) as [r1 w1] eqn:Hrun1.
  destruct (Hbody _ _ _ Hrun1) as [(evs & Hevs & Hφ) Ha].
  destruct (cleanup w1) as [[[]|e] w2] eqn:Hrun2;
    destruct (Hclean _ _ _ Hrun2) as [(evs' & Hevs' & Hφ') _];
    intros [= <- <-]; (split; [|try discriminate; exact Ha]);
    exists (evs ++ evs'); (split; [now rewrite Hevs', Hevs, app_assoc|now apply Forall_app]).
Qed.


Ltac quiet := apply emits_quiet; intros ?; do 2 eexists; split; reflexivity.

(** One step of a proof of [emits] for events that all satisfy the property. *)
Ltac emits_step event_ok :=
  lazymatch goal with
  | |- emits _ (mret _) _ => apply emits_ret; try exact I
  | |- emits _ (raise _) _ => apply emits_raise
  | |- emits _ (lift_outcome _) _ => apply emits_lift; try (intros; exact I)
  | |- emits _ (ask _ _) _ => apply emits_ask; event_ok
  | |- emits _ (command _ _) _ => apply emits_ask; event_ok
  | |- emits _ (has_table _ _) _ => apply emits_ask; event_ok
  | |- emits _ (get_column_names _ _) _ => apply emits_ask; event_ok
  | |- emits _ (to_carto _ _ _ _) _ => apply emits_ask; event_ok
  | |- emits _ (copy_table _ _ _ _) _ => apply emits_ask; event_ok
  | |- emits _ (create_table_from_query _ _ _ _) _ => apply emits_ask; event_ok
  | |- emits _ (delete_table _ _) _ => apply emits_ask; event_ok
  | |- emits _ (update_table _ _ _ _) _ => apply emits_ask; event_ok
  | |- emits _ (read_carto _ _) _ => apply emits_ask; event_ok
  | |- emits _ (_execute_query _ _) _ => apply emits_ask; event_ok
  | |- emits _ (print _) _ =>
      intros ? ? ? [= <- <-]; (split; [|auto]); eexists [_];
      split; [reflexivity|constructor; [event_ok|constructor]]
  | |- emits _ (set_source_manager _) _ => quiet
  | |- emits _ (set_columns _) _ => quiet
  | |- emits _ self_source_manager _ => quiet
  | |- emits _ self_columns _ => quiet
  | |- emits _ (_new_temporary_table_name _) _ => quiet
  | |- emits _ (_ ≫= _) _ => apply emits_then; [|intros ?]
  | |- emits _ (match ?x with _ => _ end) _ => destruct x
  end.

(** A dry run of [_geocode] runs the queries of the prior summary and nothing
    else, and the metadata it returns has [required_quota]. *)
Lemma dry_run_prior_summary_only (table_name street : string) (city state country : geoarg)
  (status : status_arg) :
  emits (prior_summary_event U table_name street city state country)
    (_geocode U R table_name street city state country status true)
    (fun output => is_Some (output !! "required_quota")).
Proof.
  intros w r w'. unfold_geocode.
  repeat step; intros [= <- <-]; trace_normal;
    (split; [eexists; split; [reflexivity|]
            |intros ? [= <-]; eauto]);
    repeat (match goal with |- Forall _ _ => constructor end);
    unfold prior_summary_event; try destruct (first_time _); auto.
Qed.

Lemma prior_summary_no_geocoding (table_name street : string) (city state country : geoarg)
  (e : event) :
  prior_summary_event U table_name street city state country e -> no_geocoding e.
Proof. intros [-> | [-> | ->]]; split; intros []. Qed.

Lemma emits_events {A} (φ ψ : event -> Prop) (m : M world A) Q :
  (∀ e, φ e -> ψ e) -> emits φ m Q -> emits ψ m Q.
Proof.
  intros Hφψ Hm w r w' Hrun. destruct (Hm _ _ _ Hrun) as [(evs & Hevs & Hφ) Ha].
  split; [|exact Ha]. exists evs. split; [exact Hevs|].
  eapply Forall_impl; eauto.
Qed.

Ltac no_geocoding_event := split; intros [].

Lemma table_for_geocoding_no_geocoding source_ table_name if_exists dry_run :
  emits no_geocoding (_table_for_geocoding U R source_ table_name if_exists dry_run)
    (fun _ => True).
Proof.
  unfold _table_for_geocoding.
  repeat emits_step no_geocoding_event.
Qed.


(** A dry run of [geocode], cached or not, takes no lock and executes no
    long-running query; the result it returns has no data, and metadata with
    [required_quota]. *)
Lemma geocode_dry_run (depth : nat) : ∀ source_ street city state country status
  table_name if_exists cached,
  emits no_geocoding
    (geocode U R depth source_ street city state country status table_name if_exists
       true cached)
    (fun res => data res = None ∧ is_Some (metadata res !! "required_quota")).
Proof.
  induction depth as [|depth IH]; intros; cbn [geocode]; [apply emits_raise|].
  unfold _cached_geocode.
  repeat lazymatch goal with
    | |- emits _ (geocode _ _ _ _ _ _ _ _ _ _ _ _ _ ≫= _) _ =>
        eapply emits_bind; [apply IH|intros ? [? ?]]
    | |- emits _ (geocode _ _ _ _ _ _ _ _ _ _ _ _ _) _ => apply IH
    | |- emits _ (_geocode _ _ _ _ _ _ _ _ _ ≫= _) _ =>
        eapply emits_bind;
        [eapply emits_events; [apply prior_summary_no_geocoding|];
         apply dry_run_prior_summary_only
        |intros ? ?]
    | |- emits _ (_table_for_geocoding _ _ _ _ _ _) _ =>
        apply table_for_geocoding_no_geocoding
    | _ => emits_step no_geocoding_event
    end.
  all: split; cbn [data metadata]; auto.
Qed.


(** C5. In a dry run, [_geocode] executes queries of the prior summary only:
    it takes no lock, alters no table and executes no geocoding query.  A call
    of [geocode] with [dry_run=True], cached or not, takes no lock and
    executes no long-running query, and the result it returns has [None] as
    data and metadata that hold [required_quota]. *)
Theorem dry_run_performs_no_geocoding (table_name street : string)
  (city state country : geoarg) (status : status_arg)
  (w w' : world) (r : outcome (gmap string pyval))
  (depth : nat) (source_ : source) (street' : string) (city' state' country' : geoarg)
  (status' : status_arg) (table_name' : option string) (if_exists : string) (cached : bool)
  (v v' : world) (res : outcome result)
  (H_geocode : _geocode U R table_name street city state country status true w = (r, w'))
  (Hgeocode : geocode U R depth source_ street' city' state' country' status' table_name'
                if_exists true cached v = (res, v')) :
  (∃ evs, calls w' = calls w ++ evs ∧
          Forall (prior_summary_event U table_name street city state country) evs ∧
          Forall no_geocoding evs) ∧
  (∃ evs, calls v' = calls v ++ evs ∧ Forall no_geocoding evs) ∧
  (∀ result, res = Returns result ->
     data result = None ∧ is_Some (metadata result !! "required_quota")).
Proof.
  split.
  - destruct (dry_run_prior_summary_only _ _ _ _ _ _ _ _ _ H_geocode)
      as [(evs & Hevs & Hprior) _].
    exists evs. split; [exact Hevs|]. split; [exact Hprior|].
    eapply Forall_impl; [exact Hprior|]. apply prior_summary_no_geocoding.
  - exact (geocode_dry_run _ _ _ _ _ _ _ _ _ _ _ _ _ Hgeocode).
Qed.

Lemma geocode_S (depth : nat) source_ street city state country status table_name
  if_exists dry_run cached :
  geocode U R (S depth) source_ street city state country status table_name if_exists
    dry_run cached
  = (_ ← set_source_manager source_;
     cols ← get_column_names R source_;
     _ ← set_columns cols;
     if cached then
       if negb (truthy table_name) then raise (Exn ValueError no_table_name)
       else _cached_geocode U R (geocode U R depth) source_ (the table_name) street
              city state country dry_run
     else
       city ← lift_outcome (column_or_value_arg U city cols);
       state ← lift_outcome (column_or_value_arg U state cols);
       country ← lift_outcome (column_or_value_arg U country cols);
       '(input_table_name, is_temporary) ←
         _table_for_geocoding U R source_ table_name if_exists dry_run;
       metadata ← _geocode U R input_table_name street city state country status dry_run;
       if dry_run then mret (Result None metadata)
       else
         cdf ← read_carto R input_table_name;
         _ ← (if is_temporary : bool then delete_table R input_table_name else mret tt);
         let result := Result (Some cdf) metadata in
         _ ← print "Success! Data geocoded correctly";
         mret result).
Proof. reflexivity. Qed.

Ltac unfold_cached :=
  unfold _cached_geocode, set_source_manager, set_columns, self_source_manager,
    self_columns, _new_temporary_table_name, get_column_names, has_table, to_carto,
    delete_table, update_table, _execute_query, command, ask, lift_outcome, raise;
  unfold mbind, M_bind, mret, M_ret.

(** The cached path: with a cache table that has the hash column and a
    dataframe that lacks it, a call of [geocode] with [cached=True] that
    returns has made these calls, in this order, and then geocoded the cache
    table in place. *)
Lemma cached_geocode_path (depth : nat) (df : dataframe) (table_name street : string)
  (city state country : geoarg) (status : status_arg) (if_exists : string) (dry_run : bool)
  (w w' : world) (res : result) (cols cache_cols : list string) :
  let source_ := SrcDataFrame df in
  let tmp := r_temporary_table_name R
               (calls w ++ [E_get_column_names source_; E_has_table table_name;
                            E_get_column_names (SrcStr table_name)]) in
  table_name ≠ "" ->
  r_column_names R (calls w) source_ = Returns cols ->
  HASH_COLUMN U ∉ cols ->
  r_has_table R (calls w ++ [E_get_column_names source_]) table_name = Returns true ->
  r_column_names R (calls w ++ [E_get_column_names source_; E_has_table table_name])
    (SrcStr table_name) = Returns cache_cols ->
  HASH_COLUMN U ∈ cache_cols ->
  geocode U R (S (S depth)) source_ street city state country status (Some table_name)
    if_exists dry_run true w = (Returns res, w') ->
  ∃ hcity hstate hcountry w8 inner,
    column_or_value_arg U city cols = Returns hcity ∧
    column_or_value_arg U state cols = Returns hstate ∧
    column_or_value_arg U country cols = Returns hcountry ∧
    calls w8 = calls w ++
      [E_get_column_names source_; E_has_table table_name;
       E_get_column_names (SrcStr table_name);
       E_to_carto source_ tmp None;
       E_execute_query (add_hash_column_sql tmp (HASH_COLUMN U));
       E_execute_query
         (update_from_cache_sql tmp table_name (HASH_COLUMN U)
            (hash_expr U street hcity hstate hcountry tmp));
       E_delete_table table_name;
       E_update_table tmp table_name "private"] ∧
    geocode U R (S depth) (SrcStr table_name) street city state country (DEFAULT_STATUS U)
      None "fail" dry_run false w8 = (Returns inner, w') ∧
    res = Result (data inner) (metadata inner).
Proof.
  intros source_ tmp Hname Hcols Hnohash Hhas Hcache Hhash.
  rewrite geocode_S. unfold_cached.
  cbn [calls emit _source_manager columns truthy negb the default from_option id].
  rewrite bool_decide_eq_true_2 by exact Hname. cbn [negb].
  rewrite Hcols. cbn [calls emit _source_manager columns app]. rewrite Hhas.
  cbn [calls emit _source_manager columns app]. rewrite <- !app_assoc. cbn [app].
  rewrite Hcache.
  rewrite (bool_decide_eq_false_2 (HASH_COLUMN U ∉ cache_cols)) by tauto.
  rewrite (bool_decide_eq_false_2 (HASH_COLUMN U ∈ cols)) by exact Hnohash.
  cbn [calls emit _source_manager columns app orb negb is_table source_].
  rewrite <- !app_assoc. cbn [app]. fold source_ tmp.
  repeat step; intros [= <- <-].
  do 5 eexists. do 3 (split; [reflexivity|]).
  split; [|split; [eassumption|reflexivity]].
  trace_normal. reflexivity.
Qed.


(** [_geocode] works on the table in place: it runs queries and takes the
    lock, and makes no other call. *)
Lemma geocode_in_place (table_name street : string) (city state country : geoarg)
  (status : status_arg) (dry_run : bool) :
  emits in_place (_geocode U R table_name street city state country status dry_run)
    (fun _ => True).
Proof.
  intros w r w'. unfold_geocode.
  repeat step; intros [= <- <-]; trace_normal;
    (split; [eexists; split; [reflexivity|]|auto]);
    repeat (match goal with |- Forall _ _ => constructor end); exact I.
Qed.

Lemma in_place_not_upload (e : event) : in_place e -> ¬ is_to_carto e.
Proof. destruct e; cbn; tauto. Qed.

(** Geocoding a table or a query uploads nothing. *)
Lemma geocode_str_uploads_nothing (depth : nat) (s street : string)
  (city state country : geoarg) (status : status_arg) (table_name : option string)
  (if_exists : string) (dry_run : bool) :
  emits (fun e => ¬ is_to_carto e)
    (geocode U R depth (SrcStr s) street city state country status table_name if_exists
       dry_run false)
    (fun _ => True).
Proof.
  intros w r w'. destruct depth as [|depth]; [cbn [geocode]|rewrite geocode_S].
  { intros [= <- <-]. split; [|auto]. exists []. now rewrite app_nil_r. }
  unfold_cached. unfold _table_for_geocoding, copy_table, create_table_from_query,
    to_carto, read_carto, delete_table, print, self_source_manager,
    _new_temporary_table_name, command, ask.
  unfold mbind, M_bind, mret, M_ret.
  cbn [calls emit _source_manager columns is_table is_query is_dataframe].
  repeat step; intros [= <- <-]; (split; [|auto]).
  all: first
    [match goal with
     | H : _geocode _ _ _ _ _ _ _ _ _ _ = _ |- _ =>
         destruct (geocode_in_place _ _ _ _ _ _ _ _ _ _ H) as [(evs & Hevs & Hin) _];
         cbn [calls emit] in *; rewrite Hevs
     end
    |cbn [calls emit]].
  all: rewrite <- ?app_assoc; cbn [app]; (eexists; split; [reflexivity|]).
  all: repeat first
    [apply Forall_nil_2
    |apply Forall_cons_2; [intros []|]
    |apply Forall_app_2
    |eapply Forall_impl; [exact Hin|apply in_place_not_upload]].
Qed.



(** C1, as the code has it. On the cached path (a cache table with the hash
    column, a dataframe without it) a call of [geocode] with [cached=True]
    that returns has uploaded the dataframe it was given, whole, to the
    temporary table, and has uploaded nothing else: every row goes up, whether
    its content hash is in the cache table or not. *)
Theorem cached_geocode_uploads_whole_dataframe (depth : nat) (df : dataframe)
  (table_name street : string) (city state country : geoarg) (status : status_arg)
  (if_exists : string) (dry_run : bool) (w w' : world) (res : result)
  (cols cache_cols : list string)
  (Hname : table_name ≠ "")
  (Hcols : r_column_names R (calls w) (SrcDataFrame df) = Returns cols)
  (Hnohash : HASH_COLUMN U ∉ cols)
  (Hhas : r_has_table R (calls w ++ [E_get_column_names (SrcDataFrame df)]) table_name
          = Returns true)
  (Hcache : r_column_names R
              (calls w ++ [E_get_column_names (SrcDataFrame df); E_has_table table_name])
              (SrcStr table_name) = Returns cache_cols)
  (Hhash : HASH_COLUMN U ∈ cache_cols)
  (Hrun : geocode U R (S (S depth)) (SrcDataFrame df) street city state country status
            (Some table_name) if_exists dry_run true w = (Returns res, w')) :
  let tmp := r_temporary_table_name R
               (calls w ++ [E_get_column_names (SrcDataFrame df); E_has_table table_name;
                            E_get_column_names (SrcStr table_name)]) in
  ∃ evs, calls w' = calls w ++ evs ∧
    E_to_carto (SrcDataFrame df) tmp None ∈ evs ∧
    ∀ src t ie, E_to_carto src t ie ∈ evs -> src = SrcDataFrame df ∧ t = tmp ∧ ie = None.
Proof.
  intros tmp.
  destruct (cached_geocode_path depth df table_name street city state country status
              if_exists dry_run w w' res cols cache_cols Hname Hcols Hnohash Hhas Hcache
              Hhash Hrun)
    as (hcity & hstate & hcountry & w8 & inner & _ & _ & _ & Hw8 & Hinner & _).
  destruct (geocode_str_uploads_nothing _ _ _ _ _ _ _ _ _ _ _ _ _ Hinner)
    as [(evs & Hevs & Hno) _].
  eexists. split; [rewrite Hevs, Hw8, <- app_assoc; reflexivity|].
  fold tmp. split.
  - rewrite elem_of_app. left. rewrite !elem_of_cons. auto.
  - intros src t ie Hin. apply elem_of_app in Hin as [Hin|Hin].
    + rewrite !elem_of_cons, elem_of_nil in Hin.
      destruct Hin as [Hin|[Hin|[Hin|[Hin|[Hin|[Hin|[Hin|[Hin|[]]]]]]]]];
        try discriminate Hin.
      injection Hin as -> -> ->. auto.
    + rewrite Forall_forall in Hno. destruct (Hno _ Hin). exact I.
Qed.

End GeocodingFacts.

(** ** The properties at the example inputs *)

Import Geocoding Trace GeocodingExample.

Lemma zoom_bands_witness :
  ∃ low_query medium_9 medium_10 high_12,
    (MoreExamples.insert_zooms (Some [12; 0; 9; 10; 4])).1.1 = (Returns tt, [low_query]) ∧
    kwarg "zooms" (GBQ.q_args Z low_query) = Some (GBQ.FZooms Z [0; 4]) ∧
    (MoreExamples.insert_zooms (Some [12; 0; 9; 10; 4])).1.2 = (Returns tt, [medium_9; medium_10]) ∧
    kwarg "zooms" (GBQ.q_args Z medium_9) = Some (GBQ.FZooms Z [9]) ∧
    kwarg "zooms" (GBQ.q_args Z medium_10) = Some (GBQ.FZooms Z [10]) ∧
    (MoreExamples.insert_zooms (Some [12; 0; 9; 10; 4])).2 = (Returns tt, [high_12]) ∧
    kwarg "depth" (GBQ.q_args Z high_12) = Some (GBQ.FInt Z 1).
Proof.
  destruct (zoom_bands GBQExample.bigquery GBQExample.json_dumps "prepared" "tiles"
              GBQExample.bbox 5 (Some [12; 0; 9; 10; 4]) [] [])
    as (_ & _ & _ & _ & _ & Hlow & Hmedium & Hhigh).
  destruct (Hlow (MoreExamples.insert_zooms (Some [12; 0; 9; 10; 4])).1.1.2)
    as (low_query & Hql & _ & Hzooms); [vm_compute; reflexivity|discriminate|].
  destruct (Hmedium (MoreExamples.insert_zooms (Some [12; 0; 9; 10; 4])).1.2.2)
    as (qm & Hqm & Hbands); [vm_compute; reflexivity|].
  destruct (Hhigh (MoreExamples.insert_zooms (Some [12; 0; 9; 10; 4])).2.2)
    as (qh & Hqh & Hdepths); [vm_compute; reflexivity|].
  apply Forall2_cons_inv_l in Hbands as (medium_9 & qm' & [_ H9] & Hbands & ->).
  apply Forall2_cons_inv_l in Hbands as (medium_10 & qm'' & [_ H10] & Hbands & ->).
  apply Forall2_nil_inv_l in Hbands as ->.
  apply Forall2_cons_inv_l in Hdepths as (high_12 & qh' & (_ & _ & H12) & Hdepths & ->).
  apply Forall2_nil_inv_l in Hdepths as ->.
  cbn [app] in Hql, Hqm, Hqh.
  exists low_query, medium_9, medium_10, high_12.
  split; [rewrite <- Hql; vm_compute; reflexivity|]. split; [exact Hzooms|].
  split; [rewrite <- Hqm; vm_compute; reflexivity|]. split; [exact H9|]. split; [exact H10|].
  split; [rewrite <- Hqh; vm_compute; reflexivity|exact H12].
Defined.

Lemma quadkey_zoom_search_terminates_witness :
  GBQ.guess_quadkey Z (Z * Z * Z) QuadkeyExample.tile QuadkeyExample.quadkey
    QuadkeyExample.py_int 20 GBQExample.bbox 1 = Some (Returns (7, 0, 16383)) ∧
  (16383 - 0 >= 10000 ∨ 7 = 20) ∧
  (∀ z, 1 <= z < 7 ->
     ∃ a b, QuadkeyExample.py_int (QuadkeyExample.digit_string (Z.to_nat z) QuadkeyExample.digit_0) 4
            = Returns a ∧
            QuadkeyExample.py_int (QuadkeyExample.digit_string (Z.to_nat z) QuadkeyExample.digit_3) 4
            = Returns b ∧ b - a < 10000).
Proof.
  destruct (quadkey_zoom_search_terminates QuadkeyExample.tile QuadkeyExample.quadkey
              QuadkeyExample.py_int GBQExample.bbox) as (o & Ho & _ & Hbreak & Hreturns & _).
  destruct Hreturns as [[[qz a] b] ->].
  { intros z Hz.
    assert (Hcases : z = 1 ∨ z = 2 ∨ z = 3 ∨ z = 4 ∨ z = 5 ∨ z = 6 ∨ z = 7 ∨ z = 8 ∨ z = 9 ∨
                     z = 10 ∨ z = 11 ∨ z = 12 ∨ z = 13 ∨ z = 14 ∨ z = 15 ∨ z = 16 ∨
                     z = 17 ∨ z = 18 ∨ z = 19 ∨ z = 20) by lia.
    repeat (destruct Hcases as [->|Hcases]); [..|subst z];
      do 10 eexists; repeat split; reflexivity. }
  destruct (Hbreak qz a b eq_refl) as (_ & _ & Hexit & Hbelow).
  vm_compute in Ho. injection Ho as <- <- <-.
  split; [reflexivity|]. split; [exact Hexit|].
  intros z Hz. destruct (Hbelow z Hz)
    as (a & b & (b0 & b1 & b2 & b3 & tmin & tmax & smin & smax &
                 [= <-] & [= <-] & [= <-] & [= <-] & [= <-] & [= <-] & [= <-] & [= <-] &
                 Ha & Hb) & Hspan).
  exists a, b. split; [exact Ha|]. split; [exact Hb|exact Hspan].
Defined.


Lemma geocoding_query_under_lock_witness :
  ∃ evs, [q_exists "t"; q_summary "t"; E_lock_enter "t" false; E_lock_exit "t"] = [] ++ evs ∧
         long_queries_under_lock "t" false evs = true.
Proof.
  destruct (geocoding_query_under_lock example_utils (example_remote 3 false)
              "t" "address" ArgNone ArgNone ArgNone StatusNone false w0
              (World [q_exists "t"; q_summary "t"; E_lock_enter "t" false; E_lock_exit "t"]
                 (SrcStr "") [])
              (Returns (<["aborted" := VBool true]>
                          (<["error" := VStr already_geocoded]> (quota 3)))))
    as (evs & Hevs & Hguard & _).
  { vm_compute. reflexivity. }
  exists evs. split; [exact Hevs|exact Hguard].
Defined.

Lemma dry_run_performs_no_geocoding_witness :
  ∃ evs, cached_calls = [] ++ evs ∧ Forall no_geocoding evs.
Proof.
  destruct (dry_run_performs_no_geocoding example_utils (example_remote 3 true)
              "t" "address" ArgNone ArgNone ArgNone StatusNone
              w0 (World [q_exists "t"; q_summary "t"] (SrcStr "") []) (Returns (quota 3))
              2 (SrcDataFrame addresses) "address" ArgNone ArgNone ArgNone StatusNone
              (Some "cache") "fail" true
              w0 (World cached_calls (SrcStr "cache") (df_columns cache_frame))
              (Returns (Result None (quota 3))))
    as (_ & Hevs & _).
  { vm_compute. reflexivity. }
  { vm_compute. reflexivity. }
  exact Hevs.
Defined.

Lemma nothing_to_geocode_witness :
  ∃ q1 q2, [q_exists "t"; q_summary "t"] = [] ++ [E_execute_query q1; E_execute_query q2].
Proof.
  destruct (nothing_to_geocode example_utils (example_remote 0 true)
              "t" "address" ArgNone ArgNone ArgNone StatusNone false w0
              (World [q_exists "t"; q_summary "t"] (SrcStr "") [])
              (Some (summary_result 0)) (summary_of 0) (quota 0))
    as [_ Hcalls].
  - vm_compute. reflexivity.
  - reflexivity.
  - vm_compute. reflexivity.
  - vm_compute. reflexivity.
  - exact Hcalls.
Defined.


Lemma cached_geocode_uploads_whole_dataframe_witness :
  ∃ evs, cached_calls ++ [E_read_carto "cache"; E_print "Success! Data geocoded correctly"]
         = [] ++ evs ∧
         E_to_carto (SrcDataFrame addresses) "table_tmp" None ∈ evs.
Proof.
  destruct (cached_geocode_uploads_whole_dataframe example_utils (example_remote 0 true) 0
              addresses "cache" "address" ArgNone ArgNone ArgNone StatusNone "fail" false w0
              (World (cached_calls ++ [E_read_carto "cache";
                                       E_print "Success! Data geocoded correctly"])
                 (SrcStr "cache") (df_columns cache_frame))
              (Result (Some cache_frame) (quota 0))
              (df_columns addresses) (df_columns cache_frame))
    as (evs & Hevs & Hin & _).
  - discriminate.
  - reflexivity.
  - apply (bool_decide_unpack _). vm_compute. exact I.
  - reflexivity.
  - reflexivity.
  - apply (bool_decide_unpack _). vm_compute. exact I.
  - vm_compute. reflexivity.
  - exists evs. split; [exact Hevs|exact Hin].
Defined.

(** C1, as the claim states it, fails: the cache table "cache" exists and has
    the hash column, the dataframe [addresses] lacks it, the content hash of
    its only row is stored in the cache table, and yet the cached geocoding
    uploads that row. *)
Lemma unchanged_row_is_uploaded :
  r_has_table (example_remote 0 true) [E_get_column_names (SrcDataFrame addresses)] "cache"
    = Returns true ∧
  HASH_COLUMN example_utils ∈ df_columns cache_frame ∧
  (HASH_COLUMN example_utils ∉ df_columns addresses) ∧
  Forall (fun row => row_hash row ∈ cache_hashes) (df_rows addresses) ∧
  ¬ only_changed_rows_uploaded row_hash cache_hashes addresses
      (calls (geocode example_utils (example_remote 0 true) 2 (SrcDataFrame addresses)
                "address" ArgNone ArgNone ArgNone StatusNone (Some "cache") "fail" false
                true w0).2).
Proof.
  split; [reflexivity|].
  split; [apply (bool_decide_unpack _); vm_compute; exact I|].
  split; [apply (bool_decide_unpack _); vm_compute; exact I|].
  split; [apply (bool_decide_unpack _); vm_compute; exact I|].
  intros Hclaim.
  destruct (Hclaim (SrcDataFrame addresses) "table_tmp" None) as (df' & Hsrc & Hrows).
  - replace (calls _) with
      (cached_calls ++ [E_read_carto "cache"; E_print "Success! Data geocoded correctly"])
      by (vm_compute; reflexivity).
    unfold cached_calls. rewrite elem_of_app, !elem_of_cons. auto 10.
  - injection Hsrc as <-. vm_compute in Hrows. discriminate Hrows.
Qed.

(** * Further properties *)

(** ** Geocoding: errors, fallbacks and clean-up *)

Section GeocodingMore.
Import Geocoding Trace Locks.

Variable U : utils.
Variable R : remote.

Ltac run_in t :=
  lazymatch t with
  | match ?x with _ => _ end => first [run_in x | destruct x eqn:?]
  | negb ?b => first [run_in b | destruct b eqn:?]
  | ?a && _ => first [run_in a | destruct a eqn:?]
  | ?a || _ => first [run_in a | destruct a eqn:?]
  | ?f _ => run_in f
  end.

Ltac run :=
  lazymatch goal with
  | |- ?lhs = _ -> _ => run_in lhs; cbn [negb andb orb fst snd]
  end.

Ltac open_geocode :=
  unfold _geocode, _execute_prior_summary, with_TableGeocodingLock, lock_enter,
    try_long_running_query, finally, _execute_long_running_query, _execute_query,
    command, ask, getitem, gt_zero, lift_outcome, raise;
  unfold mbind, M_bind, mret, M_ret.

Ltac open_cached :=
  unfold _cached_geocode, set_source_manager, set_columns, self_source_manager,
    self_columns, _new_temporary_table_name, get_column_names, has_table, to_carto,
    delete_table, update_table, _execute_query, command, ask, lift_outcome, raise;
  unfold mbind, M_bind, mret, M_ret.

Ltac open_table :=
  unfold _table_for_geocoding, copy_table, create_table_from_query, to_carto,
    read_carto, delete_table, print, self_source_manager, _new_temporary_table_name,
    command, ask, lift_outcome, raise;
  unfold mbind, M_bind, mret, M_ret.

Ltac same_world :=
  unfold emit; cbn [calls _source_manager columns]; rewrite <- ?app_assoc; cbn [app];
  reflexivity.

Ltac flat := cbn [calls emit _source_manager columns]; rewrite <- ?app_assoc; cbn [app].

(** With [cached=True] and no table name, [geocode] asks for the columns of
    the source and raises; when the columns come back, what it raises is the
    [ValueError] about the missing table name. *)
Theorem cached_needs_table_name (depth : nat) (source_ : source) (street : string)
  (city state country : geoarg) (status : status_arg) (table_name : option string)
  (if_exists : string) (dry_run : bool) (w w' : world) (r : outcome result)
  (Hname : truthy table_name = false)
  (Hrun : geocode U R (S depth) source_ street city state country status table_name
            if_exists dry_run true w = (r, w')) :
  calls w' = calls w ++ [E_get_column_names source_] ∧
  ∃ e, r = Raises e ∧
       (∀ cols, r_column_names R (calls w) source_ = Returns cols ->
                e = Exn ValueError no_table_name).
Proof.
  revert Hrun. rewrite geocode_S, Hname. open_cached.
  cbn [calls emit _source_manager columns negb].
  repeat run; intros [= <- <-]; (split; [reflexivity|]);
    eexists; (split; [reflexivity|]); intros cols [=]. reflexivity.
Qed.


(** A cache table that exists without the hash column is refused: the call
    raises [ValueError] after it has looked at the columns of the source,
    asked whether the table exists and looked at its columns; nothing is
    uploaded, altered or deleted. *)
Theorem invalid_cache_table_is_refused (depth : nat) (source_ : source)
  (table_name street : string) (city state country : geoarg) (status : status_arg)
  (if_exists : string) (dry_run : bool) (w : world) (cols cache_cols : list string)
  (Hname : table_name ≠ "")
  (Hcols : r_column_names R (calls w) source_ = Returns cols)
  (Hhas : r_has_table R (calls w ++ [E_get_column_names source_]) table_name = Returns true)
  (Hcache : r_column_names R (calls w ++ [E_get_column_names source_; E_has_table table_name])
              (SrcStr table_name) = Returns cache_cols)
  (Hnohash : HASH_COLUMN U ∉ cache_cols) :
  geocode U R (S depth) source_ street city state country status (Some table_name)
    if_exists dry_run true w
  = (Raises (Exn ValueError (invalid_cache_message table_name)),
     World (calls w ++ [E_get_column_names source_; E_has_table table_name;
                        E_get_column_names (SrcStr table_name)])
       source_ cols).
Proof.
  rewrite geocode_S. open_cached.
  cbn [calls emit _source_manager columns truthy negb the default from_option id].
  rewrite bool_decide_eq_true_2 by exact Hname. cbn [negb].
  rewrite Hcols. cbn [calls emit _source_manager columns app]. rewrite Hhas.
  cbn [calls emit _source_manager columns app]. rewrite <- ?app_assoc. cbn [app].
  rewrite Hcache.
  rewrite (bool_decide_eq_true_2 (HASH_COLUMN U ∉ cache_cols)) by exact Hnohash.
  same_world.
Qed.

(** Cached geocoding of a table is refused: with a valid cache table and a
    source that is a table without the hash column, the call raises
    [ValueError] and has only asked for columns and for the cache table. *)
Theorem cached_table_source_is_refused (depth : nat) (s table_name street : string)
  (city state country : geoarg) (status : status_arg) (if_exists : string)
  (dry_run : bool) (w : world) (cols cache_cols : list string)
  (Htable : is_sql_query U s = false)
  (Hname : table_name ≠ "")
  (Hcols : r_column_names R (calls w) (SrcStr s) = Returns cols)
  (Hsource : HASH_COLUMN U ∉ cols)
  (Hhas : r_has_table R (calls w ++ [E_get_column_names (SrcStr s)]) table_name
          = Returns true)
  (Hcache : r_column_names R (calls w ++ [E_get_column_names (SrcStr s); E_has_table table_name])
              (SrcStr table_name) = Returns cache_cols)
  (Hhash : HASH_COLUMN U ∈ cache_cols) :
  geocode U R (S depth) (SrcStr s) street city state country status (Some table_name)
    if_exists dry_run true w
  = (Raises (Exn ValueError "cached geocoding cannot be used with tables"),
     World (calls w ++ [E_get_column_names (SrcStr s); E_has_table table_name;
                        E_get_column_names (SrcStr table_name)])
       (SrcStr s) cols).
Proof.
  rewrite geocode_S. open_cached.
  cbn [calls emit _source_manager columns truthy negb the default from_option id].
  rewrite bool_decide_eq_true_2 by exact Hname. cbn [negb].
  rewrite Hcols. cbn [calls emit _source_manager columns app]. rewrite Hhas.
  cbn [calls emit _source_manager columns app]. rewrite <- ?app_assoc. cbn [app].
  rewrite Hcache.
  rewrite (bool_decide_eq_false_2 (HASH_COLUMN U ∉ cache_cols)) by tauto.
  rewrite (bool_decide_eq_false_2 (HASH_COLUMN U ∈ cols)) by exact Hsource.
  cbn [calls emit _source_manager columns app orb negb is_table].
  rewrite Htable. cbn [negb]. same_world.
Qed.

(** Without a cache table, a cached call is a plain call that writes its
    result to the table: [geocode] with [table_name], [if_exists='replace']
    and the default [status], run after the two look-ups. *)
Theorem first_cached_call_creates_the_cache (depth : nat) (source_ : source)
  (table_name street : string) (city state country : geoarg) (status : status_arg)
  (if_exists : string) (dry_run : bool) (w : world) (cols : list string)
  (Hname : table_name ≠ "")
  (Hcols : r_column_names R (calls w) source_ = Returns cols)
  (Hhas : r_has_table R (calls w ++ [E_get_column_names source_]) table_name
          = Returns false) :
  geocode U R (S depth) source_ street city state country status (Some table_name)
    if_exists dry_run true w
  = geocode U R depth source_ street city state country (DEFAULT_STATUS U)
      (Some table_name) "replace" dry_run false
      (World (calls w ++ [E_get_column_names source_; E_has_table table_name])
         source_ cols).
Proof.
  rewrite geocode_S. open_cached.
  cbn [calls emit _source_manager columns truthy negb the default from_option id].
  rewrite bool_decide_eq_true_2 by exact Hname. cbn [negb].
  rewrite Hcols. cbn [calls emit _source_manager columns app]. rewrite Hhas.
  cbn [calls emit _source_manager columns app negb]. rewrite orb_true_r.
  same_world.
Qed.

(** A source that already carries the hash column is geocoded straight into
    the cache table, replacing it: no temporary table is made. *)
Theorem hashed_source_replaces_the_cache (depth : nat) (source_ : source)
  (table_name street : string) (city state country : geoarg) (status : status_arg)
  (if_exists : string) (dry_run : bool) (w : world) (cols cache_cols : list string)
  (Hname : table_name ≠ "")
  (Hcols : r_column_names R (calls w) source_ = Returns cols)
  (Hsource : HASH_COLUMN U ∈ cols)
  (Hhas : r_has_table R (calls w ++ [E_get_column_names source_]) table_name = Returns true)
  (Hcache : r_column_names R (calls w ++ [E_get_column_names source_; E_has_table table_name])
              (SrcStr table_name) = Returns cache_cols)
  (Hhash : HASH_COLUMN U ∈ cache_cols) :
  geocode U R (S depth) source_ street city state country status (Some table_name)
    if_exists dry_run true w
  = geocode U R depth source_ street city state country (DEFAULT_STATUS U)
      (Some table_name) "replace" dry_run false
      (World (calls w ++ [E_get_column_names source_; E_has_table table_name;
                          E_get_column_names (SrcStr table_name)])
         source_ cols).
Proof.
  rewrite geocode_S. open_cached.
  cbn [calls emit _source_manager columns truthy negb the default from_option id].
  rewrite bool_decide_eq_true_2 by exact Hname. cbn [negb].
  rewrite Hcols. cbn [calls emit _source_manager columns app]. rewrite Hhas.
  cbn [calls emit _source_manager columns app]. rewrite <- ?app_assoc. cbn [app].
  rewrite Hcache.
  rewrite (bool_decide_eq_false_2 (HASH_COLUMN U ∉ cache_cols)) by tauto.
  rewrite (bool_decide_eq_true_2 (HASH_COLUMN U ∈ cols)) by exact Hsource.
  cbn [calls emit _source_manager columns app orb negb].
  same_world.
Qed.

(** A cached call does not look at [status] nor at [if_exists]: two calls
    that differ only in them run alike. *)
Theorem cached_call_ignores_status_and_if_exists (depth : nat) (source_ : source)
  (street : string) (city state country : geoarg) (status status' : status_arg)
  (table_name : option string) (if_exists if_exists' : string) (dry_run : bool) (w : world) :
  geocode U R depth source_ street city state country status table_name if_exists
    dry_run true w
  = geocode U R depth source_ street city state country status' table_name if_exists'
      dry_run true w.
Proof. destruct depth; reflexivity. Qed.


(** The table [_table_for_geocoding] hands to the geocoder.  A table name given
    by the caller is the one used, and it is not temporary; a table without a
    name given is geocoded where it is and no call is made; a query or a
    dataframe without a name given goes to a table with a fresh name, marked
    temporary.  The one call made copies the table, creates the table from
    the query or uploads the dataframe. *)
Theorem input_table_for_geocoding (source_ : source) (table_name : option string)
  (if_exists : string) (dry_run : bool) (w w' : world) (name : string) (is_temporary : bool)
  (Hsm : _source_manager w = source_)
  (Hrun : _table_for_geocoding U R source_ table_name if_exists dry_run w
          = (Returns (name, is_temporary), w')) :
  is_temporary = negb (truthy table_name) && negb (is_table U source_) ∧
  name = (if truthy table_name then the table_name
          else match source_ with
               | SrcStr s => if is_sql_query U s then r_temporary_table_name R (calls w) else s
               | SrcDataFrame _ => r_temporary_table_name R (calls w)
               end) ∧
  calls w' = calls w ++
    match source_ with
    | SrcStr s =>
        if is_sql_query U s then [E_create_table_from_query source_ name if_exists]
        else if truthy table_name then [E_copy_table source_ name if_exists] else []
    | SrcDataFrame _ => [E_to_carto source_ name (Some if_exists)]
    end.
Proof.
  revert Hrun. open_table. rewrite Hsm.
  destruct source_ as [s|df]; cbn [is_table is_query is_dataframe negb];
    repeat run; intros [= <- <- <-]; cbn [negb andb calls emit];
    rewrite ?app_nil_r; auto.
Qed.

(** [geocode] without [cached] deletes no table of the caller: the only table
    it ever deletes is the temporary one it made, under the fresh name, for a
    query or a dataframe given without a table name, and never in a dry run. *)
Theorem only_the_temporary_table_is_deleted (depth : nat) (source_ : source)
  (street : string) (city state country : geoarg) (status : status_arg)
  (table_name : option string) (if_exists : string) (dry_run : bool)
  (w w' : world) (r : outcome result)
  (Hrun : geocode U R depth source_ street city state country status table_name if_exists
            dry_run false w = (r, w')) :
  ∃ evs, calls w' = calls w ++ evs ∧
    ∀ t, E_delete_table t ∈ evs ->
      dry_run = false ∧ truthy table_name = false ∧ is_table U source_ = false ∧
      t = r_temporary_table_name R (calls w ++ [E_get_column_names source_]).
Proof.
  revert Hrun. destruct depth as [|depth]; [cbn [geocode]|rewrite geocode_S].
  { intros [= <- <-]. exists []. split; [now rewrite app_nil_r|].
    intros t Hin. now apply elem_of_nil in Hin. }
  open_cached. open_table.
  cbn [calls emit _source_manager columns].
  destruct source_ as [s|df]; cbn [is_table is_query is_dataframe negb];
    repeat run; intros [= <- <-].
  all: first
    [match goal with
     | H : _geocode _ _ _ _ _ _ _ _ _ _ = _ |- _ =>
         destruct (geocode_in_place U R _ _ _ _ _ _ _ _ _ _ H) as [(evs & Hevs & Hin) _];
         cbn [calls emit] in *; rewrite Hevs
     end
    |cbn [calls emit]].
  all: rewrite <- ?app_assoc; cbn [app]; (eexists; split; [reflexivity|]).
  all: intros t Ht;
    rewrite ?elem_of_cons, ?elem_of_app, ?elem_of_cons, ?elem_of_nil in Ht.
  all: repeat match goal with
         | H : _ ∨ _ |- _ => destruct H
         | H : False |- _ => destruct H
         | H : E_delete_table _ = _ |- _ => first [discriminate H|injection H as ->]
         | H : E_delete_table ?t ∈ ?evs, HF : Forall in_place ?evs |- _ =>
             rewrite Forall_forall in HF; destruct (HF _ H)
         end.
  all: auto.
Qed.

(** After every run of [_geocode], returning or raising, no lock is left
    held: the lock that was taken is given back also when the [ALTER TABLE]
    raises. *)
Theorem lock_is_released (table_name street : string) (city state country : geoarg)
  (status : status_arg) (dry_run : bool) (w w' : world) (r : outcome (gmap string pyval))
  (Hrun : _geocode U R table_name street city state country status dry_run w = (r, w')) :
  ∃ evs, calls w' = calls w ++ evs ∧ ∀ t, lock_held t false evs = false.
Proof.
  revert Hrun. open_geocode.
  repeat run; intros [= <- <-]; flat;
    (eexists; split; [reflexivity|]);
    intros t; cbn [lock_held]; repeat case_decide; reflexivity.
Qed.


(** What the handler of the geocoding query leaves in the metadata: the
    message under [error], the two numbers of the message when the regular
    expression finds them, and every other entry as it was. *)
Lemma quota_error_entries (msg : string) (output : gmap string pyval) :
  quota_error U msg output !! "error" = Some (VStr msg) ∧
  (∀ remaining cost, search_quota U msg = Some (remaining, cost) ->
     quota_error U msg output !! "remaining_quota" = Some (VInt remaining) ∧
     quota_error U msg output !! "estimated_cost" = Some (VInt cost)) ∧
  (∀ k, k ≠ "error" -> k ≠ "remaining_quota" -> k ≠ "estimated_cost" ->
     quota_error U msg output !! k = output !! k).
Proof.
  unfold quota_error. destruct (search_quota U msg) as [[remaining cost]|].
  - split; [now rewrite !lookup_insert_ne, lookup_insert_eq by discriminate|].
    split.
    + intros ? ? [= <- <-]. split.
      * now rewrite lookup_insert_ne, lookup_insert_eq by discriminate.
      * now rewrite lookup_insert_eq.
    + intros k H1 H2 H3. now rewrite !lookup_insert_ne by congruence.
  - split; [now rewrite lookup_insert_eq|]. split; [discriminate|].
    intros k H1 _ _. now rewrite lookup_insert_ne by congruence.
Qed.

(** A geocoding that goes through: with quota to spend, outside a dry run,
    the lock free and every call returning, [_geocode] alters the table, runs
    the geocoding query under the lock, gives the lock back, runs the
    posterior summary and returns the metadata completed with it. *)
Theorem geocoding_goes_through (table_name street : string) (city state country : geoarg)
  (status : status_arg) (w w1 : world) (result post : option qresult)
  (summary : gmap pyval pyval) (pre output : gmap string pyval) (n : Z)
  (altered geocoded : option qresult) :
  let gq := geocode_query U table_name street city state country status in
  let alter := E_execute_query (alter_sql table_name (gq.2 ++ [(HASH_COLUMN U, "text")])) in
  let long := E_execute_long_running_query gq.1 in
  _execute_prior_summary U R table_name street city state country w = (Returns result, w1) ->
  prior_summary result = Returns summary ->
  set_pre_summary_info U summary ∅ = Returns pre ->
  pre !! "required_quota" = Some (VInt n) -> 0 < n ->
  r_lock R (calls w1) table_name = Returns true ->
  r_query R (calls w1 ++ [E_lock_enter table_name true])
    (alter_sql table_name (gq.2 ++ [(HASH_COLUMN U, "text")])) = Returns altered ->
  r_long_running_query R (calls w1 ++ [E_lock_enter table_name true; alter]) gq.1
    = Returns geocoded ->
  r_command R (calls w1 ++ [E_lock_enter table_name true; alter; long])
    (E_lock_exit table_name) = Returns tt ->
  r_query R (calls w1 ++ [E_lock_enter table_name true; alter; long; E_lock_exit table_name])
    (posterior_summary_query U table_name) = Returns post ->
  set_post_summary_info U summary post pre = Returns output ->
  _geocode U R table_name street city state country status false w
  = (Returns output,
     World (calls w1 ++ [E_lock_enter table_name true; alter; long; E_lock_exit table_name;
                         E_execute_query (posterior_summary_query U table_name)])
       (_source_manager w1) (columns w1)).
Proof.
  intros gq alter long Hprior Hsummary Hpre Hquota Hn Hlock Halter Hlong Hexit Hpost Hset.
  unfold _geocode. erewrite bind_returns by exact Hprior.
  open_geocode. rewrite Hsummary, Hpre, Hquota.
  replace (0 <? n) with true by (symmetry; now apply Z.ltb_lt).
  cbn [andb negb]. rewrite Hlock. cbn [negb].
  fold gq. destruct gq as [sql add_columns] eqn:Hgq. cbn [fst snd] in *.
  cbn [calls emit]. rewrite Halter.
  cbn [calls emit]. rewrite <- ?app_assoc. cbn [app]. subst alter. rewrite Hlong.
  cbn [calls emit]. rewrite <- ?app_assoc. cbn [app]. subst long. rewrite Hexit.
  cbn [negb calls emit]. rewrite <- ?app_assoc. cbn [app]. rewrite Hpost, Hset.
  same_world.
Qed.

(** A geocoding query that raises does not make [_geocode] raise: the lock is
    given back, no posterior summary is run, and the metadata of the prior
    summary is returned with the message of the exception under [error]; it
    has no [aborted] entry unless the prior summary put one. *)
Theorem geocoding_error_is_reported (table_name street : string)
  (city state country : geoarg) (status : status_arg) (w w1 : world)
  (result : option qresult) (summary : gmap pyval pyval) (pre : gmap string pyval) (n : Z)
  (altered : option qresult) (err : exn) :
  let gq := geocode_query U table_name street city state country status in
  let alter := E_execute_query (alter_sql table_name (gq.2 ++ [(HASH_COLUMN U, "text")])) in
  let long := E_execute_long_running_query gq.1 in
  _execute_prior_summary U R table_name street city state country w = (Returns result, w1) ->
  prior_summary result = Returns summary ->
  set_pre_summary_info U summary ∅ = Returns pre ->
  pre !! "required_quota" = Some (VInt n) -> 0 < n ->
  r_lock R (calls w1) table_name = Returns true ->
  r_query R (calls w1 ++ [E_lock_enter table_name true])
    (alter_sql table_name (gq.2 ++ [(HASH_COLUMN U, "text")])) = Returns altered ->
  r_long_running_query R (calls w1 ++ [E_lock_enter table_name true; alter]) gq.1
    = Raises err ->
  r_command R (calls w1 ++ [E_lock_enter table_name true; alter; long])
    (E_lock_exit table_name) = Returns tt ->
  ∃ output,
    _geocode U R table_name street city state country status false w
    = (Returns output,
       World (calls w1 ++ [E_lock_enter table_name true; alter; long; E_lock_exit table_name])
         (_source_manager w1) (columns w1)) ∧
    output !! "error" = Some (VStr (exn_str err)) ∧
    output !! "required_quota" = Some (VInt n) ∧
    output !! "aborted" = pre !! "aborted".
Proof.
  intros gq alter long Hprior Hsummary Hpre Hquota Hn Hlock Halter Hlong Hexit.
  exists (quota_error U (exn_str err) pre).
  destruct (quota_error_entries (exn_str err) pre) as (Herror & _ & Hother).
  split; [|split; [exact Herror|split]];
    [|rewrite Hother by discriminate; exact Hquota|now rewrite Hother by discriminate].
  unfold _geocode. erewrite bind_returns by exact Hprior.
  open_geocode. rewrite Hsummary, Hpre, Hquota.
  replace (0 <? n) with true by (symmetry; now apply Z.ltb_lt).
  cbn [andb negb]. rewrite Hlock. cbn [negb].
  fold gq. destruct gq as [sql add_columns] eqn:Hgq. cbn [fst snd] in *.
  cbn [calls emit]. rewrite Halter.
  cbn [calls emit]. rewrite <- ?app_assoc. cbn [app]. subst alter. rewrite Hlong.
  cbn [calls emit]. rewrite <- ?app_assoc. cbn [app]. subst long. rewrite Hexit.
  cbn [negb calls emit]. same_world.
Qed.

(** A call of [geocode] outside a dry run and without [cached] that returns is
    made of these steps: the arguments are normalised against the columns of
    the source, the input table is prepared, [_geocode] runs on it, the table
    is read back only after that, and the temporary table, if there is one,
    is deleted; the result holds the table as read and the metadata of
    [_geocode]. *)
Theorem geocode_reads_back_the_geocoded_table (depth : nat) (source_ : source)
  (street : string) (city state country : geoarg) (status : status_arg)
  (table_name : option string) (if_exists : string) (w w' : world) (res : result)
  (Hrun : geocode U R (S depth) source_ street city state country status table_name
            if_exists false false w = (Returns res, w')) :
  ∃ cols city' state' country' name is_temporary w1 w2 metadata cdf,
    r_column_names R (calls w) source_ = Returns cols ∧
    column_or_value_arg U city cols = Returns city' ∧
    column_or_value_arg U state cols = Returns state' ∧
    column_or_value_arg U country cols = Returns country' ∧
    _table_for_geocoding U R source_ table_name if_exists false
      (World (calls w ++ [E_get_column_names source_]) source_ cols)
      = (Returns (name, is_temporary), w1) ∧
    _geocode U R name street city' state' country' status false w1 = (Returns metadata, w2) ∧
    r_read_carto R (calls w2) name = Returns cdf ∧
    res = Result (Some cdf) metadata ∧
    calls w' = calls w2 ++ [E_read_carto name] ++
               (if is_temporary then [E_delete_table name] else []) ++
               [E_print "Success! Data geocoded correctly"].
Proof.
  revert Hrun. rewrite geocode_S.
  unfold set_source_manager, set_columns, get_column_names, read_carto, delete_table,
    print, command, ask, lift_outcome, raise.
  unfold mbind, M_bind, mret, M_ret. cbn [calls emit _source_manager columns].
  repeat run; intros [= <- <-].
  all: do 10 eexists; repeat (split; [first [reflexivity|eassumption]|]).
  all: cbn [calls emit]; rewrite <- ?app_assoc; reflexivity.
Qed.

(** A dry run prepares the input table all the same.  A dry run of [geocode]
    on a dataframe that returns has made four calls and no more: it asked for
    the columns, uploaded the dataframe, to the table named or to a fresh
    temporary one, and ran the two queries of the prior summary; the table it
    uploaded is not deleted. *)
Theorem dry_run_uploads_the_dataframe (depth : nat) (df : dataframe) (street : string)
  (city state country : geoarg) (status : status_arg) (table_name : option string)
  (if_exists : string) (w w' : world) (res : result)
  (Hrun : geocode U R (S depth) (SrcDataFrame df) street city state country status
            table_name if_exists true false w = (Returns res, w')) :
  ∃ q1 q2,
    calls w' = calls w ++
      [E_get_column_names (SrcDataFrame df);
       E_to_carto (SrcDataFrame df)
         (if truthy table_name then the table_name
          else r_temporary_table_name R (calls w ++ [E_get_column_names (SrcDataFrame df)]))
         (Some if_exists);
       E_execute_query q1; E_execute_query q2].
Proof.
  revert Hrun. rewrite geocode_S. open_cached. open_table. open_geocode.
  cbn [calls emit _source_manager columns is_table is_query is_dataframe].
  repeat run; intros [= <- <-]; do 2 eexists; flat; reflexivity.
Qed.


End GeocodingMore.

(** ** GBQManager: table names *)

Section NamesFacts.
Import GBQNames.

Lemma split_dots_nonempty (s : string) : split_dots s ≠ [].
Proof.
  destruct s as [|c s]; cbn [split_dots]; [discriminate|].
  case_decide; [discriminate|]. destruct (split_dots s); discriminate.
Qed.

Lemma split_dots_dotless (s : string) : dotless s -> split_dots s = [s].
Proof.
  induction s as [|c s IH]; [reflexivity|]. intros [Hc Hs].
  cbn [split_dots]. rewrite decide_False by exact Hc. now rewrite IH.
Qed.

(** Splitting at a dot: the pieces before it, then the pieces after it. *)
Lemma split_dots_at_dot (a b : string) :
  split_dots (a +:+ String dot b) = split_dots a ++ split_dots b.
Proof.
  induction a as [|c a IH]; simpl.
  - reflexivity.
  - case_decide; rewrite IH; [reflexivity|].
    pose proof (split_dots_nonempty a). destruct (split_dots a); [congruence|reflexivity].
Qed.

(** [split_table_name] on the forms a table name takes: [project.dataset.table]
    gives the three parts; [dataset.table] gives no project; a name without a
    dot raises [IndexError]; a name of four parts loses its first two and is
    given no project. *)
Theorem split_table_name_parts (extra project dataset table : string)
  (Hextra : dotless extra) (Hproject : dotless project) (Hdataset : dotless dataset)
  (Htable : dotless table) :
  split_table_name (project +:+ String dot (dataset +:+ String dot table))
    = Returns (Some project, dataset, table) ∧
  split_table_name (dataset +:+ String dot table) = Returns (None, dataset, table) ∧
  split_table_name table = Raises index_error ∧
  split_table_name
    (extra +:+ String dot (project +:+ String dot (dataset +:+ String dot table)))
    = Returns (None, dataset, table).
Proof.
  unfold split_table_name.
  rewrite !split_dots_at_dot, !split_dots_dotless by assumption.
  repeat split; reflexivity.
Qed.

End NamesFacts.

(** ** GBQManager: the empty tileset and the inserts *)

Section TilesetFacts.
Import GBQ.

Context {coord Tile : Type}.
Variable bigquery : list (query coord) -> query coord -> outcome (list (bq_row coord)).
Variable mercantile_tile : coord -> coord -> Z -> outcome Tile.
Variable mercantile_quadkey : Tile -> outcome string.
Variable py_int : string -> Z -> outcome Z.
Variable transform_3857_4326 : coord -> coord -> outcome (coord * coord).
Variable json_dumps : list (string * pyval) -> string.
Variable ceil_div : Z -> Z -> Z.

(** The loop over the rows of the bounding box query keeps the corners of the
    last row. *)
Lemma bbox_of_rows_last {S} (rows : list (bq_row coord)) : ∀ init (s s' : S) b,
  bbox_of_rows coord rows init s = (Returns (Some b), s') ->
  (rows = [] ∧ init = Some b) ∨
  ∃ rows' row xmin ymin xmax ymax,
    rows = rows' ++ [row] ∧
    row !! "xmin" = Some xmin ∧ row !! "ymin" = Some ymin ∧
    row !! "xmax" = Some xmax ∧ row !! "ymax" = Some ymax ∧
    b = [xmin; ymin; xmax; ymax].
Proof.
  induction rows as [|row rows IH]; intros init s s' b.
  - intros [= -> _]. now left.
  - cbn [bbox_of_rows]. unfold field, mbind, M_bind, mret, M_ret, raise.
    destruct (row !! "xmin") as [x0|] eqn:H0; [|discriminate].
    destruct (row !! "ymin") as [y0|] eqn:H1; [|discriminate].
    destruct (row !! "xmax") as [x1|] eqn:H2; [|discriminate].
    destruct (row !! "ymax") as [y1|] eqn:H3; [|discriminate].
    intros Hrest. right.
    destruct (IH _ _ _ _ Hrest) as [[-> [= <-]]|(rows' & row' & a & b' & c & d & -> & Hf)].
    + exists [], row, x0, y0, x1, y1. auto 10.
    + exists (row :: rows'), row', a, b', c, d. auto.
Qed.

Lemma bbox_of_rows_empty {S} (init : option (list coord)) (s : S) :
  bbox_of_rows coord [] init s = (Returns init, s).
Proof. reflexivity. Qed.

(** With a bounding box given, [create_empty_tileset] asks BigQuery for nothing
    but the creation of the table: it ends for every box (fuel 20 suffices),
    and when it returns, the box it returns is the one given, the quadkey zoom
    is between 1 and 20, and the one query run is the creation of the output
    table.  When it raises, the only query it can have run is that one. *)
Theorem tileset_for_a_given_bbox (fuel : nat) (prepare_table output_table : string)
  (c : coord) (cs : list coord) (qs : list (query coord))
  (Hfuel : (20 <= fuel)%nat) :
  ∃ r qs',
    create_empty_tileset coord bigquery Tile mercantile_tile mercantile_quadkey py_int
      transform_3857_4326 ceil_div fuel prepare_table (Some (c :: cs)) output_table qs
    = Some (r, qs') ∧
    (∀ bbox quadkey_zoom, r = Returns (bbox, quadkey_zoom) ->
       bbox = c :: cs ∧ 1 <= quadkey_zoom <= 20 ∧
       ∃ q, qs' = qs ++ [q] ∧ q_file coord q = create_table ∧
            kwarg "output_table" (q_args coord q) = Some (FStr coord output_table)) ∧
    (∀ e, r = Raises e ->
       qs' = qs ∨ ∃ q, qs' = qs ++ [q] ∧ q_file coord q = create_table).
Proof.
  unfold create_empty_tileset. cbn [bbox_or_query]. unfold mret at 1, M_ret at 1.
  destruct (guess_quadkey_from mercantile_tile mercantile_quadkey py_int (c :: cs) 20 1)
    as (o & Ho & Hbreak & _);
    [unfold MAX_QUADKEY_ZOOM; lia|unfold MAX_QUADKEY_ZOOM; simpl; lia|].
  rewrite (guess_quadkey_fuel _ _ _ _ _ _ _ fuel Ho Hfuel).
  destruct o as [[[qz a] b]|e].
  - destruct (Hbreak _ _ _ eq_refl) as (Hqz & _ & _). unfold MAX_QUADKEY_ZOOM in Hqz.
    unfold execute_query, mbind, M_bind, mret, M_ret.
    destruct (bigquery qs _) as [rows|e]; do 2 eexists; (split; [reflexivity|]); split.
    + intros ? ? [= <- <-]. split; [reflexivity|]. split; [lia|].
      eexists. split; [reflexivity|]. split; reflexivity.
    + discriminate.
    + discriminate.
    + intros ? _. right. eexists. split; reflexivity.
  - do 2 eexists. split; [reflexivity|]. split; [discriminate|]. intros ? _. now left.
Qed.

(** Without a bounding box, [create_empty_tileset] first asks for the box of
    the prepared table.  When that query has no row, the call raises
    [UnboundLocalError] and has run nothing else.  When the call returns, the
    query had rows, the box returned is the one of its last row, its two
    corners transformed, and the one other query is the creation of the
    table. *)
Theorem tileset_bbox_from_the_table (fuel : nat) (prepare_table output_table : string)
  (bbox : option (list coord)) (qs : list (query coord))
  (Hbbox : bbox = None ∨ bbox = Some []) :
  let bbox_query := Query coord bounding_box [("prepare_table", FStr coord prepare_table)] in
  (bigquery qs bbox_query = Returns [] ->
   ∃ msg,
     create_empty_tileset coord bigquery Tile mercantile_tile mercantile_quadkey py_int
       transform_3857_4326 ceil_div fuel prepare_table bbox output_table qs
     = Some (Raises (Exn UnboundLocalError msg), qs ++ [bbox_query])) ∧
  (∀ box quadkey_zoom qs',
     create_empty_tileset coord bigquery Tile mercantile_tile mercantile_quadkey py_int
       transform_3857_4326 ceil_div fuel prepare_table bbox output_table qs
     = Some (Returns (box, quadkey_zoom), qs') ->
     ∃ rows row x0 y0 x1 y1 xmin ymin xmax ymax q,
       bigquery qs bbox_query = Returns (rows ++ [row]) ∧
       row !! "xmin" = Some x0 ∧ row !! "ymin" = Some y0 ∧
       row !! "xmax" = Some x1 ∧ row !! "ymax" = Some y1 ∧
       transform_3857_4326 x0 y0 = Returns (xmin, ymin) ∧
       transform_3857_4326 x1 y1 = Returns (xmax, ymax) ∧
       box = [xmin; ymin; xmax; ymax] ∧
       qs' = qs ++ [bbox_query; q] ∧ q_file coord q = create_table).
Proof.
  intros bbox_query. split.
  - intros Hrows. eexists. unfold create_empty_tileset, bbox_or_query.
    destruct Hbbox as [-> | ->];
      unfold execute_query, mbind, M_bind; fold bbox_query; rewrite Hrows;
      cbn [bbox_of_rows]; reflexivity.
  - intros box qz qs'. unfold create_empty_tileset.
    assert (Hbox : bbox_or_query coord bigquery transform_3857_4326 prepare_table bbox
                   = bbox_or_query coord bigquery transform_3857_4326 prepare_table None)
      by (destruct Hbbox as [-> | ->]; reflexivity).
    rewrite Hbox. clear Hbox. unfold bbox_or_query.
    unfold execute_query, mbind at 1, M_bind at 1. fold bbox_query.
    destruct (bigquery qs bbox_query) as [rows|e]; [|discriminate].
    unfold mbind at 1, M_bind at 1.
    destruct (bbox_of_rows coord rows None (qs ++ [bbox_query])) as [[[b|]|e] qs1] eqn:Hlast;
      try discriminate.
    assert (Hqs1 : qs1 = qs ++ [bbox_query]).
    { clear -Hlast. revert Hlast. generalize (@None (list coord)).
      induction rows as [|row rows IH]; intros init; [now intros [= _ <-]|].
      cbn [bbox_of_rows]. unfold field, mbind, M_bind, mret, M_ret, raise.
      repeat match goal with
             | |- context [match ?r !! ?k with _ => _ end] => destruct (r !! k)
             end; try discriminate.
      apply IH. }
    subst qs1.
    destruct (bbox_of_rows_last _ _ _ _ _ Hlast)
      as [[_ [=]]|(rows' & row & x0 & y0 & x1 & y1 & -> & H0 & H1 & H2 & H3 & ->)].
    unfold index, lift_outcome, mbind, M_bind, mret, M_ret. cbn [lookup list_lookup].
    destruct (transform_3857_4326 x0 y0) as [[xmin ymin]|e] eqn:Hmin; [|discriminate].
    destruct (transform_3857_4326 x1 y1) as [[xmax ymax]|e] eqn:Hmax; [|discriminate].
    destruct (guess_quadkey _ _ _ _ _ _ _ _) as [[[[qz' a] b']|e]|]; try discriminate.
    destruct (bigquery _ _) as [rs|e]; [|discriminate].
    intros [= <- <- <-].
    exists rows', row, x0, y0, x1, y1, xmin, ymin, xmax, ymax. eexists.
    repeat (split; [first [reflexivity|assumption]|]).
    split; [now rewrite <- app_assoc|reflexivity].
Qed.


(** Reading the four corners of a box that has fewer raises [IndexError]. *)
Lemma corners_of_short_bbox {A} (bbox : list coord) (k : coord -> coord -> coord -> coord ->
                                                       M (list (query coord)) A)
  (qs : list (query coord)) :
  (length bbox < 4)%nat ->
  (xmin ← index bbox 0; ymin ← index bbox 1; xmax ← index bbox 2; ymax ← index bbox 3;
   k xmin ymin xmax ymax) qs = (Raises index_error, qs).
Proof.
  intros Hlen. unfold index, mbind, M_bind, mret, M_ret, raise.
  destruct bbox as [|b0 [|b1 [|b2 [|b3 ?]]]]; cbn [lookup list_lookup];
    try reflexivity. cbn [length] in Hlen. lia.
Qed.

(** A bounding box with fewer than four coordinates: an insert method whose
    band has a zoom raises [IndexError] before it runs any query. *)
Theorem insert_with_short_bbox (prepare_table output_table : string) (bbox : list coord)
  (quadkey_zoom : Z) (zooms : option (list Z)) (options : list (string * pyval))
  (qs : list (query coord))
  (Hshort : (length bbox < 4)%nat) :
  let zooms_ := zooms_or_default zooms in
  (filter (fun zoom => zoom < 9) zooms_ ≠ [] ->
   insert_low_level_zoom_data coord bigquery json_dumps prepare_table bbox quadkey_zoom
     zooms options output_table qs = (Raises index_error, qs)) ∧
  (filter (fun zoom => zoom >= 9 ∧ zoom <= 11) zooms_ ≠ [] ->
   insert_medium_level_zoom_data coord bigquery json_dumps prepare_table bbox quadkey_zoom
     zooms options output_table qs = (Raises index_error, qs)) ∧
  (filter (fun zoom => zoom > 11) zooms_ ≠ [] ->
   insert_high_level_zoom_data coord bigquery json_dumps prepare_table bbox quadkey_zoom
     zooms options output_table qs = (Raises index_error, qs)).
Proof.
  intros zooms_. split; [|split]; intros Hband.
  - unfold insert_low_level_zoom_data. fold zooms_.
    rewrite bool_decide_eq_false_2 by exact Hband.
    now apply corners_of_short_bbox.
  - unfold insert_medium_level_zoom_data. fold zooms_.
    rewrite bool_decide_eq_false_2 by exact Hband.
    destruct (filter _ zooms_) as [|zoom rest]; [congruence|].
    cbn [for_each]. unfold mbind at 1, M_bind at 1.
    unfold _insert_medium_level_zoom_data.
    now rewrite corners_of_short_bbox.
  - unfold insert_high_level_zoom_data. fold zooms_.
    rewrite bool_decide_eq_false_2 by exact Hband.
    destruct (filter _ zooms_) as [|zoom rest]; [congruence|].
    cbn [for_each]. unfold mbind at 1, M_bind at 1.
    unfold _insert_high_level_zoom_data.
    now rewrite corners_of_short_bbox.
Qed.

Lemma insert_low_appends prepare_table bbox quadkey_zoom zooms options output_table
  (qs qs' : list (query coord)) :
  insert_low_level_zoom_data coord bigquery json_dumps prepare_table bbox quadkey_zoom
    zooms options output_table qs = (Returns tt, qs') ->
  ∃ new, qs' = qs ++ new ∧
    length new = (if decide (filter (fun zoom => zoom < 9) (zooms_or_default zooms) = [])
                  then 0%nat else 1%nat) ∧
    Forall (fun q => q_file coord q = insert_low_level ∧
                     kwarg "zooms" (q_args coord q)
                     = Some (FZooms coord (filter (fun zoom => zoom < 9)
                                             (zooms_or_default zooms)))) new.
Proof.
  unfold insert_low_level_zoom_data.
  change (filter _ (zooms_or_default zooms))
    with (filter (fun zoom => zoom < 9) (zooms_or_default zooms)).
  case_bool_decide as Hnil.
  - intros [= <-]. exists []. rewrite decide_True by exact Hnil.
    split; [now rewrite app_nil_r|]. split; [reflexivity|constructor].
  - unfold index, mbind, M_bind, raise, mret, M_ret, execute_query.
    destruct (bbox !! 0%nat), (bbox !! 1%nat), (bbox !! 2%nat), (bbox !! 3%nat);
      try discriminate.
    destruct (bigquery qs _); intros [= <-].
    eexists [_]. rewrite decide_False by exact Hnil.
    split; [reflexivity|]. split; [reflexivity|].
    constructor; [split; reflexivity|constructor].
Qed.

(** The queries of the three insert methods called one after the other, over
    the zooms the methods work on. *)
Lemma insert_sequence_queries (prepare_table output_table : string) (bbox : list coord)
  (quadkey_zoom : Z) (zooms : option (list Z)) (options : list (string * pyval))
  (qs qs' : list (query coord))
  (Hrun : (insert_low_level_zoom_data coord bigquery json_dumps prepare_table bbox
             quadkey_zoom zooms options output_table ≫= fun _ =>
           insert_medium_level_zoom_data coord bigquery json_dumps prepare_table bbox
             quadkey_zoom zooms options output_table ≫= fun _ =>
           insert_high_level_zoom_data coord bigquery json_dumps prepare_table bbox
             quadkey_zoom zooms options output_table) qs = (Returns tt, qs')) :
  let zooms_ := zooms_or_default zooms in
  let low := filter (fun zoom => zoom < 9) zooms_ in
  let medium := filter (fun zoom => zoom >= 9 ∧ zoom <= 11) zooms_ in
  let high := filter (fun zoom => zoom > 11) zooms_ in
  ∃ low_queries medium_queries high_queries,
    qs' = qs ++ low_queries ++ medium_queries ++ high_queries ∧
    length low_queries = (if decide (low = []) then 0%nat else 1%nat) ∧
    Forall (fun q => q_file coord q = insert_low_level ∧
                     kwarg "zooms" (q_args coord q) = Some (FZooms coord low)) low_queries ∧
    Forall2 (fun zoom q => q_file coord q = insert_medium_level ∧
                           kwarg "zooms" (q_args coord q) = Some (FZooms coord [zoom]))
      medium medium_queries ∧
    Forall2 (fun zoom q => q_file coord q = insert_high_level ∧
                           kwarg "depth" (q_args coord q) = Some (FInt coord (zoom - 11)))
      high high_queries ∧
    length (low_queries ++ medium_queries ++ high_queries)
      = Nat.add (if decide (low = []) then 0%nat else 1%nat)
                (length (filter (fun zoom => zoom >= 9) zooms_)).
Proof.
  intros zooms_ low medium high. revert Hrun. unfold mbind at 1, M_bind at 1.
  destruct (insert_low_level_zoom_data _ _ _ _ _ _ _ _ _ qs) as [[[]|e] q1] eqn:Hlow;
    [|discriminate].
  unfold mbind at 1, M_bind at 1.
  destruct (insert_medium_level_zoom_data _ _ _ _ _ _ _ _ _ q1) as [[[]|e] q2] eqn:Hmedium;
    [|discriminate].
  intros Hhigh.
  apply insert_low_appends in Hlow as (lq & -> & Hlen & Hlq).
  assert (Hm : ∃ new, q2 = (qs ++ lq) ++ new ∧
             Forall2 (fun zoom q => q_file coord q = insert_medium_level ∧
                        kwarg "zooms" (q_args coord q) = Some (FZooms coord [zoom]))
               medium new).
  { unfold insert_medium_level_zoom_data in Hmedium.
    fold zooms_ in Hmedium. change (filter _ zooms_) with medium in Hmedium.
    case_bool_decide as Hnil.
    - rewrite Hnil. injection Hmedium as <-. exists [].
      split; [now rewrite app_nil_r|constructor].
    - eapply for_each_appends; [|exact Hmedium].
      intros x qs0 qs0' Hx. now apply insert_medium_appends in Hx. }
  destruct Hm as (mq & -> & Hmq).
  assert (Hh : ∃ new, qs' = ((qs ++ lq) ++ mq) ++ new ∧
             Forall2 (fun zoom q => q_file coord q = insert_high_level ∧
                        kwarg "depth" (q_args coord q) = Some (FInt coord (zoom - 11)))
               high new).
  { unfold insert_high_level_zoom_data in Hhigh.
    fold zooms_ in Hhigh. change (filter _ zooms_) with high in Hhigh.
    case_bool_decide as Hnil.
    - rewrite Hnil. injection Hhigh as <-. exists [].
      split; [now rewrite app_nil_r|constructor].
    - eapply for_each_appends; [|exact Hhigh].
      intros x qs0 qs0' Hx. apply insert_high_appends in Hx as (q & ? & ? & ? & ?).
      exists q. auto. }
  destruct Hh as (hq & -> & Hhq).
  exists lq, mq, hq. split; [now rewrite <- !app_assoc|].
  split; [exact Hlen|]. split; [exact Hlq|]. split; [exact Hmq|]. split; [exact Hhq|].
  rewrite !length_app, Hlen.
  rewrite <- (Forall2_length _ _ _ Hmq), <- (Forall2_length _ _ _ Hhq).
  f_equal. unfold medium, high. clear.
  induction zooms_ as [|z l IH]; [reflexivity|].
  rewrite !filter_cons. repeat case_decide; cbn [length]; lia.
Qed.

(** The three insert methods called one after the other on the zooms asked
    for (0, 4, 8, 12, 14 when [zooms] is [None] or empty): when the sequence
    returns, the queries it has run are the low-level query, if a zoom is
    below 9, then one medium-level query per zoom from 9 to 11, then one
    high-level query per zoom above 11; so many queries as there are zooms from
    9 up, and one more when there is a zoom below 9. *)
Theorem inserts_in_sequence (prepare_table output_table : string) (bbox : list coord)
  (quadkey_zoom : Z) (zooms : option (list Z)) (options : list (string * pyval))
  (qs qs' : list (query coord))
  (Hrun : (insert_low_level_zoom_data coord bigquery json_dumps prepare_table bbox
             quadkey_zoom zooms options output_table ≫= fun _ =>
           insert_medium_level_zoom_data coord bigquery json_dumps prepare_table bbox
             quadkey_zoom zooms options output_table ≫= fun _ =>
           insert_high_level_zoom_data coord bigquery json_dumps prepare_table bbox
             quadkey_zoom zooms options output_table) qs = (Returns tt, qs')) :
  let zooms_ := match zooms with
                | Some (zoom :: rest) => zoom :: rest
                | _ => [0; 4; 8; 12; 14]
                end in
  let low := filter (fun zoom => zoom < 9) zooms_ in
  let medium := filter (fun zoom => zoom >= 9 ∧ zoom <= 11) zooms_ in
  let high := filter (fun zoom => zoom > 11) zooms_ in
  ∃ low_queries medium_queries high_queries,
    qs' = qs ++ low_queries ++ medium_queries ++ high_queries ∧
    length low_queries = (if decide (low = []) then 0%nat else 1%nat) ∧
    Forall (fun q => q_file coord q = insert_low_level ∧
                     kwarg "zooms" (q_args coord q) = Some (FZooms coord low)) low_queries ∧
    Forall2 (fun zoom q => q_file coord q = insert_medium_level ∧
                           kwarg "zooms" (q_args coord q) = Some (FZooms coord [zoom]))
      medium medium_queries ∧
    Forall2 (fun zoom q => q_file coord q = insert_high_level ∧
                           kwarg "depth" (q_args coord q) = Some (FInt coord (zoom - 11)))
      high high_queries ∧
    length (low_queries ++ medium_queries ++ high_queries)
      = Nat.add (if decide (low = []) then 0%nat else 1%nat)
                (length (filter (fun zoom => zoom >= 9) zooms_)).
Proof.
  intros zooms_ low medium high.
  assert (Hzooms : zooms_ = zooms_or_default zooms) by reflexivity.
  unfold low, medium, high. rewrite Hzooms.
  exact (insert_sequence_queries prepare_table output_table bbox quadkey_zoom zooms options
           qs qs' Hrun).
Qed.

End TilesetFacts.

(** ** GBQManager: the input schema *)

Section SchemaFacts.
Import GBQSchema.

Context {val : Type}.
Variable bq_table : list bq_call -> string -> outcome (list field).
Variable bq_query : list bq_call -> string -> outcome (bq_result val).
Variable get_query_from_table : string -> string.

Lemma scan_fields_snoc (index_col geom_col : string) (fields : list field) (f : field) :
  scan_fields val index_col geom_col (fields ++ [f])
  = scan_field val index_col geom_col (scan_fields val index_col geom_col fields) f.
Proof. unfold scan_fields. now rewrite foldl_app. Qed.


Lemma scan_fields_invariant (index_col geom_col : string) (fields : list field) :
  let st := scan_fields val index_col geom_col fields in
  st.2 !! geom_col = None ∧
  (∀ n, is_Some (st.2 !! n) ↔ n ≠ geom_col ∧ ∃ f, f ∈ fields ∧ name f = n) ∧
  (∀ n e, st.2 !! n = Some e ->
     e_min val e = None ∧ e_max val e = None ∧
     ∃ before f after, fields = before ++ f :: after ∧ name f = n ∧
       (∀ g, g ∈ after -> name g ≠ n) ∧
       e_type val e = field_type f ∧ e_mode val e = mode f) ∧
  st.1.1 = name <$> filter (fun f => name f ≠ geom_col ∧ numeric f) fields ∧
  length st.1.2 = (2 * length st.1.1)%nat.
Proof.
  induction fields as [|f fields IH] using rev_ind.
  { cbn. split; [apply lookup_empty|]. split.
    - intros n. rewrite lookup_empty. split.
      + intros [? [=]].
      + intros (_ & f & Hf & _). now apply elem_of_nil in Hf.
    - split; [|split; reflexivity]. intros n e. now rewrite lookup_empty. }
  rewrite scan_fields_snoc. cbv zeta in IH.
  destruct (scan_fields val index_col geom_col fields) as [[names select] schema].
  cbn [fst snd] in IH. destruct IH as (Hgeom & Hkeys & Hentries & Hnames & Hselect).
  unfold scan_field. cbv zeta.
  assert (Hname : (if decide (name f = index_col) then index_col else name f) = name f)
    by (case_decide; congruence).
  rewrite Hname. clear Hname.
  destruct (decide (name f = geom_col)) as [Hf|Hf].
  - cbn [fst snd]. split; [exact Hgeom|]. split; [|split; [|split]].
    + intros n. rewrite Hkeys. split; intros (Hn & g & Hg & Hgn); (split; [exact Hn|]).
      * exists g. split; [apply elem_of_app; now left|exact Hgn].
      * exists g. split; [|exact Hgn].
        apply elem_of_app in Hg as [Hg|Hg]; [exact Hg|].
        apply list_elem_of_singleton in Hg. congruence.
    + intros n e He. destruct (Hentries n e He)
        as (Hmin & Hmax & before & g & after & -> & Hgn & Hafter & Ht & Hm).
      split; [exact Hmin|]. split; [exact Hmax|].
      exists before, g, (after ++ [f]). split; [now rewrite <- app_assoc|].
      split; [exact Hgn|]. split; [|auto].
      intros h [Hh|Hh]%elem_of_app; [now apply Hafter|].
      apply list_elem_of_singleton in Hh. subst h.
      assert (is_Some (schema !! n)) as Hsome by eauto.
      apply Hkeys in Hsome as [Hn _]. congruence.
    + rewrite filter_app, fmap_app, filter_cons, filter_nil.
      rewrite decide_False by tauto. now rewrite app_nil_r.
    + exact Hselect.
  - assert (Hschema :
      (<[name f := Entry val (field_type f) (mode f) None None]> schema) !! geom_col = None ∧
      (∀ n, is_Some ((<[name f := Entry val (field_type f) (mode f) None None]> schema) !! n)
            ↔ n ≠ geom_col ∧ ∃ g, g ∈ fields ++ [f] ∧ name g = n) ∧
      (∀ n e, (<[name f := Entry val (field_type f) (mode f) None None]> schema) !! n = Some e ->
         e_min val e = None ∧ e_max val e = None ∧
         ∃ before g after, fields ++ [f] = before ++ g :: after ∧ name g = n ∧
           (∀ h, h ∈ after -> name h ≠ n) ∧
           e_type val e = field_type g ∧ e_mode val e = mode g)).
    { split; [now rewrite lookup_insert_ne|]. split.
      - intros n. destruct (decide (name f = n)) as [<-|Hn].
        + rewrite lookup_insert_eq. split; [|eauto].
          intros _. split; [exact Hf|]. exists f. split; [|reflexivity].
          apply elem_of_app. right. now apply list_elem_of_singleton.
        + rewrite lookup_insert_ne by exact Hn. rewrite Hkeys.
          split; intros (Hg & g & Hin & Hgn); (split; [exact Hg|]); exists g.
          * split; [apply elem_of_app; now left|exact Hgn].
          * split; [|exact Hgn]. apply elem_of_app in Hin as [Hin|Hin]; [exact Hin|].
            apply list_elem_of_singleton in Hin. congruence.
      - intros n e. destruct (decide (name f = n)) as [<-|Hn].
        + rewrite lookup_insert_eq. intros [= <-]. cbn.
          split; [reflexivity|]. split; [reflexivity|].
          exists fields, f, []. split; [reflexivity|]. split; [reflexivity|].
          split; [|auto]. intros h Hh. now apply elem_of_nil in Hh.
        + rewrite lookup_insert_ne by exact Hn. intros He.
          destruct (Hentries n e He)
            as (Hmin & Hmax & before & g & after & -> & Hgn & Hafter & Ht & Hm).
          split; [exact Hmin|]. split; [exact Hmax|].
          exists before, g, (after ++ [f]). split; [now rewrite <- app_assoc|].
          split; [exact Hgn|]. split; [|auto].
          intros h [Hh|Hh]%elem_of_app; [now apply Hafter|].
          apply list_elem_of_singleton in Hh. now subst h. }
    destruct Hschema as (H1 & H2 & H3).
    destruct (bool_decide (field_type f ∈ BIG_QUERY_NUMBER_TYPES) &&
              bool_decide (mode f ≠ BIG_QUERY_REPEATED_MODE)) eqn:Hnum;
      cbn [fst snd]; (split; [exact H1|]); (split; [exact H2|]); (split; [exact H3|]).
    + apply andb_true_iff in Hnum as [Ht Hm].
      apply bool_decide_eq_true in Ht. apply bool_decide_eq_true in Hm.
      rewrite filter_app, fmap_app, filter_cons, filter_nil.
      rewrite decide_True by (unfold numeric; tauto).
      split; [now rewrite Hnames|].
      rewrite !length_app, Hselect. cbn [length]. lia.
    + rewrite filter_app, fmap_app, filter_cons, filter_nil.
      rewrite decide_False; [rewrite app_nil_r; split; assumption|].
      intros (_ & Ht & Hm). apply andb_false_iff in Hnum as [Hnum|Hnum];
        apply bool_decide_eq_false in Hnum; contradiction.
Qed.


(** The loop over the fields.  The geometry column is left out of the schema;
    every other field name is a key, with the type and the mode of the last
    field of that name and no minimum nor maximum yet; the names to ask a
    minimum and a maximum for are those of the numeric fields, in order, with
    two select items each. *)
Theorem scanned_schema (index_col geom_col : string) (fields : list field) :
  let st := scan_fields val index_col geom_col fields in
  st.2 !! geom_col = None ∧
  (∀ n, is_Some (st.2 !! n) ↔ n ≠ geom_col ∧ ∃ f, f ∈ fields ∧ name f = n) ∧
  (∀ n e, st.2 !! n = Some e ->
     e_min val e = None ∧ e_max val e = None ∧
     ∃ before f after, fields = before ++ f :: after ∧ name f = n ∧
       (∀ g, g ∈ after -> name g ≠ n) ∧
       e_type val e = field_type f ∧ e_mode val e = mode f) ∧
  st.1.1 = name <$> filter (fun f => name f ≠ geom_col ∧ numeric f) fields ∧
  length st.1.2 = (2 * length st.1.1)%nat.
Proof. apply scan_fields_invariant. Qed.

Lemma set_min_max_sets (row : gmap string val) (schema schema' : gmap string (entry val))
  (n : string) :
  set_min_max val row schema n = Returns schema' ->
  ∃ e lo hi, schema !! n = Some e ∧
    row !! (n +:+ "_min") = Some lo ∧ row !! (n +:+ "_max") = Some hi ∧
    schema' = <[n := Entry val (e_type val e) (e_mode val e) (Some lo) (Some hi)]> schema.
Proof.
  unfold set_min_max, row_item, outcome_bind.
  destruct (row !! (n +:+ "_min")) as [lo|]; [|discriminate].
  destruct (schema !! n) as [e|]; [|discriminate].
  destruct (row !! (n +:+ "_max")) as [hi|]; [|discriminate].
  intros [= <-]. exists e, lo, hi. repeat split. cbn. now rewrite insert_insert_eq.
Qed.

(** The loop over the names for one row: types and modes stay, the entries of
    other names stay, and the entries of the names hold the minimum and the
    maximum of the row. *)
Lemma set_min_max_of_row (row : gmap string val) (names : list string) :
  ∀ schema schema' : gmap string (entry val),
  fold_outcome (set_min_max val row) names schema = Returns schema' ->
  (∀ k, e_type val <$> schema' !! k = e_type val <$> schema !! k ∧
        e_mode val <$> schema' !! k = e_mode val <$> schema !! k) ∧
  (∀ k, k ∉ names -> schema' !! k = schema !! k) ∧
  (∀ k e, k ∈ names -> schema' !! k = Some e ->
     e_min val e = row !! (k +:+ "_min") ∧ e_max val e = row !! (k +:+ "_max")).
Proof.
  induction names as [|n names IH]; intros schema schema'.
  - intros [= <-]. split; [auto|]. split; [auto|].
    intros k e Hk. now apply elem_of_nil in Hk.
  - cbn [fold_outcome]. unfold outcome_bind at 1.
    destruct (set_min_max val row schema n) as [schema1|err] eqn:Hset; [|discriminate].
    apply set_min_max_sets in Hset as (e0 & lo & hi & He0 & Hlo & Hhi & ->).
    intros Hrest. destruct (IH _ _ Hrest) as (Htypes & Hother & Hset).
    split; [|split].
    + intros k. destruct (Htypes k) as [Ht Hm]. rewrite Ht, Hm.
      destruct (decide (n = k)) as [<-|Hne].
      * rewrite lookup_insert_eq, He0. now cbn.
      * now rewrite lookup_insert_ne.
    + intros k Hk. rewrite Hother by (intros Hin; apply Hk; now right).
      apply lookup_insert_ne. intros <-. apply Hk. now left.
    + intros k e Hk He. destruct (decide (k ∈ names)) as [Hin|Hout]; [now apply Hset|].
      apply elem_of_cons in Hk as [->|Hk]; [|contradiction].
      rewrite (Hother n Hout), lookup_insert_eq in He. injection He as <-. cbn.
      now rewrite Hlo, Hhi.
Qed.

(** The loop over the rows: the last row decides. *)
Lemma set_min_max_of_rows (names : list string) (rows : list (gmap string val)) :
  ∀ schema schema' : gmap string (entry val),
  fold_outcome (fun schema row => fold_outcome (set_min_max val row) names schema)
    rows schema = Returns schema' ->
  (∀ k, e_type val <$> schema' !! k = e_type val <$> schema !! k ∧
        e_mode val <$> schema' !! k = e_mode val <$> schema !! k) ∧
  (∀ k, k ∉ names -> schema' !! k = schema !! k) ∧
  (rows = [] -> schema' = schema) ∧
  (∀ row, last rows = Some row -> ∀ k e, k ∈ names -> schema' !! k = Some e ->
     e_min val e = row !! (k +:+ "_min") ∧ e_max val e = row !! (k +:+ "_max")).
Proof.
  induction rows as [|row rows IH]; intros schema schema'.
  - intros [= <-]. split; [auto|]. split; [auto|]. split; [auto|]. intros row [=].
  - cbn [fold_outcome]. unfold outcome_bind at 1.
    destruct (fold_outcome (set_min_max val row) names schema) as [schema1|err] eqn:Hrow;
      [|discriminate].
    intros Hrest. destruct (IH _ _ Hrest) as (Htypes & Hother & Hnil & Hlast).
    destruct (set_min_max_of_row _ _ _ _ Hrow) as (Htypes1 & Hother1 & Hset1).
    split; [|split; [|split]].
    + intros k. destruct (Htypes k) as [-> ->]. apply Htypes1.
    + intros k Hk. now rewrite Hother, Hother1.
    + discriminate.
    + intros row' Hrow'. destruct rows as [|row2 rows].
      * cbn in Hrow'. injection Hrow' as <-. rewrite (Hnil eq_refl). exact Hset1.
      * apply Hlast. exact Hrow'.
Qed.

(** Without [min_max], [get_input_schema] makes one call, for the fields: a
    query with [LIMIT 1] when the source is a query, the look-up of the table
    otherwise.  The schema it returns is the one the loop over the fields
    builds: the geometry column is not in it and no entry has a minimum or a
    maximum. *)
Theorem schema_without_min_max (source index_col geom_col : string)
  (qs qs' : list bq_call) (r : outcome (gmap string (entry val)))
  (Hrun : get_input_schema val bq_table bq_query get_query_from_table source index_col
            geom_col false qs = (r, qs')) :
  let source_query := get_query_from_table source in
  let call := if bool_decide (source_query = source) ||
                 bool_decide (source_query = drop_last source)
              then run_query (source_query +:+ " LIMIT 1;")
              else get_table source in
  qs' = qs ++ [call] ∧
  ∀ schema, r = Returns schema ->
    (∃ fields,
       match call with
       | get_table table_id => bq_table qs table_id = Returns fields
       | run_query query =>
           ∃ res, bq_query qs query = Returns res ∧ result_schema val res = fields
       end ∧
       schema = (scan_fields val index_col geom_col fields).2) ∧
    schema !! geom_col = None ∧
    ∀ n e, schema !! n = Some e -> e_min val e = None ∧ e_max val e = None.
Proof.
  intros source_query call. revert Hrun. unfold get_input_schema. fold source_query.
  unfold call. unfold mbind at 1, M_bind at 1.
  destruct (_ || _);
    unfold get_big_query_query_schema, get_big_query_table_schema, execute_query,
      mbind, M_bind, mret, M_ret.
  - destruct (bq_query qs _) as [res|err] eqn:Hq;
      [|intros [= <- <-]; split; [reflexivity|discriminate]].
    pose proof (scan_fields_invariant index_col geom_col (result_schema val res)) as Hinv.
    cbv zeta in Hinv.
    destruct (scan_fields val index_col geom_col (result_schema val res))
      as [[names select] schema0] eqn:Hscan.
    cbn [fst snd] in Hinv. destruct Hinv as (Hgeom & _ & Hentries & _).
    intros [= <- <-]. split; [reflexivity|]. intros schema [= <-].
    split; [exists (result_schema val res); rewrite Hscan; eauto|]. split; [exact Hgeom|].
    intros n e He. destruct (Hentries n e He) as (? & ? & _). auto.
  - destruct (bq_table qs source) as [fields|err] eqn:Hq;
      [|intros [= <- <-]; split; [reflexivity|discriminate]].
    pose proof (scan_fields_invariant index_col geom_col fields) as Hinv.
    cbv zeta in Hinv.
    destruct (scan_fields val index_col geom_col fields) as [[names select] schema0] eqn:Hscan.
    cbn [fst snd] in Hinv. destruct Hinv as (Hgeom & _ & Hentries & _).
    intros [= <- <-]. split; [reflexivity|]. intros schema [= <-].
    split; [exists fields; rewrite Hscan; auto|]. split; [exact Hgeom|].
    intros n e He. destruct (Hentries n e He) as (? & ? & _). auto.
Qed.

(** With [min_max], a call of [get_input_schema] that returns has made two
    calls: the one for the fields, then one query that selects a minimum and a
    maximum per numeric field.  The schema keeps the keys, types and modes of
    the loop over the fields, without the geometry column; an entry that is
    not of a numeric field has no minimum nor maximum; with no row in the
    answer no entry has one, and otherwise the entries of the numeric fields
    have those of the last row.  [fields] is the answer to the first call. *)
Theorem schema_with_min_max (source index_col geom_col : string)
  (qs qs' : list bq_call) (schema : gmap string (entry val))
  (Hrun : get_input_schema val bq_table bq_query get_query_from_table source index_col
            geom_col true qs = (Returns schema, qs')) :
  let source_query := get_query_from_table source in
  let call := if bool_decide (source_query = source) ||
                 bool_decide (source_query = drop_last source)
              then run_query (source_query +:+ " LIMIT 1;")
              else get_table source in
  ∃ fields res,
    let st := scan_fields val index_col geom_col fields in
    let min_max_query := "SELECT " +:+ String.concat ", " st.1.2 +:+
                         " FROM (" +:+ source_query +:+ ") q;" in
    match call with
    | get_table table_id => bq_table qs table_id = Returns fields
    | run_query query =>
        ∃ res0, bq_query qs query = Returns res0 ∧ result_schema val res0 = fields
    end ∧
    qs' = qs ++ [call; run_query min_max_query] ∧
    bq_query (qs ++ [call]) min_max_query = Returns res ∧
    (∀ k, e_type val <$> schema !! k = e_type val <$> st.2 !! k ∧
          e_mode val <$> schema !! k = e_mode val <$> st.2 !! k) ∧
    schema !! geom_col = None ∧
    (∀ k e, schema !! k = Some e -> k ∉ st.1.1 ->
       e_min val e = None ∧ e_max val e = None) ∧
    (result_rows val res = [] -> schema = st.2) ∧
    (∀ row, last (result_rows val res) = Some row ->
       ∀ k e, k ∈ st.1.1 -> schema !! k = Some e ->
         e_min val e = row !! (k +:+ "_min") ∧ e_max val e = row !! (k +:+ "_max")).
Proof.
  intros source_query call. revert Hrun. unfold get_input_schema. fold source_query.
  unfold mbind at 1, M_bind at 1.
  assert (Hfields : ∀ fields qs1,
    (let '(min_max_names, min_max_select, schema0) :=
       scan_fields val index_col geom_col fields in
     execute_query val bq_query
       ("SELECT " +:+ String.concat ", " min_max_select +:+
        " FROM (" +:+ source_query +:+ ") q;") ≫= fun min_max_result =>
     lift_outcome
       (fold_outcome
          (fun schema row => fold_outcome (set_min_max val row) min_max_names schema)
          (result_rows val min_max_result) schema0)) qs1 = (Returns schema, qs') ->
    ∃ res,
      let st := scan_fields val index_col geom_col fields in
      let min_max_query := "SELECT " +:+ String.concat ", " st.1.2 +:+
                           " FROM (" +:+ source_query +:+ ") q;" in
      qs' = qs1 ++ [run_query min_max_query] ∧
      bq_query qs1 min_max_query = Returns res ∧
      (∀ k, e_type val <$> schema !! k = e_type val <$> st.2 !! k ∧
            e_mode val <$> schema !! k = e_mode val <$> st.2 !! k) ∧
      schema !! geom_col = None ∧
      (∀ k e, schema !! k = Some e -> k ∉ st.1.1 ->
         e_min val e = None ∧ e_max val e = None) ∧
      (result_rows val res = [] -> schema = st.2) ∧
      (∀ row, last (result_rows val res) = Some row ->
         ∀ k e, k ∈ st.1.1 -> schema !! k = Some e ->
           e_min val e = row !! (k +:+ "_min") ∧ e_max val e = row !! (k +:+ "_max"))).
  { intros fields qs1.
    pose proof (scan_fields_invariant index_col geom_col fields) as Hinv. cbv zeta in Hinv.
    destruct (scan_fields val index_col geom_col fields) as [[names select] schema0].
    cbn [fst snd] in Hinv. destruct Hinv as (Hgeom & _ & Hentries & _).
    unfold execute_query, lift_outcome, mbind, M_bind.
    destruct (bq_query qs1 _) as [res|err] eqn:Hres; [|discriminate].
    destruct (fold_outcome _ _ schema0) as [schema1|err] eqn:Hfold; [|discriminate].
    intros [= -> <-]. exists res. cbv zeta. cbn [fst snd].
    destruct (set_min_max_of_rows _ _ _ _ Hfold) as (Htypes & Hother & Hnil & Hlast).
    split; [reflexivity|]. split; [reflexivity|]. split; [exact Htypes|].
    split.
    { destruct (Htypes geom_col) as [Ht _]. rewrite Hgeom in Ht.
      destruct (schema !! geom_col); [discriminate|reflexivity]. }
    split; [|split; [exact Hnil|exact Hlast]].
    intros k e He Hk. rewrite (Hother k Hk) in He.
    destruct (Hentries k e He) as (? & ? & _). auto. }
  unfold call.
  destruct (_ || _);
    unfold get_big_query_query_schema, get_big_query_table_schema, execute_query at 1,
      mbind at 1, M_bind at 1, mret, M_ret.
  - unfold mbind at 1, M_bind at 1.
    destruct (bq_query qs _) as [res0|err] eqn:Hq; [|discriminate].
    intros Hrest. apply Hfields in Hrest as (res & Hqs & Hrest).
    exists (result_schema val res0), res. cbv zeta in *.
    split; [eauto|]. split; [now rewrite Hqs, <- app_assoc|exact Hrest].
  - destruct (bq_table qs source) as [fields|err] eqn:Hq; [|discriminate].
    intros Hrest. apply Hfields in Hrest as (res & Hqs & Hrest).
    exists fields, res. cbv zeta in *.
    split; [reflexivity|]. split; [now rewrite Hqs, <- app_assoc|exact Hrest].
Qed.

End SchemaFacts.

(** ** Dataset: its variables *)

Section DatasetFacts.
Import CatalogDataset.

Variable data : gmap string string.
Variable client : list VariableRepo.client_call -> VariableRepo.client_call ->
                  outcome (list (gmap string string)).

(** [Dataset.variables] asks the repository for the variables of the dataset
    whose id is under [id] in the data of the dataset; a dataset without an
    id raises [KeyError] and the client is not called; a dataset without
    variables gives [None]. *)
Theorem variables_of_a_dataset (calls : list VariableRepo.client_call) :
  (∀ i, data !! "id" = Some i ->
     variables data client calls
     = VariableRepo.get_by_dataset (gmap string string) client i calls ∧
     (variables data client calls).2
     = calls ++ [VariableRepo.get_variables ["dataset_id"; i]] ∧
     (client calls (VariableRepo.get_variables ["dataset_id"; i]) = Returns [] ->
      (variables data client calls).1 = Returns None)) ∧
  (data !! "id" = None ->
   variables data client calls = (Raises (key_error "id"), calls)).
Proof.
  unfold variables, id_, lift_outcome, mbind, M_bind. split.
  - intros i ->. split; [reflexivity|].
    unfold VariableRepo.get_by_dataset, VariableRepo.call_client, mbind, M_bind.
    destruct (client calls _) as [rows|e]; (split; [reflexivity|]); intros [= ->].
    reflexivity.
  - intros ->. reflexivity.
Qed.

End DatasetFacts.

(** ** The further properties at the examples *)

Import Locks MoreExamples.

Lemma cached_needs_table_name_witness :
  (geocode_addresses no_cache (SrcDataFrame addresses) None false true).1
  = Raises (Exn ValueError no_table_name).
Proof.
  destruct (cached_needs_table_name example_utils no_cache 1 (SrcDataFrame addresses)
              "address" ArgNone ArgNone ArgNone StatusNone None "fail" false w0
              (geocode_addresses no_cache (SrcDataFrame addresses) None false true).2
              (geocode_addresses no_cache (SrcDataFrame addresses) None false true).1)
    as (_ & e & Hr & He).
  - reflexivity.
  - vm_compute. reflexivity.
  - rewrite Hr. f_equal. apply (He (df_columns addresses)). reflexivity.
Defined.

Lemma invalid_cache_table_is_refused_witness :
  geocode_addresses bare_cache (SrcDataFrame addresses) (Some "cache") false true
  = (Raises (Exn ValueError (invalid_cache_message "cache")),
     World [E_get_column_names (SrcDataFrame addresses); E_has_table "cache";
            E_get_column_names (SrcStr "cache")]
       (SrcDataFrame addresses) ["address"]).
Proof.
  apply (invalid_cache_table_is_refused example_utils bare_cache 1 (SrcDataFrame addresses)
           "cache" "address" ArgNone ArgNone ArgNone StatusNone "fail" false w0
           ["address"] ["address"]).
  - discriminate.
  - reflexivity.
  - reflexivity.
  - reflexivity.
  - apply (bool_decide_unpack _). vm_compute. exact I.
Defined.

Lemma cached_table_source_is_refused_witness :
  geocode_addresses good_cache (SrcStr "places") (Some "cache") false true
  = (Raises (Exn ValueError "cached geocoding cannot be used with tables"),
     World [E_get_column_names (SrcStr "places"); E_has_table "cache";
            E_get_column_names (SrcStr "cache")]
       (SrcStr "places") ["address"]).
Proof.
  apply (cached_table_source_is_refused example_utils good_cache 1 "places" "cache"
           "address" ArgNone ArgNone ArgNone StatusNone "fail" false w0
           ["address"] ["address"; "the_geom"; "carto_geocode_hash"]).
  - reflexivity.
  - discriminate.
  - reflexivity.
  - apply (bool_decide_unpack _). vm_compute. exact I.
  - reflexivity.
  - reflexivity.
  - apply (bool_decide_unpack _). vm_compute. exact I.
Defined.

Lemma first_cached_call_creates_the_cache_witness :
  geocode_addresses no_cache (SrcDataFrame addresses) (Some "cache") false true
  = geocode example_utils no_cache 1 (SrcDataFrame addresses) "address" ArgNone ArgNone
      ArgNone (DEFAULT_STATUS example_utils) (Some "cache") "replace" false false
      (World [E_get_column_names (SrcDataFrame addresses); E_has_table "cache"]
         (SrcDataFrame addresses) ["address"]).
Proof.
  apply (first_cached_call_creates_the_cache example_utils no_cache 1
           (SrcDataFrame addresses) "cache" "address" ArgNone ArgNone ArgNone StatusNone
           "fail" false w0 ["address"]).
  - discriminate.
  - reflexivity.
  - reflexivity.
Defined.

Lemma hashed_source_replaces_the_cache_witness :
  geocode_addresses good_cache (SrcDataFrame cache_frame) (Some "cache") false true
  = geocode example_utils good_cache 1 (SrcDataFrame cache_frame) "address" ArgNone ArgNone
      ArgNone (DEFAULT_STATUS example_utils) (Some "cache") "replace" false false
      (World [E_get_column_names (SrcDataFrame cache_frame); E_has_table "cache";
              E_get_column_names (SrcStr "cache")]
         (SrcDataFrame cache_frame) (df_columns cache_frame)).
Proof.
  apply (hashed_source_replaces_the_cache example_utils good_cache 1
           (SrcDataFrame cache_frame) "cache" "address" ArgNone ArgNone ArgNone StatusNone
           "fail" false w0 (df_columns cache_frame) (df_columns cache_frame)).
  - discriminate.
  - reflexivity.
  - apply (bool_decide_unpack _). vm_compute. exact I.
  - reflexivity.
  - reflexivity.
  - apply (bool_decide_unpack _). vm_compute. exact I.
Defined.

Lemma input_table_for_geocoding_witness :
  _table_for_geocoding example_utils no_cache (SrcDataFrame addresses) None "fail" false
    w_addresses
  = (Returns ("table_tmp", true),
     World [E_to_carto (SrcDataFrame addresses) "table_tmp" (Some "fail")]
       (SrcDataFrame addresses) ["address"]) ∧
  true = negb (truthy (@None string)) && negb (is_table example_utils (SrcDataFrame addresses)).
Proof.
  split; [reflexivity|].
  apply (input_table_for_geocoding example_utils no_cache (SrcDataFrame addresses) None
           "fail" false w_addresses
           (World [E_to_carto (SrcDataFrame addresses) "table_tmp" (Some "fail")]
              (SrcDataFrame addresses) ["address"])
           "table_tmp" true).
  - reflexivity.
  - reflexivity.
Defined.

Lemma only_the_temporary_table_is_deleted_witness :
  ∃ evs,
    calls (geocode_addresses no_cache (SrcDataFrame addresses) None false false).2
    = [] ++ evs ∧
    ∀ t, E_delete_table t ∈ evs -> t = "table_tmp".
Proof.
  destruct (only_the_temporary_table_is_deleted example_utils no_cache 2
              (SrcDataFrame addresses) "address" ArgNone ArgNone ArgNone StatusNone None
              "fail" false w0
              (geocode_addresses no_cache (SrcDataFrame addresses) None false false).2
              (geocode_addresses no_cache (SrcDataFrame addresses) None false false).1)
    as (evs & Hevs & Hdel).
  - vm_compute. reflexivity.
  - exists evs. split; [exact Hevs|]. intros t Ht. now destruct (Hdel t Ht) as (_ & _ & _ & ->).
Defined.

Lemma lock_is_released_witness :
  ∃ evs, calls (_geocode_table no_cache false).2 = [] ++ evs ∧
         ∀ t, lock_held t false evs = false.
Proof.
  apply (lock_is_released example_utils no_cache "t" "address" ArgNone ArgNone ArgNone
           StatusNone false w0 (_geocode_table no_cache false).2
           (_geocode_table no_cache false).1).
  vm_compute. reflexivity.
Defined.

Lemma geocoding_goes_through_witness :
  _geocode_table no_cache false
  = (Returns (geocoded 2),
     World (calls w_prior ++ geocoding_calls ++ [q_posterior "t"]) (SrcStr "") []).
Proof.
  apply (geocoding_goes_through example_utils no_cache "t" "address" ArgNone ArgNone
           ArgNone StatusNone w0 w_prior (Some (summary_result 2)) (Some (summary_result 2))
           (summary_of 2) (quota 2) (geocoded 2) 2 (Some (summary_result 2)) None).
  - vm_compute. reflexivity.
  - reflexivity.
  - vm_compute. reflexivity.
  - vm_compute. reflexivity.
  - lia.
  - reflexivity.
  - reflexivity.
  - reflexivity.
  - reflexivity.
  - reflexivity.
  - vm_compute. reflexivity.
Defined.

Lemma geocoding_error_is_reported_witness :
  ∃ output,
    _geocode_table out_of_quota false
    = (Returns output, World (calls w_prior ++ geocoding_calls) (SrcStr "") []) ∧
    output !! "error" = Some (VStr quota_message) ∧
    output !! "required_quota" = Some (VInt 2).
Proof.
  destruct (geocoding_error_is_reported example_utils out_of_quota "t" "address" ArgNone
              ArgNone ArgNone StatusNone w0 w_prior (Some (summary_result 2)) (summary_of 2)
              (quota 2) 2 (Some (summary_result 2)) (Exn Exception quota_message))
    as (output & Hrun & Herror & Hquota & _).
  - vm_compute. reflexivity.
  - reflexivity.
  - vm_compute. reflexivity.
  - vm_compute. reflexivity.
  - lia.
  - reflexivity.
  - reflexivity.
  - reflexivity.
  - reflexivity.
  - exists output. split; [exact Hrun|]. split; [exact Herror|exact Hquota].
Defined.

Lemma geocode_reads_back_the_geocoded_table_witness :
  ∃ name w2 metadata cdf,
    r_read_carto no_cache (calls w2) name = Returns cdf ∧
    Result (Some cache_frame) (geocoded 2) = Result (Some cdf) metadata.
Proof.
  destruct (geocode_reads_back_the_geocoded_table example_utils no_cache 1
              (SrcDataFrame addresses) "address" ArgNone ArgNone ArgNone StatusNone None
              "fail" w0
              (geocode_addresses no_cache (SrcDataFrame addresses) None false false).2
              (Result (Some cache_frame) (geocoded 2)))
    as (cols & city & state & country & name & is_temporary & w1 & w2 & metadata & cdf &
        _ & _ & _ & _ & _ & _ & Hread & Hres & _).
  - vm_compute. reflexivity.
  - exists name, w2, metadata, cdf. split; [exact Hread|exact Hres].
Defined.

Lemma dry_run_uploads_the_dataframe_witness :
  ∃ q1 q2,
    calls (geocode_addresses no_cache (SrcDataFrame addresses) None true false).2
    = [] ++ [E_get_column_names (SrcDataFrame addresses);
             E_to_carto (SrcDataFrame addresses) "table_tmp" (Some "fail");
             E_execute_query q1; E_execute_query q2].
Proof.
  apply (dry_run_uploads_the_dataframe example_utils no_cache 1 addresses "address" ArgNone
           ArgNone ArgNone StatusNone None "fail" w0
           (geocode_addresses no_cache (SrcDataFrame addresses) None true false).2
           (Result None (quota 2))).
  vm_compute. reflexivity.
Defined.

Lemma split_table_name_parts_witness :
  GBQNames.split_table_name "project.dataset.table"
  = Returns (Some "project", "dataset", "table") ∧
  GBQNames.split_table_name "dataset.table" = Returns (None, "dataset", "table") ∧
  GBQNames.split_table_name "table" = Raises index_error ∧
  GBQNames.split_table_name "extra.project.dataset.table"
  = Returns (None, "dataset", "table").
Proof.
  apply (split_table_name_parts "extra" "project" "dataset" "table");
    cbn [GBQNames.dotless]; repeat split; discriminate.
Defined.

Lemma tileset_for_a_given_bbox_witness :
  ∃ r qs', tileset GBQExample.bigquery (Some GBQExample.bbox) = Some (r, qs').
Proof.
  destruct (tileset_for_a_given_bbox GBQExample.bigquery GBQExample.tile GBQExample.quadkey
              GBQExample.py_int no_transform ceil_div 20 "prepared" "tiles" 0 [0; 1; 1] [])
    as (r & qs' & Hrun & _).
  - lia.
  - exists r, qs'. exact Hrun.
Defined.

Lemma tileset_bbox_from_the_table_witness :
  (∃ msg, tileset GBQExample.bigquery None
          = Some (Raises (Exn UnboundLocalError msg),
                  [GBQ.Query Z GBQ.bounding_box [("prepare_table", GBQ.FStr Z "prepared")]])) ∧
  (∃ qs', tileset bigquery_rows None = Some (Returns ([-5; -5; 5; 5], 20), qs')).
Proof.
  split.
  - destruct (tileset_bbox_from_the_table GBQExample.bigquery GBQExample.tile
                GBQExample.quadkey GBQExample.py_int no_transform ceil_div 20 "prepared"
                "tiles" None []) as [Hempty _].
    + left. reflexivity.
    + apply Hempty. reflexivity.
  - eexists. vm_compute. reflexivity.
Defined.

Lemma insert_with_short_bbox_witness :
  GBQ.insert_low_level_zoom_data Z GBQExample.bigquery GBQExample.json_dumps "prepared"
    [0; 0] 20 (Some [0; 9; 12]) [] "tiles" [] = (Raises index_error, []) ∧
  GBQ.insert_medium_level_zoom_data Z GBQExample.bigquery GBQExample.json_dumps "prepared"
    [0; 0] 20 (Some [0; 9; 12]) [] "tiles" [] = (Raises index_error, []) ∧
  GBQ.insert_high_level_zoom_data Z GBQExample.bigquery GBQExample.json_dumps "prepared"
    [0; 0] 20 (Some [0; 9; 12]) [] "tiles" [] = (Raises index_error, []).
Proof.
  destruct (insert_with_short_bbox GBQExample.bigquery GBQExample.json_dumps "prepared"
              "tiles" [0; 0] 20 (Some [0; 9; 12]) [] []) as (Hlow & Hmedium & Hhigh).
  - simpl. lia.
  - split; [|split]; [apply Hlow|apply Hmedium|apply Hhigh]; vm_compute; discriminate.
Defined.

Lemma inserts_in_sequence_witness :
  ∃ low_query medium_9 medium_10 high_12,
    insert_all GBQExample.bbox (Some [12; 0; 9; 10; 4]) []
    = (Returns tt, [low_query; medium_9; medium_10; high_12]) ∧
    kwarg "zooms" (GBQ.q_args Z low_query) = Some (GBQ.FZooms Z [0; 4]) ∧
    kwarg "zooms" (GBQ.q_args Z medium_9) = Some (GBQ.FZooms Z [9]) ∧
    kwarg "zooms" (GBQ.q_args Z medium_10) = Some (GBQ.FZooms Z [10]) ∧
    kwarg "depth" (GBQ.q_args Z high_12) = Some (GBQ.FInt Z 1).
Proof.
  destruct (inserts_in_sequence GBQExample.bigquery GBQExample.json_dumps "prepared" "tiles"
              GBQExample.bbox 20 (Some [12; 0; 9; 10; 4]) [] []
              (insert_all GBQExample.bbox (Some [12; 0; 9; 10; 4]) []).2)
    as (lq & mq & hq & Hqs & Hlen & Hlow & Hmedium & Hhigh & _).
  - vm_compute. reflexivity.
  - destruct lq as [|low_query [|? ?]]; try discriminate Hlen.
    apply Forall_cons in Hlow as [[_ Hlow] _].
    apply Forall2_cons_inv_l in Hmedium as (medium_9 & mq' & [_ H9] & Hmedium & ->).
    apply Forall2_cons_inv_l in Hmedium as (medium_10 & mq'' & [_ H10] & Hmedium & ->).
    apply Forall2_nil_inv_l in Hmedium as ->.
    apply Forall2_cons_inv_l in Hhigh as (high_12 & hq' & [_ H12] & Hhigh & ->).
    apply Forall2_nil_inv_l in Hhigh as ->.
    cbn [app] in Hqs.
    exists low_query, medium_9, medium_10, high_12.
    split; [rewrite <- Hqs; vm_compute; reflexivity|].
    split; [exact Hlow|]. split; [exact H9|]. split; [exact H10|exact H12].
Defined.

Lemma schema_without_min_max_witness :
  (input_schema false).2 = [] ++ [GBQSchema.get_table "project.dataset.table"] ∧
  ∀ schema, (input_schema false).1 = Returns schema -> schema !! "geom" = None.
Proof.
  destruct (schema_without_min_max bq_table bq_query query_of_table "project.dataset.table"
              "id" "geom" [] (input_schema false).2 (input_schema false).1)
    as (Hcalls & Hschema).
  - vm_compute. reflexivity.
  - split; [exact Hcalls|]. intros schema Hrun. now destruct (Hschema schema Hrun) as (_ & ? & _).
Defined.

Lemma schema_with_min_max_witness :
  ∃ e, schema_with_bounds !! "population" = Some e ∧
       GBQSchema.e_min Z e = Some 10 ∧ GBQSchema.e_max Z e = Some 90.
Proof.
  destruct (schema_with_min_max bq_table bq_query query_of_table "project.dataset.table"
              "id" "geom" [] (input_schema true).2 schema_with_bounds)
    as (fs & res & Hfields & _ & Hres & _ & _ & _ & _ & Hlast).
  - vm_compute. reflexivity.
  - injection Hfields as <-. injection Hres as <-.
    eexists. split; [reflexivity|].
    eapply (Hlast _ eq_refl "population"); [|reflexivity].
    apply (bool_decide_unpack _). vm_compute. exact I.
Defined.

Lemma variables_of_a_dataset_witness :
  CatalogDataset.variables dataset no_variables []
  = (Returns None, [VariableRepo.get_variables ["dataset_id"; "dataset_1"]]).
Proof.
  destruct (variables_of_a_dataset dataset no_variables []) as [Hid _].
  destruct (Hid "dataset_1" eq_refl) as (_ & Hcalls & Hnone).
  rewrite (surjective_pairing (CatalogDataset.variables dataset no_variables [])).
  now rewrite Hcalls, Hnone.
Defined.
